(** * Clara: the backend-configuration panel's operation orchestrator

    A shallow embedding of [BackendConfigurationPanel]
    (src/src/i18n/index.ts, lines 210-1413): the React component whose
    handlers drive the remote [llamaSwap] service through select-backend,
    reconfigure, restart and save sequences.

    The component's [useState] cells become one record [State]; a handler is
    a function on a [World] (the state, the host environment, the pending
    remote calls, the pending [setTimeout] callbacks and a clock).  An
    [async] handler is cut at each [await]: the code up to the first remote
    call is the handler itself, the code after it is a continuation
    ([Kont]) that runs when the call settles.

    Two smaller parts follow the panel: the translation module of the
    same file (lines 1-127: [loadTranslations], [getNestedValue], [t],
    [p]), with the string operations of JavaScript it rests on, and the
    theme hook [useTheme] (src/unnamed/part_000), with the class list of
    the root element and [localStorage]. *)

From Stdlib Require Import String Ascii List ZArith Bool DecimalString.
Import ListNotations.
Open Scope string_scope.

Set Implicit Arguments.
Set Warnings "-register-all".

(* ------------------------------------------------------------------ *)
(** * JavaScript values the code handles *)

(** The double quote, line feed and backslash characters. *)
Definition dquote : ascii := "034"%char.
Definition newline : ascii := "010"%char.
Definition backslash : ascii := "092"%char.

(** A JS [number] as the panel meets it: an integer, or the [NaN] that
    [parseInt] returns on an empty input box. *)
Inductive number := Num (z : Z) | NaN.

(** The digits of a whole number.  That is what [String(n)] and
    [JSON.stringify] print for a safe integer (up to 2^53 - 1 in size);
    JavaScript rounds a larger number and, from 1e21 on, prints it with
    an exponent, which [decimal] does not follow. *)
Definition decimal (z : Z) : string := NilZero.string_of_int (Z.to_int z).

(** [x || d] on an optional string: [undefined], [null] and the empty
    string are falsy. *)
Definition truthy_string (o : option string) : bool :=
  match o with
  | Some s => negb (s =? "")
  | None => false
  end.

Definition or_else (o : option string) (d : string) : string :=
  match o with
  | Some s => if s =? "" then d else s
  | None => d
  end.

(** What a [catch (error)] clause receives: an [Error] object with its
    message, or some other thrown value. *)
Inductive Thrown := ErrorObject (message : string) | NonError.

(** [error instanceof Error ? error.message : fallback] *)
Definition message_of (e : Thrown) (fallback : string) : string :=
  match e with
  | ErrorObject m => m
  | NonError => fallback
  end.

(* ------------------------------------------------------------------ *)
(** * The configuration document ([configuration: any]) *)

Inductive json :=
| JNull
| JBool (b : bool)
| JNumber (n : Z)
| JString (s : string)
| JArray (items : list json)
| JObject (members : list (string * json)).

(** JS truthiness of a document value: objects and arrays are truthy even
    when empty. *)
Definition truthy_json (v : json) : bool :=
  match v with
  | JNull => false
  | JBool b => b
  | JNumber n => negb (n =? 0)%Z
  | JString s => negb (s =? "")
  | JArray _ | JObject _ => true
  end.

Definition hex_digit (n : nat) : ascii :=
  nth n ["0"; "1"; "2"; "3"; "4"; "5"; "6"; "7"; "8"; "9";
         "a"; "b"; "c"; "d"; "e"; "f"]%char "0"%char.

(** ECMAScript QuoteJSONString, one code unit at a time. *)
Definition escape_char (c : ascii) : string :=
  let n := nat_of_ascii c in
  if (n =? 8)%nat then String backslash "b"
  else if (n =? 9)%nat then String backslash "t"
  else if (n =? 10)%nat then String backslash "n"
  else if (n =? 12)%nat then String backslash "f"
  else if (n =? 13)%nat then String backslash "r"
  else if (n =? 34)%nat then String backslash (String dquote "")
  else if (n =? 92)%nat then String backslash (String backslash "")
  else if (n <? 32)%nat then
    String backslash ("u00" ++ String (hex_digit (n / 16)) (String (hex_digit (n mod 16)) ""))
  else String c "".

Fixpoint escape (s : string) : string :=
  match s with
  | EmptyString => ""
  | String c s' => escape_char c ++ escape s'
  end.

Definition quote (s : string) : string :=
  String dquote (escape s ++ String dquote "").

Fixpoint spaces (n : nat) : string :=
  match n with
  | O => ""
  | S n' => String " " (spaces n')
  end.

(** ECMAScript SerializeJSONProperty with the gap string [gap] and the
    current indentation [indent]. *)
Fixpoint serialize (gap indent : string) (v : json) : string :=
  match v with
  | JNull => "null"
  | JBool true => "true"
  | JBool false => "false"
  | JNumber n => decimal n
  | JString s => quote s
  | JArray items =>
      let stepback := indent in
      let indent := indent ++ gap in
      let partial := map (serialize gap indent) items in
      match partial with
      | [] => "[]"
      | _ =>
          if gap =? "" then "[" ++ String.concat "," partial ++ "]"
          else
            let separator := "," ++ String newline indent in
            "[" ++ String newline indent ++ String.concat separator partial
                ++ String newline stepback ++ "]"
      end
  | JObject members =>
      let stepback := indent in
      let indent := indent ++ gap in
      let partial :=
        map (fun kv => quote (fst kv) ++ ":" ++ (if gap =? "" then "" else " ")
                         ++ serialize gap indent (snd kv)) members in
      match partial with
      | [] => "{}"
      | _ =>
          if gap =? "" then "{" ++ String.concat "," partial ++ "}"
          else
            let separator := "," ++ String newline indent in
            "{" ++ String newline indent ++ String.concat separator partial
                ++ String newline stepback ++ "}"
      end
  end.

(** [JSON.stringify(value, null, space)]: the gap is [space] blanks, ten
    at most. *)
Definition JSON_stringify (value : json) (space : nat) : string :=
  serialize (spaces (Nat.min space 10)) "" value.

(* ------------------------------------------------------------------ *)
(** * The data model (lines 160-208) *)

Module Backend.
Record t := {
  id : string;
  name : string;
  description : string;
  folder : string;
  requiresGPU : bool;
  gpuType : string;
  isAvailable : bool;
  binaryPath : option string
}.
End Backend.

Record BackendOverride := {
  backendId : option string;
  isOverridden : bool;
  timestamp : option string
}.

Module ModelStatus.
Inductive t := available | running | error.
End ModelStatus.

Record ModelConfig := {
  name : string;
  path : string;
  port : number;
  isEmbedding : bool;
  nativeContextSize : option number;
  configuredContextSize : option number;
  gpuLayers : option number;
  batchSize : option number;
  ubatchSize : option number;
  threads : option number;
  flashAttention : option bool;
  memoryLock : option bool;
  ttl : option number;
  status : ModelStatus.t
}.

(** [keyof ModelConfig] *)
Inductive Field :=
| F_name | F_path | F_port | F_isEmbedding
| F_nativeContextSize | F_configuredContextSize | F_gpuLayers
| F_batchSize | F_ubatchSize | F_threads
| F_flashAttention | F_memoryLock | F_ttl | F_status.

Definition Field_eq_dec (f g : Field) : {f = g} + {f <> g}.
Proof. decide equality. Defined.

(** The declared type of each key; an optional key may hold [undefined]. *)
Definition FieldType (f : Field) : Type :=
  match f with
  | F_name | F_path => string
  | F_port => number
  | F_isEmbedding => bool
  | F_nativeContextSize | F_configuredContextSize | F_gpuLayers
  | F_batchSize | F_ubatchSize | F_threads | F_ttl => option number
  | F_flashAttention | F_memoryLock => option bool
  | F_status => ModelStatus.t
  end.

(** [model[field]] *)
Definition get_field (f : Field) (model : ModelConfig) : FieldType f :=
  match f with
  | F_name => name model
  | F_path => path model
  | F_port => port model
  | F_isEmbedding => isEmbedding model
  | F_nativeContextSize => nativeContextSize model
  | F_configuredContextSize => configuredContextSize model
  | F_gpuLayers => gpuLayers model
  | F_batchSize => batchSize model
  | F_ubatchSize => ubatchSize model
  | F_threads => threads model
  | F_flashAttention => flashAttention model
  | F_memoryLock => memoryLock model
  | F_ttl => ttl model
  | F_status => status model
  end.

(** [{ ...model, [field]: value }]: the key [field] holds [value], every
    other key holds what [model] holds. *)
Definition spread_with (model : ModelConfig) (field : Field)
    (value : FieldType field) : ModelConfig :=
  let key (g : Field) : FieldType g :=
    match Field_eq_dec field g with
    | left e => eq_rect field FieldType value g e
    | right _ => get_field g model
    end in
  {| name := key F_name;
     path := key F_path;
     port := key F_port;
     isEmbedding := key F_isEmbedding;
     nativeContextSize := key F_nativeContextSize;
     configuredContextSize := key F_configuredContextSize;
     gpuLayers := key F_gpuLayers;
     batchSize := key F_batchSize;
     ubatchSize := key F_ubatchSize;
     threads := key F_threads;
     flashAttention := key F_flashAttention;
     memoryLock := key F_memoryLock;
     ttl := key F_ttl;
     status := key F_status |}.

Module ServiceStatus.
Record t := {
  isRunning : bool;
  port : number;
  pid : option number;
  currentBackendName : option string
}.
End ServiceStatus.

Record RestartAdvice := {
  required : bool;
  recommendation : string
}.

(** [result.models]: a model list from [getModelConfigurations], a count
    from [regenerateConfig], absent elsewhere. *)
Inductive Models :=
| NoModels
| ModelList (models : list ModelConfig)
| ModelCount (count : Z).

(** The object a remote call resolves to.  Every call answers with
    [success] and, on failure, [error]; the other keys are those the
    handlers read.  [getConfigurationInfo]'s answer is stored whole as the
    snapshot ([ConfigurationInfo], lines 194-208). *)
Module Result.
Record t := {
  success : bool;
  error : option string;
  availableBackends : list Backend.t;
  currentBackendOverride : option BackendOverride;
  configuration : option json;
  configPath : string;
  platform : string;
  architecture : string;
  serviceStatus : option ServiceStatus.t;
  models : Models;
  requiresRestart : option RestartAdvice
}.
End Result.

Definition ConfigurationInfo := Result.t.

(** How an awaited remote call settles. *)
Inductive Settled :=
| Fulfilled (result : Result.t)
| Rejected (reason : Thrown).

(* ------------------------------------------------------------------ *)
(** * The component state (lines 211-231) *)

Inductive OperationType :=
| idle | saving | restarting | reconfiguring | success | error.

Record OperationStatus := {
  type : OperationType;
  message : string
}.

Module State.
Record t := {
  configInfo : option ConfigurationInfo;
  loading : bool;
  error : option string;
  selectedBackend : string;
  actualBackend : string;
  jsonConfig : string;
  jsonError : option string;
  modelConfigs : list ModelConfig;
  operationStatus : OperationStatus;
  hasUnsavedChanges : bool
}.

(** The values of the [useState] initialisers.  The view-only cells
    ([showJsonEditor], [selectedModelId], [expandedSections]) fold and
    unfold parts of the page and are left out. *)
Definition initial : t :=
  {| configInfo := None;
     loading := true;
     error := None;
     selectedBackend := "auto";
     actualBackend := "";
     jsonConfig := "";
     jsonError := None;
     modelConfigs := [];
     operationStatus := {| type := idle; message := "" |};
     hasUnsavedChanges := false |}.

(** The [useState] setters. *)
Definition setConfigInfo v (s : t) : t :=
  {| configInfo := v; loading := loading s; error := error s;
     selectedBackend := selectedBackend s; actualBackend := actualBackend s;
     jsonConfig := jsonConfig s; jsonError := jsonError s;
     modelConfigs := modelConfigs s; operationStatus := operationStatus s;
     hasUnsavedChanges := hasUnsavedChanges s |}.
Definition setLoading v (s : t) : t :=
  {| configInfo := configInfo s; loading := v; error := error s;
     selectedBackend := selectedBackend s; actualBackend := actualBackend s;
     jsonConfig := jsonConfig s; jsonError := jsonError s;
     modelConfigs := modelConfigs s; operationStatus := operationStatus s;
     hasUnsavedChanges := hasUnsavedChanges s |}.
Definition setError v (s : t) : t :=
  {| configInfo := configInfo s; loading := loading s; error := v;
     selectedBackend := selectedBackend s; actualBackend := actualBackend s;
     jsonConfig := jsonConfig s; jsonError := jsonError s;
     modelConfigs := modelConfigs s; operationStatus := operationStatus s;
     hasUnsavedChanges := hasUnsavedChanges s |}.
Definition setSelectedBackend v (s : t) : t :=
  {| configInfo := configInfo s; loading := loading s; error := error s;
     selectedBackend := v; actualBackend := actualBackend s;
     jsonConfig := jsonConfig s; jsonError := jsonError s;
     modelConfigs := modelConfigs s; operationStatus := operationStatus s;
     hasUnsavedChanges := hasUnsavedChanges s |}.
Definition setActualBackend v (s : t) : t :=
  {| configInfo := configInfo s; loading := loading s; error := error s;
     selectedBackend := selectedBackend s; actualBackend := v;
     jsonConfig := jsonConfig s; jsonError := jsonError s;
     modelConfigs := modelConfigs s; operationStatus := operationStatus s;
     hasUnsavedChanges := hasUnsavedChanges s |}.
Definition setJsonConfig v (s : t) : t :=
  {| configInfo := configInfo s; loading := loading s; error := error s;
     selectedBackend := selectedBackend s; actualBackend := actualBackend s;
     jsonConfig := v; jsonError := jsonError s;
     modelConfigs := modelConfigs s; operationStatus := operationStatus s;
     hasUnsavedChanges := hasUnsavedChanges s |}.
Definition setJsonError v (s : t) : t :=
  {| configInfo := configInfo s; loading := loading s; error := error s;
     selectedBackend := selectedBackend s; actualBackend := actualBackend s;
     jsonConfig := jsonConfig s; jsonError := v;
     modelConfigs := modelConfigs s; operationStatus := operationStatus s;
     hasUnsavedChanges := hasUnsavedChanges s |}.
(** [setModelConfigs(prev => f(prev))] *)
Definition setModelConfigs (f : list ModelConfig -> list ModelConfig) (s : t) : t :=
  {| configInfo := configInfo s; loading := loading s; error := error s;
     selectedBackend := selectedBackend s; actualBackend := actualBackend s;
     jsonConfig := jsonConfig s; jsonError := jsonError s;
     modelConfigs := f (modelConfigs s); operationStatus := operationStatus s;
     hasUnsavedChanges := hasUnsavedChanges s |}.
Definition setOperationStatus v (s : t) : t :=
  {| configInfo := configInfo s; loading := loading s; error := error s;
     selectedBackend := selectedBackend s; actualBackend := actualBackend s;
     jsonConfig := jsonConfig s; jsonError := jsonError s;
     modelConfigs := modelConfigs s; operationStatus := v;
     hasUnsavedChanges := hasUnsavedChanges s |}.
Definition setHasUnsavedChanges v (s : t) : t :=
  {| configInfo := configInfo s; loading := loading s; error := error s;
     selectedBackend := selectedBackend s; actualBackend := actualBackend s;
     jsonConfig := jsonConfig s; jsonError := jsonError s;
     modelConfigs := modelConfigs s; operationStatus := operationStatus s;
     hasUnsavedChanges := v |}.
End State.

(* ------------------------------------------------------------------ *)
(** * The host: remote service, parser, timers *)

(** The methods of [window.llamaSwap] the panel calls, with their
    arguments. *)
Module llamaSwap.
Inductive Call :=
| getConfigurationInfo
| getModelConfigurations
| setBackendOverride (backendId : option string)
| restartWithOverrides
| regenerateConfig
| saveConfigFromJson (jsonConfig : string)
| saveConfigAndRestart (jsonConfig : string)
| saveModelConfiguration (modelName : string) (modelConfig : ModelConfig)
| saveAllModelConfigurations (modelConfigs : list ModelConfig).

Definition method (c : Call) : string :=
  match c with
  | getConfigurationInfo => "getConfigurationInfo"
  | getModelConfigurations => "getModelConfigurations"
  | setBackendOverride _ => "setBackendOverride"
  | restartWithOverrides => "restartWithOverrides"
  | regenerateConfig => "regenerateConfig"
  | saveConfigFromJson _ => "saveConfigFromJson"
  | saveConfigAndRestart _ => "saveConfigAndRestart"
  | saveModelConfiguration _ _ => "saveModelConfiguration"
  | saveAllModelConfigurations _ => "saveAllModelConfigurations"
  end.
End llamaSwap.
Import llamaSwap(Call).

(** What the page finds around it: whether [window.llamaSwap] is there,
    whether it has [getModelConfigurations] (line 276 asks), and the
    platform's [JSON.parse], which either accepts a text ([None]) or throws
    a [SyntaxError] with a message ([Some]). *)
Record Host := {
  llamaSwap_present : bool;
  getModelConfigurations_present : bool;
  JSON_parse : string -> option string
}.

(** The message of the [TypeError] that calling a method of an undefined
    [llamaSwap] raises. *)
Definition undefined_method_message (method : string) : string :=
  "Cannot read properties of undefined (reading '" ++ method ++ "')".

(** A pending [setTimeout]: every callback in the file is
    [setOperationStatus(<constant>)]. *)
Record Timer := {
  due : N;
  callback : OperationStatus
}.

(** What the caller of [loadConfigurationInfo] does once the awaited load
    returns: nothing (mount, retry), or schedule the auto-clear. *)
Definition AfterLoad := option N.

(** The rest of an [async] handler after an [await]. *)
Inductive Kont :=
| K_setBackendOverride (backendId : string)          (* line 303 *)
| K_restartAfterOverride (backendId : string)        (* line 327 *)
| K_regenerateConfig                                 (* line 365 *)
| K_restartWithOverrides                             (* line 410 *)
| K_saveConfigFromJson                               (* line 467 *)
| K_saveConfigAndRestart                             (* line 528 *)
| K_saveModelConfiguration (modelName : string)      (* line 621 *)
| K_saveAllModelConfigurations                       (* line 654 *)
| K_getConfigurationInfo (after : AfterLoad)         (* line 244 *)
| K_getModelConfigurations (after : AfterLoad).      (* line 281 *)

Record World := {
  state : State.t;
  host : Host;
  now : N;                        (* milliseconds *)
  log : list Call;                (* every remote call made, oldest first *)
  awaiting : list (nat * Kont);   (* unsettled calls, by position in [log] *)
  timers : list Timer             (* pending timeouts, in scheduling order *)
}.

Definition Action := World -> World.

Definition skip : Action := fun w => w.

(** Statement after statement. *)
Definition seq (a b : Action) : Action := fun w => b (a w).

Declare Scope action_scope.
Delimit Scope action_scope with action.
Bind Scope action_scope with Action.
Notation "a ;; b" := (seq a b)
  (at level 61, right associativity) : action_scope.
Open Scope action_scope.

Definition update (f : State.t -> State.t) : Action := fun w =>
  {| state := f (state w); host := host w; now := now w; log := log w;
     awaiting := awaiting w; timers := timers w |}.

Definition setConfigInfo v := update (State.setConfigInfo v).
Definition setLoading v := update (State.setLoading v).
Definition setError v := update (State.setError v).
Definition setSelectedBackend v := update (State.setSelectedBackend v).
Definition setActualBackend v := update (State.setActualBackend v).
Definition setJsonConfig v := update (State.setJsonConfig v).
Definition setJsonError v := update (State.setJsonError v).
Definition setModelConfigs f := update (State.setModelConfigs f).
Definition setHasUnsavedChanges v := update (State.setHasUnsavedChanges v).
Definition setOperationStatus (t : OperationType) (m : string) : Action :=
  update (State.setOperationStatus {| type := t; message := m |}).

(** [setTimeout(() => setOperationStatus(status), delay)] *)
Definition setTimeout (status : OperationStatus) (delay : N) : Action := fun w =>
  {| state := state w; host := host w; now := now w; log := log w;
     awaiting := awaiting w;
     timers := timers w ++ [{| due := (now w + delay)%N; callback := status |}] |}.

(** The auto-clear: [setTimeout(() => setOperationStatus({ type: 'idle',
    message: '' }), delay)]. *)
Definition clear_after (delay : N) : Action :=
  setTimeout {| type := idle; message := "" |} delay.

(** [await llamaSwap.method(args)]: the call goes out and the handler
    suspends with [k]. *)
Definition await (c : Call) (k : Kont) : Action := fun w =>
  {| state := state w; host := host w; now := now w;
     log := log w ++ [c];
     awaiting := awaiting w ++ [(length (log w), k)];
     timers := timers w |}.

(** A call made inside [try { ... } catch (error) { handler }] through
    [const llamaSwap = (window as any).llamaSwap], which nothing checks:
    with no service object the property access throws into the [catch]. *)
Definition try_await (c : Call) (k : Kont) (catch : Thrown -> Action) : Action :=
  fun w =>
    if llamaSwap_present (host w) then await c k w
    else catch (ErrorObject (undefined_method_message (llamaSwap.method c))) w.

(** The [catch] block every operation handler ends with. *)
Definition catch_operation (fallback : string) (delay : N) (e : Thrown) : Action :=
  setOperationStatus error (message_of e fallback) ;;
  clear_after delay.

(* ------------------------------------------------------------------ *)
(** * Loading the snapshot (lines 234-288) *)

(** [finally { setLoading(false) }], then back in the awaiting caller. *)
Definition load_finally (after : AfterLoad) : Action :=
  setLoading false ;;
  match after with
  | Some delay => clear_after delay
  | None => skip
  end.

Definition load_catch (after : AfterLoad) (err : Thrown) : Action :=
  setError (Some (message_of err "Failed to load configuration")) ;;
  load_finally after.

(** [loadModelConfigurations], as awaited at line 260. *)
Definition loadModelConfigurations (after : AfterLoad) : Action := fun w =>
  if llamaSwap_present (host w) && getModelConfigurations_present (host w)
  then await llamaSwap.getModelConfigurations (K_getModelConfigurations after) w
  else load_finally after w.

Definition loadConfigurationInfo (after : AfterLoad) : Action :=
  setLoading true ;;
  setError None ;;
  fun w =>
    if llamaSwap_present (host w)
    then await llamaSwap.getConfigurationInfo (K_getConfigurationInfo after) w
    else load_catch after (ErrorObject "LlamaSwap service not available") w.

(** Lines 245-263, once [getConfigurationInfo] has settled. *)
Definition after_getConfigurationInfo (after : AfterLoad) (o : Settled) : Action :=
  match o with
  | Fulfilled result =>
      if Result.success result then
        setConfigInfo (Some result) ;;
        setSelectedBackend
          (or_else (match Result.currentBackendOverride result with
                    | Some o => backendId o
                    | None => None
                    end) "auto") ;;
        match Result.serviceStatus result with
        | Some st =>
            match ServiceStatus.currentBackendName st with
            | Some n => if n =? "" then skip else setActualBackend n
            | None => skip
            end
        | None => skip
        end ;;
        match Result.configuration result with
        | Some c => if truthy_json c then setJsonConfig (JSON_stringify c 2) else skip
        | None => skip
        end ;;
        loadModelConfigurations after
      else
        load_catch after
          (ErrorObject (or_else (Result.error result) "Failed to load configuration"))
  | Rejected err => load_catch after err
  end.

(** Lines 282-287, once [getModelConfigurations] has settled.  The state
    cell is typed as a list, and the answers of this call are taken to
    carry a list or nothing: line 283 would store any truthy [models] as
    it is, and the render that follows would throw on one that is no
    list.  Such an answer is outside the embedding; it is given the
    behaviour of an answer without [models]. *)
Definition after_getModelConfigurations (after : AfterLoad) (o : Settled) : Action :=
  match o with
  | Fulfilled result =>
      match Result.success result, Result.models result with
      | true, ModelList models => setModelConfigs (fun _ => models)
      | _, _ => skip
      end ;;
      load_finally after
  | Rejected _ => load_finally after
  end.

(* ------------------------------------------------------------------ *)
(** * The operation handlers (lines 294-679) *)

Definition isOperationInProgress (s : State.t) : bool :=
  match type (State.operationStatus s) with
  | saving | restarting | reconfiguring => true
  | idle | success | error => false
  end.

(** ** handleBackendChange (lines 298-357) *)

Definition catch_backendChange : Thrown -> Action :=
  catch_operation "Failed to change backend" 5000%N.

Definition handleBackendChange (backendId : string) : Action :=
  setOperationStatus saving "Updating backend selection..." ;;
  try_await
    (llamaSwap.setBackendOverride (if backendId =? "auto" then None else Some backendId))
    (K_setBackendOverride backendId)
    catch_backendChange.

Definition after_setBackendOverride (backendId : string) (o : Settled) : Action :=
  match o with
  | Fulfilled result =>
      if Result.success result then
        setSelectedBackend backendId ;;
        setOperationStatus restarting "Stopping service..." ;;
        setTimeout {| type := restarting; message := "Applying backend changes..." |} 1000%N ;;
        setTimeout {| type := restarting;
                      message := "Starting service with "
                                 ++ (if backendId =? "auto" then "auto-detect" else backendId)
                                 ++ " backend..." |} 3000%N ;;
        setTimeout {| type := restarting;
                      message := "Initializing service... (this may take a moment)" |} 5000%N ;;
        setTimeout {| type := restarting;
                      message := "Service startup in progress... (almost ready)" |} 10000%N ;;
        await llamaSwap.restartWithOverrides (K_restartAfterOverride backendId)
      else
        catch_backendChange (ErrorObject (or_else (Result.error result) "Failed to set backend"))
  | Rejected err => catch_backendChange err
  end.

Definition after_restartAfterOverride (backendId : string) (o : Settled) : Action :=
  match o with
  | Fulfilled restartResult =>
      if Result.success restartResult then
        setOperationStatus success
          ("✅ Backend changed to "
           ++ (if backendId =? "auto" then "Auto-detect" else backendId)
           ++ " and service restarted!") ;;
        loadConfigurationInfo (Some 3000%N)
      else
        catch_backendChange
          (ErrorObject (or_else (Result.error restartResult)
                                "Failed to restart service with new backend"))
  | Rejected err => catch_backendChange err
  end.

(** ** handleReconfigure (lines 360-392) *)

Definition catch_reconfigure : Thrown -> Action :=
  catch_operation "Failed to reconfigure" 3000%N.

(** [`${result.models}`] *)
Definition models_to_string (m : Models) : string :=
  match m with
  | NoModels => "undefined"
  | ModelList l => String.concat "," (map (fun _ => "[object Object]") l)
  | ModelCount n => decimal n
  end.

Definition handleReconfigure : Action :=
  setOperationStatus reconfiguring "Regenerating configuration..." ;;
  try_await llamaSwap.regenerateConfig K_regenerateConfig catch_reconfigure.

Definition after_regenerateConfig (o : Settled) : Action :=
  match o with
  | Fulfilled result =>
      if Result.success result then
        setOperationStatus success
          ("Configuration regenerated with "
           ++ models_to_string (Result.models result) ++ " models") ;;
        loadConfigurationInfo (Some 2000%N)
      else
        catch_reconfigure (ErrorObject (or_else (Result.error result) "Failed to reconfigure"))
  | Rejected err => catch_reconfigure err
  end.

(** ** handleRestartWithOverrides (lines 395-435) *)

Definition catch_restart : Thrown -> Action :=
  catch_operation "Failed to restart service" 3000%N.

Definition handleRestartWithOverrides : Action :=
  setOperationStatus restarting "Stopping service..." ;;
  setTimeout {| type := restarting; message := "Applying configuration..." |} 1000%N ;;
  setTimeout {| type := restarting; message := "Starting service with new settings..." |} 3000%N ;;
  try_await llamaSwap.restartWithOverrides K_restartWithOverrides catch_restart.

Definition after_restartWithOverrides (o : Settled) : Action :=
  match o with
  | Fulfilled result =>
      if Result.success result then
        setOperationStatus success "Service restarted successfully!" ;;
        loadConfigurationInfo (Some 2000%N)
      else
        catch_restart (ErrorObject (or_else (Result.error result) "Failed to restart service"))
  | Rejected err => catch_restart err
  end.

(** ** handleJsonChange (lines 438-451) *)

(** [configInfo?.configuration ? JSON.stringify(configInfo.configuration,
    null, 2) : ''] *)
Definition originalConfig (s : State.t) : string :=
  match State.configInfo s with
  | Some info =>
      match Result.configuration info with
      | Some c => if truthy_json c then JSON_stringify c 2 else ""
      | None => ""
      end
  | None => ""
  end.

Definition handleJsonChange (value : string) : Action := fun w =>
  (setJsonConfig value ;;
   setHasUnsavedChanges (negb (value =? originalConfig (state w))) ;;
   match JSON_parse (host w) value with
   | None => setJsonError None
   | Some syntax_error => setJsonError (Some syntax_error)
   end) w.

(** ** saveConfiguration (lines 454-502) *)

Definition catch_saveConfiguration : Thrown -> Action :=
  catch_operation "Failed to save configuration" 5000%N.

Definition saveConfiguration : Action := fun w =>
  if truthy_string (State.jsonError (state w)) then
    setOperationStatus error "Cannot save configuration with JSON errors" w
  else
    (setOperationStatus saving "Saving configuration..." ;;
     try_await (llamaSwap.saveConfigFromJson (State.jsonConfig (state w)))
               K_saveConfigFromJson catch_saveConfiguration) w.

(** [result.requiresRestart?.required] *)
Definition restart_required (result : Result.t) : bool :=
  match Result.requiresRestart result with
  | Some advice => required advice
  | None => false
  end.

Definition after_saveConfigFromJson (o : Settled) : Action :=
  match o with
  | Fulfilled result =>
      if Result.success result then
        let message :=
          "✅ Configuration saved successfully!"
          ++ match Result.requiresRestart result with
             | Some advice =>
                 if required advice then " ⚠️ " ++ recommendation advice else ""
             | None => ""
             end in
        setOperationStatus success message ;;
        setHasUnsavedChanges false ;;
        loadConfigurationInfo (Some (if restart_required result then 5000 else 2000)%N)
      else
        catch_saveConfiguration
          (ErrorObject (or_else (Result.error result) "Failed to save configuration"))
  | Rejected err => catch_saveConfiguration err
  end.

(** ** saveConfigurationAndRestart (lines 505-557) *)

Definition catch_saveAndRestart : Thrown -> Action :=
  catch_operation "Failed to save configuration and restart" 5000%N.

Definition saveConfigurationAndRestart : Action := fun w =>
  if truthy_string (State.jsonError (state w)) then
    setOperationStatus error "Cannot save configuration with JSON errors" w
  else
    (setOperationStatus saving "Saving configuration..." ;;
     setTimeout {| type := restarting;
                   message := "Configuration saved, restarting service..." |} 1000%N ;;
     setTimeout {| type := restarting; message := "Applying new configuration..." |} 3000%N ;;
     try_await (llamaSwap.saveConfigAndRestart (State.jsonConfig (state w)))
               K_saveConfigAndRestart catch_saveAndRestart) w.

Definition after_saveConfigAndRestart (o : Settled) : Action :=
  match o with
  | Fulfilled result =>
      if Result.success result then
        setOperationStatus success
          "✅ Configuration saved and service restarted successfully!" ;;
        setHasUnsavedChanges false ;;
        loadConfigurationInfo (Some 3000%N)
      else
        catch_saveAndRestart
          (ErrorObject (or_else (Result.error result)
                                "Failed to save configuration and restart"))
  | Rejected err => catch_saveAndRestart err
  end.

(** ** importConfiguration (lines 574-590), once the file is read *)

Definition importConfiguration (content : string) : Action := fun w =>
  match JSON_parse (host w) content with
  | None => (setJsonConfig content ;; setJsonError None) w
  | Some _ => setJsonError (Some "Invalid JSON file") w
  end.

(** ** updateModelConfig (lines 601-608) *)

(** The function mapped over the list: [model => model.name === modelName
    ? { ...model, [field]: value } : model]. *)
Definition patch (modelName : string) (field : Field) (value : FieldType field)
    (model : ModelConfig) : ModelConfig :=
  if name model =? modelName then spread_with model field value else model.

Definition updateModelConfig (modelName : string) (field : Field)
    (value : FieldType field) : Action :=
  setModelConfigs (map (patch modelName field value)) ;;
  setHasUnsavedChanges true.

(** ** saveModelConfiguration (lines 611-646) *)

Definition catch_saveModel : Thrown -> Action :=
  catch_operation "Failed to save model configuration" 3000%N.

Definition saveModelConfiguration (modelName : string) : Action :=
  setOperationStatus saving ("Saving configuration for " ++ modelName ++ "...") ;;
  fun w =>
    match find (fun m => name m =? modelName) (State.modelConfigs (state w)) with
    | None => catch_saveModel (ErrorObject "Model configuration not found") w
    | Some modelConfig =>
        try_await (llamaSwap.saveModelConfiguration modelName modelConfig)
                  (K_saveModelConfiguration modelName) catch_saveModel w
    end.

Definition after_saveModelConfiguration (modelName : string) (o : Settled) : Action :=
  match o with
  | Fulfilled result =>
      if Result.success result then
        setOperationStatus success ("✅ Configuration saved for " ++ modelName) ;;
        setHasUnsavedChanges false ;;
        clear_after 2000%N
      else
        catch_saveModel
          (ErrorObject (or_else (Result.error result) "Failed to save model configuration"))
  | Rejected err => catch_saveModel err
  end.

(** ** saveAllModelConfigurations (lines 649-679) *)

Definition catch_saveAllModels : Thrown -> Action :=
  catch_operation "Failed to save model configurations" 3000%N.

Definition saveAllModelConfigurations : Action := fun w =>
  (setOperationStatus saving "Saving all model configurations..." ;;
   try_await (llamaSwap.saveAllModelConfigurations (State.modelConfigs (state w)))
             K_saveAllModelConfigurations catch_saveAllModels) w.

Definition after_saveAllModelConfigurations (o : Settled) : Action :=
  match o with
  | Fulfilled result =>
      if Result.success result then
        setOperationStatus success "✅ All model configurations saved successfully!" ;;
        setHasUnsavedChanges false ;;
        clear_after 2000%N
      else
        catch_saveAllModels
          (ErrorObject (or_else (Result.error result) "Failed to save model configurations"))
  | Rejected err => catch_saveAllModels err
  end.

(** The code after each [await]. *)
Definition resume (k : Kont) (o : Settled) : Action :=
  match k with
  | K_setBackendOverride backendId => after_setBackendOverride backendId o
  | K_restartAfterOverride backendId => after_restartAfterOverride backendId o
  | K_regenerateConfig => after_regenerateConfig o
  | K_restartWithOverrides => after_restartWithOverrides o
  | K_saveConfigFromJson => after_saveConfigFromJson o
  | K_saveConfigAndRestart => after_saveConfigAndRestart o
  | K_saveModelConfiguration modelName => after_saveModelConfiguration modelName o
  | K_saveAllModelConfigurations => after_saveAllModelConfigurations o
  | K_getConfigurationInfo after => after_getConfigurationInfo after o
  | K_getModelConfigurations after => after_getModelConfigurations after o
  end.

(* ------------------------------------------------------------------ *)
(** * The view's controls (lines 727-1413) and the event loop *)

(** What the user can ask for. *)
Inductive Intent :=
| ChangeBackend (backendId : string)
| Reconfigure
| RestartWithOverrides
| SaveConfig
| SaveConfigAndRestart
| SaveModel (modelName : string)
| SaveAllModels.

(** The [onClick] of each intent's button. *)
Definition handler (i : Intent) : Action :=
  match i with
  | ChangeBackend backendId => handleBackendChange backendId
  | Reconfigure => handleReconfigure
  | RestartWithOverrides => handleRestartWithOverrides
  | SaveConfig => saveConfiguration
  | SaveConfigAndRestart => saveConfigurationAndRestart
  | SaveModel modelName => saveModelConfiguration modelName
  | SaveAllModels => saveAllModelConfigurations
  end.

(** Lines 727-762: while loading, or with a load error, the page shows a
    spinner or the error card instead of the panel. *)
Definition panel_shown (s : State.t) : bool :=
  negb (State.loading s) && negb (truthy_string (State.error s)).

(** Whether the intent's button is on the panel (given that the section
    holding it is unfolded). *)
Definition offered (i : Intent) (s : State.t) : bool :=
  match i with
  | ChangeBackend backendId =>
      (backendId =? "auto")
      || match State.configInfo s with
         | Some info =>
             existsb (fun b => Backend.isAvailable b
                               && negb (Backend.id b =? "auto")
                               && (Backend.id b =? backendId))
                     (Result.availableBackends info)
         | None => false
         end
  | Reconfigure | RestartWithOverrides | SaveConfig | SaveConfigAndRestart => true
  | SaveModel modelName => existsb (fun m => name m =? modelName) (State.modelConfigs s)
  | SaveAllModels => negb (length (State.modelConfigs s) =? 0)%nat
  end.

(** The button's [disabled] attribute. *)
Definition disabled (i : Intent) (s : State.t) : bool :=
  match i with
  | ChangeBackend _ | Reconfigure | RestartWithOverrides | SaveModel _ =>
      isOperationInProgress s
  | SaveConfig | SaveConfigAndRestart =>
      isOperationInProgress s
      || truthy_string (State.jsonError s)
      || negb (State.hasUnsavedChanges s)
  | SaveAllModels =>
      isOperationInProgress s || negb (State.hasUnsavedChanges s)
  end.

(** A click: a button that is absent or disabled runs nothing. *)
Definition click (i : Intent) : Action := fun w =>
  if panel_shown (state w) && offered i (state w) && negb (disabled i (state w))
  then handler i w
  else w.

(** The model inputs of lines 1017-1150: the context-size slider is
    disabled on an embedding model; no input looks at the operation
    status. *)
Definition editable (modelName : string) (field : Field) (s : State.t) : bool :=
  match find (fun m => name m =? modelName) (State.modelConfigs s) with
  | Some model =>
      match field with
      | F_configuredContextSize => negb (isEmbedding model)
      | F_gpuLayers | F_batchSize | F_threads | F_ttl
      | F_flashAttention | F_memoryLock => true
      | _ => false
      end
  | None => false
  end.

Inductive Event :=
| Mount                                            (* line 290 *)
| Retry                                            (* line 752 *)
| Click (i : Intent)
| ChangeJson (value : string)                      (* line 1274 *)
| ImportFile (content : string)                    (* line 1250 *)
| ChangeModel (modelName : string) (field : Field) (value : FieldType field)
| Settle (call : nat) (o : Settled)                (* a remote call answers *)
| Elapse (ms : N)                                  (* time passes *)
| Fire.                                            (* the next timeout runs *)

Fixpoint take (call : nat) (l : list (nat * Kont)) : option (Kont * list (nat * Kont)) :=
  match l with
  | [] => None
  | (n, k) :: l' =>
      if (n =? call)%nat then Some (k, l')
      else match take call l' with
           | Some (k', rest) => Some (k', (n, k) :: rest)
           | None => None
           end
  end.

Fixpoint earliest (t : Timer) (l : list Timer) : N :=
  match l with
  | [] => due t
  | t' :: l' => N.min (due t) (earliest t' l')
  end.

Fixpoint remove_due (d : N) (l : list Timer) : list Timer :=
  match l with
  | [] => []
  | t :: l' => if (due t =? d)%N then l' else t :: remove_due d l'
  end.

(** The timeout that runs next: the least [due], the first scheduled among
    equals. *)
Definition next_timer (l : list Timer) : option (Timer * list Timer) :=
  match l with
  | [] => None
  | t :: l' =>
      let d := earliest t l' in
      match find (fun x => (due x =? d)%N) l with
      | Some x => Some (x, remove_due d l)
      | None => None
      end
  end.

Definition with_awaiting (l : list (nat * Kont)) (w : World) : World :=
  {| state := state w; host := host w; now := now w; log := log w;
     awaiting := l; timers := timers w |}.

Definition with_timers (l : list Timer) (w : World) : World :=
  {| state := state w; host := host w; now := now w; log := log w;
     awaiting := awaiting w; timers := l |}.

Definition with_now (t : N) (w : World) : World :=
  {| state := state w; host := host w; now := t; log := log w;
     awaiting := awaiting w; timers := timers w |}.

(** One turn of the event loop; [None] when the event cannot happen in
    [w] (no such pending call, time running past a due timeout, a timeout
    fired early, an input that is not on the page). *)
Definition step (e : Event) (w : World) : option World :=
  match e with
  | Mount => Some (loadConfigurationInfo None w)
  | Retry =>
      if negb (State.loading (state w)) && truthy_string (State.error (state w))
      then Some (loadConfigurationInfo None w) else None
  | Click i => Some (click i w)
  | ChangeJson value =>
      if panel_shown (state w) then Some (handleJsonChange value w) else None
  | ImportFile content =>
      if panel_shown (state w) then Some (importConfiguration content w) else None
  | ChangeModel modelName field value =>
      if panel_shown (state w) && editable modelName field (state w)
      then Some (updateModelConfig modelName field value w) else None
  | Settle call o =>
      match take call (awaiting w) with
      | Some (k, rest) => Some (resume k o (with_awaiting rest w))
      | None => None
      end
  | Elapse ms =>
      if forallb (fun t => (now w + ms <=? due t)%N) (timers w)
      then Some (with_now (now w + ms)%N w) else None
  | Fire =>
      match next_timer (timers w) with
      | Some (t, rest) =>
          if (due t <=? now w)%N
          then Some (update (State.setOperationStatus (callback t)) (with_timers rest w))
          else None
      | None => None
      end
  end.

Fixpoint run (es : list Event) (w : World) : option World :=
  match es with
  | [] => Some w
  | e :: es' =>
      match step e w with
      | Some w' => run es' w'
      | None => None
      end
  end.

(** The page as it opens, in a host [h]. *)
Definition start (h : Host) : World :=
  {| state := State.initial; host := h; now := 0%N; log := [];
     awaiting := []; timers := [] |}.

(* ------------------------------------------------------------------ *)
(** * The rest of the panel: export, status bar, labels, sections *)

(** ** exportConfiguration (lines 560-571): the text of the downloaded
    file, if a file is made at all. *)
Definition exportConfiguration (s : State.t) : option string :=
  match State.configInfo s with
  | Some info =>
      match Result.configuration info with
      | Some c => if truthy_json c then Some (JSON_stringify c 2) else None
      | None => None
      end
  | None => None
  end.

(** ** getStatusDisplay (lines 700-725) *)

Inductive StatusIcon := RefreshCw_spinning | CheckCircle | AlertTriangle.

Record StatusDisplay := {
  color : string;
  bgColor : string;
  icon : StatusIcon
}.

Definition getStatusDisplay (s : State.t) : option StatusDisplay :=
  match type (State.operationStatus s) with
  | saving | reconfiguring | restarting =>
      Some {| color := "text-blue-600 dark:text-blue-400";
              bgColor := "bg-blue-50 dark:bg-blue-900/20";
              icon := RefreshCw_spinning |}
  | success =>
      Some {| color := "text-green-600 dark:text-green-400";
              bgColor := "bg-green-50 dark:bg-green-900/20";
              icon := CheckCircle |}
  | error =>
      Some {| color := "text-red-600 dark:text-red-400";
              bgColor := "bg-red-50 dark:bg-red-900/20";
              icon := AlertTriangle |}
  | idle => None
  end.

(** Lines 782 and 786, in the header that every render of the panel
    begins with: [configInfo?.serviceStatus.isRunning] throws on a
    snapshot that has no [serviceStatus], and then nothing is drawn. *)
Definition header_renders (s : State.t) : bool :=
  match State.configInfo s with
  | Some info =>
      match Result.serviceStatus info with
      | Some _ => true
      | None => false
      end
  | None => true
  end.

(** Whether the status bar is on screen.  The render returns the loading
    card or the error card before it comes to the panel (lines 727-762);
    on the panel, after the header, line 793 is
    [operationStatus.type !== 'idle' && (<status bar>)]. *)
Definition status_bar_shown (s : State.t) : bool :=
  panel_shown s
  && header_renders s
  && match type (State.operationStatus s) with
     | idle => false
     | _ => true
     end.

(** ** The current-backend label (lines 836-838) *)

(** [configInfo?.availableBackends.find(b => b.id === selectedBackend)] *)
Definition selected_backend_entry (s : State.t) : option Backend.t :=
  match State.configInfo s with
  | Some info =>
      find (fun b => Backend.id b =? State.selectedBackend s)
           (Result.availableBackends info)
  | None => None
  end.

Definition currentBackendLabel (s : State.t) : string :=
  if State.selectedBackend s =? "auto" then
    if State.actualBackend s =? "" then "Auto-detect"
    else "Auto-detect (" ++ State.actualBackend s ++ ")"
  else
    or_else (option_map Backend.name (selected_backend_entry s))
            (State.selectedBackend s).

(** ** toggleSection (lines 593-598) *)

(** [{ ...object, [key]: value }] on an object given by its own
    properties in order: an existing key keeps its place and takes the new
    value, a new key goes last.  (That is the order of JavaScript for
    keys that are not array indices; no statement below depends on where
    an index would go.) *)
Fixpoint spread_set (A : Type) (key : string) (value : A)
    (object : list (string * A)) : list (string * A) :=
  match object with
  | [] => [(key, value)]
  | (k, v) :: rest =>
      if k =? key then (key, value) :: rest
      else (k, v) :: spread_set key value rest
  end.

(** [object[key]], [undefined] when there is no such property. *)
Fixpoint property (A : Type) (key : string) (object : list (string * A)) : option A :=
  match object with
  | [] => None
  | (k, v) :: rest => if k =? key then Some v else property key rest
  end.

(** The names every object inherits from [Object.prototype].  Read on
    an object that has no member of the name, each gives a function --
    [__proto__] the prototype itself -- and so a truthy value. *)
Definition inherited (key : string) : bool :=
  existsb (String.eqb key)
    ["constructor"; "hasOwnProperty"; "isPrototypeOf"; "propertyIsEnumerable";
     "toLocaleString"; "toString"; "valueOf"; "__proto__";
     "__defineGetter__"; "__defineSetter__";
     "__lookupGetter__"; "__lookupSetter__"].

(** A section is drawn when [expandedSections[section]] is truthy: the
    object's own member if it has one, what it inherits otherwise,
    [undefined] if there is neither. *)
Definition expanded (sections : list (string * bool)) (section : string) : bool :=
  match property section sections with
  | Some b => b
  | None => inherited section
  end.

(** The initial [expandedSections] (lines 221-226). *)
Definition initial_sections : list (string * bool) :=
  [("backends", true); ("models", true); ("configuration", false); ("advanced", false)].

Definition toggleSection (section : string) (prev : list (string * bool))
    : list (string * bool) :=
  spread_set section (negb (expanded prev section)) prev.

(* ------------------------------------------------------------------ *)
(** * The translation module (src/src/i18n/index.ts, lines 1-127) *)

Module i18n.

(** How a call ends: with a value, or with the [TypeError] of calling
    what is not a function.  [NotEmbedded] marks the one input this
    embedding leaves out (see [interpolate]). *)
Inductive completion (A : Type) :=
| Normal (a : A)
| TypeError
| NotEmbedded.

Arguments Normal {A} a.
Arguments TypeError {A}.
Arguments NotEmbedded {A}.

Definition bind (A B : Type) (c : completion A) (f : A -> completion B)
    : completion B :=
  match c with
  | Normal a => f a
  | TypeError => TypeError
  | NotEmbedded => NotEmbedded
  end.

(** The two module variables (lines 7-8). *)
Record Store := {
  translations : json;
  fallbackTranslation : string
}.

Definition initial : Store :=
  {| translations := JObject [];
     fallbackTranslation := "Missing translation for {key}" |}.

(** ** Strings *)

(** [s.split(separator)], the separator one character long. *)
Fixpoint split (separator : ascii) (s : string) : list string :=
  match s with
  | EmptyString => [""]
  | String c s' =>
      if Ascii.eqb c separator then "" :: split separator s'
      else match split separator s' with
           | piece :: pieces => String c piece :: pieces
           | [] => [String c ""]
           end
  end.

Fixpoint drop (n : nat) (s : string) : string :=
  match n, s with
  | O, _ => s
  | S n', String _ s' => drop n' s'
  | S _, EmptyString => ""
  end.

(** GetSubstitution for a match without capture groups: in the
    replacement text [$$] stands for a dollar sign, [$&] for the matched
    text, [$`] for what precedes the match, [$'] for what follows it;
    every other character, a lone dollar sign too, stands for itself. *)
Fixpoint expand (matched before following replacement : string) : string :=
  match replacement with
  | EmptyString => ""
  | String c rest =>
      if Ascii.eqb c "$" then
        match rest with
        | String d rest' =>
            if Ascii.eqb d "$" then
              String "$" (expand matched before following rest')
            else if Ascii.eqb d "&" then
              matched ++ expand matched before following rest'
            else if Ascii.eqb d "`" then
              before ++ expand matched before following rest'
            else if Ascii.eqb d "'" then
              following ++ expand matched before following rest'
            else String c (expand matched before following rest)
        | EmptyString => String c ""
        end
      else String c (expand matched before following rest)
  end.

(** [s.replace(pattern, replacement)] with a string pattern: the first
    occurrence only.  [before] is what of the whole string has been
    passed. *)
Fixpoint replace_from (pattern replacement before s : string) : string :=
  if String.prefix pattern s then
    let following := drop (String.length pattern) s in
    expand pattern before following replacement ++ following
  else
    match s with
    | EmptyString => ""
    | String c s' =>
        String c (replace_from pattern replacement (before ++ String c "") s')
    end.

Definition replace (pattern replacement s : string) : string :=
  replace_from pattern replacement "" s.

(** [s.replace(new RegExp(pattern, 'g'), replacement)] for a pattern
    that matches its own text and nothing else (and is not empty): every
    occurrence, left to right, none overlapping another.  [skip] counts
    the characters of the match just replaced that are still to pass. *)
Fixpoint replace_all_from (pattern replacement : string) (skip : nat)
    (before s : string) : string :=
  match s with
  | EmptyString => ""
  | String c s' =>
      match skip with
      | S skip' =>
          replace_all_from pattern replacement skip' (before ++ String c "") s'
      | O =>
          if String.prefix pattern s then
            expand pattern before (drop (String.length pattern) s) replacement
            ++ replace_all_from pattern replacement (String.length pattern - 1)
                 (before ++ String c "") s'
          else
            String c (replace_all_from pattern replacement 0
                        (before ++ String c "") s')
      end
  end.

Definition replace_all (pattern replacement s : string) : string :=
  replace_all_from pattern replacement 0 "" s.

(** ** getNestedValue (lines 50-60) *)

(** The element of an array under the property name [k]: the canonical
    decimal of its index. *)
Fixpoint element_named (k : string) (index : nat) (items : list json) : option json :=
  match items with
  | [] => None
  | item :: rest =>
      if decimal (Z.of_nat index) =? k then Some item
      else element_named k (S index) rest
  end.

(** The own property [k] of a value that came out of [JSON.parse] (or of
    an object literal): a member of an object, an element or the [length]
    of an array. *)
Definition own_property (v : json) (k : string) : option json :=
  match v with
  | JObject members => property k members
  | JArray items =>
      if k =? "length" then Some (JNumber (Z.of_nat (length items)))
      else element_named k 0 items
  | _ => None
  end.

(** [current.hasOwnProperty(k)], [current] an object or an array.  The
    method is the prototype's, unless the object has a member of that
    name: a JSON value is no function, and the call throws. *)
Definition hasOwnProperty (current : json) (k : string) : completion bool :=
  match own_property current "hasOwnProperty" with
  | Some _ => TypeError
  | None =>
      match own_property current k with
      | Some _ => Normal true
      | None => Normal false
      end
  end.

(** The loop of lines 53-59. *)
Fixpoint descend (current : json) (keys : list string) : completion (option string) :=
  match keys with
  | [] =>
      Normal (match current with
              | JString text => Some text
              | _ => None
              end)
  | k :: rest =>
      match current with
      | JObject _ | JArray _ =>
          match hasOwnProperty current k with
          | Normal true =>
              match own_property current k with
              | Some v => descend v rest
              | None => Normal None
              end
          | Normal false => Normal None
          | TypeError => TypeError
          | NotEmbedded => NotEmbedded
          end
      | _ => Normal None
      end
  end.

Definition getNestedValue (obj : json) (key : string) : completion (option string) :=
  descend obj (split "." key).

(** ** t (lines 72-91) *)

(** A value of [variables]: [string | number]. *)
Inductive Value := Text (s : string) | Number (n : number).

(** [String(value)], for a text, [NaN] and a safe integer (see
    [decimal]). *)
Definition to_string (v : Value) : string :=
  match v with
  | Text s => s
  | Number (Num z) => decimal z
  | Number NaN => "NaN"
  end.

(** [variables]: the own properties of the object, in insertion order. *)
Definition Variables := list (string * Value).

Definition letter (c : ascii) : bool :=
  let n := nat_of_ascii c in
  ((65 <=? n) && (n <=? 90) || (97 <=? n) && (n <=? 122) || (n =? 95))%nat.

Definition digit (c : ascii) : bool :=
  let n := nat_of_ascii c in ((48 <=? n) && (n <=? 57))%nat.

Fixpoint all_chars (f : ascii -> bool) (s : string) : bool :=
  match s with
  | EmptyString => true
  | String c s' => f c && all_chars f s'
  end.

(** A name made of letters, digits and underscores that does not begin
    with a digit.  For such a name the pattern of [new
    RegExp(`{${varName}}`, 'g')] has no operator in it and matches the
    text [{varName}] and nothing else, and [for ... in] visits the names in
    insertion order. *)
Definition plain_name (name : string) : bool :=
  match name with
  | EmptyString => false
  | String c _ => letter c && all_chars (fun x => letter x || digit x) name
  end.

(** The body of the loop of lines 82-87, name after name.  A name that is
    not plain makes a regular expression of another meaning, or none at
    all: that is left out of the embedding. *)
Fixpoint replace_each (variables : Variables) (result : string) : completion string :=
  match variables with
  | [] => Normal result
  | (varName, value) :: rest =>
      if plain_name varName then
        replace_each rest
          (replace_all ("{" ++ varName ++ "}") (to_string value) result)
      else NotEmbedded
  end.

(** Lines 81-88.  [variables.hasOwnProperty(varName)] is called at the
    first name already: it throws when [variables] has a property of that
    very name. *)
Definition interpolate (variables : Variables) (template : string) : completion string :=
  match variables with
  | [] => Normal template
  | _ :: _ =>
      match property "hasOwnProperty" variables with
      | Some _ => TypeError
      | None => replace_each variables template
      end
  end.

Definition t (store : Store) (key : string) (variables : option Variables)
    : completion string :=
  bind (getNestedValue (translations store) key) (fun stringTemplate =>
    match stringTemplate with
    | None => Normal (replace "{key}" key (fallbackTranslation store))
    | Some template =>
        match variables with
        | Some vars => interpolate vars template
        | None => Normal template
        end
    end).

(** ** p (lines 104-127) *)

(** Truthiness of [getNestedValue(...)]: a string that is not empty. *)
Definition found (value : option string) : bool :=
  match value with
  | Some text => negb (text =? "")
  | None => false
  end.

Definition p (store : Store) (key : string) (count : number)
    (variables : option Variables) : completion string :=
  let pluralKey :=
    key ++ "_" ++ match count with
                  | Num 1 => "one"
                  | _ => "other"
                  end in
  bind (match count with
        | Num 0 =>
            bind (getNestedValue (translations store) (key ++ "_zero"))
                 (fun zero => Normal (if found zero then key ++ "_zero" else pluralKey))
        | _ => Normal pluralKey
        end) (fun pluralKey =>
  let fullVariables :=
    spread_set "count" (Number count)
      (match variables with
       | Some vars => vars
       | None => []
       end) in
  bind (getNestedValue (translations store) pluralKey) (fun plural =>
    if found plural then t store pluralKey (Some fullVariables)
    else
      bind (getNestedValue (translations store) key) (fun baseTranslation =>
        if found baseTranslation then t store key (Some fullVariables)
        else Normal (replace "{key}" pluralKey (fallbackTranslation store))))).

(** ** loadTranslations (lines 12-43) and changeLanguage (lines 95-100) *)

(** What [fetch] and [response.json()] come to. *)
Inductive Fetched :=
| FetchRejected                 (* the request fails *)
| NotOk                         (* [response.ok] is false *)
| BodyRejected                  (* the body is not JSON *)
| Body (data : json).

(** The object literals of lines 20-24 and 36-40. *)
Definition minimal (text : string) : json :=
  JObject [("fallback", JObject [("translationMissing", JString text)])].

Definition after_failure (text : string) : Store :=
  {| translations := minimal text; fallbackTranslation := text |}.

(** [translations.fallback?.translationMissing], when it is a string. *)
Definition supplied_fallback (data : json) : option string :=
  match data with
  | JObject members =>
      match property "fallback" members with
      | Some (JObject fallback) =>
          match property "translationMissing" fallback with
          | Some (JString text) => Some text
          | _ => None
          end
      | _ => None
      end
  | _ => None
  end.

Definition loadTranslations (fetched : Fetched) (store : Store) : Store :=
  match fetched with
  | NotOk => after_failure "Error loading translations. Key: {key}"
  | FetchRejected | BodyRejected =>
      after_failure "Critical error loading translations. Key: {key}"
  | Body JNull =>
      (* [null.fallback] throws into the [catch] *)
      after_failure "Critical error loading translations. Key: {key}"
  | Body data =>
      {| translations := data;
         fallbackTranslation :=
           match supplied_fallback data with
           | Some text => text
           | None => fallbackTranslation store
           end |}
  end.

(** [lang] is logged and not used. *)
Definition changeLanguage (lang : string) (fetched : Fetched) (store : Store) : Store :=
  loadTranslations fetched store.

End i18n.

(* ------------------------------------------------------------------ *)
(** * The theme hook (src/unnamed/part_000, src/hooks/useTheme.tsx) *)

Module useTheme.

(** What the hook reaches of the browser: the class list of the root
    element, an ordered set of tokens; [localStorage]; and what
    [matchMedia('(prefers-color-scheme: dark)')] says, where the window
    has a [matchMedia].  [getItem] and [setItem] are taken to succeed. *)
Record Page := {
  classList : list string;
  localStorage : list (string * string);
  matchMedia : option bool
}.

Definition with_classList (classes : list string) (page : Page) : Page :=
  {| classList := classes;
     localStorage := localStorage page;
     matchMedia := matchMedia page |}.

(** What [classList.add] and [classList.remove] throw. *)
Inductive DOMException := SyntaxError | InvalidCharacterError.

(** ASCII whitespace: tab, line feed, form feed, carriage return, space. *)
Definition whitespace (c : ascii) : bool :=
  let n := nat_of_ascii c in
  ((n =? 9) || (n =? 10) || (n =? 12) || (n =? 13) || (n =? 32))%nat.

Fixpoint any_char (f : ascii -> bool) (s : string) : bool :=
  match s with
  | EmptyString => false
  | String c s' => f c || any_char f s'
  end.

(** The check that [add] and [remove] make of each token before they
    touch the list. *)
Definition validate (token : string) : option DOMException :=
  if token =? "" then Some SyntaxError
  else if any_char whitespace token then Some InvalidCharacterError
  else None.

Fixpoint validate_all (tokens : list string) : option DOMException :=
  match tokens with
  | [] => None
  | token :: rest =>
      match validate token with
      | Some e => Some e
      | None => validate_all rest
      end
  end.

(** A statement: the page after it, and what it threw if it threw. *)
Definition Statement := Page -> Page * option DOMException.

Definition nothing : Statement := fun page => (page, None).

Definition and_then (a b : Statement) : Statement :=
  fun page =>
    match a page with
    | (page', None) => b page'
    | thrown => thrown
    end.

Notation "a >>> b" := (and_then a b) (at level 61, right associativity).

Definition listed (token : string) (tokens : list string) : bool :=
  existsb (String.eqb token) tokens.

(** The token set without some tokens, and with one more: a token that
    is in the set already stays where it is. *)
Definition without (tokens : list string) (classes : list string) : list string :=
  filter (fun c => negb (listed c tokens)) classes.

Definition with_token (token : string) (classes : list string) : list string :=
  if listed token classes then classes else (classes ++ [token])%list.

(** [root.classList.remove(...tokens)] *)
Definition remove (tokens : list string) : Statement :=
  fun page =>
    match validate_all tokens with
    | Some e => (page, Some e)
    | None => (with_classList (without tokens (classList page)) page, None)
    end.

(** [root.classList.add(token)] *)
Definition add (token : string) : Statement :=
  fun page =>
    match validate token with
    | Some e => (page, Some e)
    | None => (with_classList (with_token token (classList page)) page, None)
    end.

Definition getItem (key : string) (page : Page) : option string :=
  property key (localStorage page).

Definition setItem (key value : string) : Statement :=
  fun page =>
    ({| classList := classList page;
        localStorage := spread_set key value (localStorage page);
        matchMedia := matchMedia page |},
     None).

(** ** getInitialMode, getInitialBrand (lines 18-33) *)

(** [window] is [None] where there is no window.  The stored text is
    returned as it is: the cast to [ThemeMode] checks nothing. *)
Definition getInitialMode (window : option Page) : string :=
  match window with
  | Some page =>
      or_else (getItem "themeMode" page)
        match matchMedia page with
        | Some true => "dark"
        | _ => "light"
        end
  | None => "light"
  end.

Definition getInitialBrand (window : option Page) : string :=
  match window with
  | Some page => or_else (getItem "themeBrand" page) "default"
  | None => "default"
  end.

(** ** The hook (lines 35-82) *)

(** The two cells of [useState]. *)
Record State := {
  mode : string;
  brand : string
}.

(** [applyTheme] (lines 39-70), in a browser.  [brand] is the cell as
    the callback closed over it. *)
Definition applyTheme (brand : string) (newMode newBrand : string) : Statement :=
  remove ["light-mode"; "dark-mode"] >>>
  (if negb (brand =? "default") then remove [brand] else nothing) >>>
  (if negb (newBrand =? "default") then remove [newBrand] else nothing) >>>
  (if newMode =? "dark" then add "dark-mode" else add "light-mode") >>>
  (if negb (newBrand =? "default") then add newBrand else nothing) >>>
  setItem "themeMode" newMode >>>
  setItem "themeBrand" newBrand.

(** The effect of lines 72-74.  The callback is made anew whenever
    [brand] changes, so the [brand] it closed over is the cell of the
    render the effect belongs to. *)
Definition effect (s : State) : Statement :=
  applyTheme (brand s) (mode s) (brand s).

Inductive Event :=
| ToggleMode
| ChangeBrand (newBrand : string)
| SetMode (newMode : string)
| SetBrand (newBrand : string).

Definition toggleMode (s : State) : State :=
  {| mode := if mode s =? "light" then "dark" else "light"; brand := brand s |}.

Definition changeBrand (newBrand : string) (s : State) : State :=
  {| mode := mode s; brand := newBrand |}.

Definition setMode (newMode : string) (s : State) : State :=
  {| mode := newMode; brand := brand s |}.

Definition dispatch (e : Event) (s : State) : State :=
  match e with
  | ToggleMode => toggleMode s
  | ChangeBrand newBrand | SetBrand newBrand => changeBrand newBrand s
  | SetMode newMode => setMode newMode s
  end.

(** The hook and the page it lives on. *)
Definition Hook := (State * Page)%type.

(** The first render and its effect. *)
Definition mount (page : Page) : Hook * option DOMException :=
  let s := {| mode := getInitialMode (Some page);
              brand := getInitialBrand (Some page) |} in
  let (page', thrown) := effect s page in
  ((s, page'), thrown).

(** An event, the render that follows and its effect: the effect runs
    when [mode] or [brand] is not what it was. *)
Definition step (e : Event) (hook : Hook) : Hook * option DOMException :=
  let (s, page) := hook in
  let s' := dispatch e s in
  if (mode s' =? mode s) && (brand s' =? brand s) then ((s', page), None)
  else let (page', thrown) := effect s' page in ((s', page'), thrown).

(** Events one after another, up to the first effect that throws. *)
Fixpoint run (events : list Event) (hook : Hook) : Hook * option DOMException :=
  match events with
  | [] => (hook, None)
  | e :: rest =>
      match step e hook with
      | (hook', None) => run rest hook'
      | thrown => thrown
      end
  end.

End useTheme.

(** The brand button of [App] (src/src/App.tsx, line 157). *)
Definition switchBrand (s : useTheme.State) : useTheme.Event :=
  useTheme.ChangeBrand
    (if useTheme.brand s =? "default" then "brand-alpha" else "default").

(* ------------------------------------------------------------------ *)
(** * Sample data for the concrete runs *)

Module Sample.
(** A plain acknowledgement: [{ success: true }]. *)
Definition ok : Result.t :=
  {| Result.success := true; Result.error := None;
     Result.availableBackends := []; Result.currentBackendOverride := None;
     Result.configuration := None; Result.configPath := "";
     Result.platform := ""; Result.architecture := "";
     Result.serviceStatus := None; Result.models := NoModels;
     Result.requiresRestart := None |}.

(** [{ success: false, error: e }] *)
Definition failure (e : string) : Result.t :=
  {| Result.success := false; Result.error := Some e;
     Result.availableBackends := []; Result.currentBackendOverride := None;
     Result.configuration := None; Result.configPath := "";
     Result.platform := ""; Result.architecture := "";
     Result.serviceStatus := None; Result.models := NoModels;
     Result.requiresRestart := None |}.

Definition backend (id : string) : Backend.t :=
  {| Backend.id := id; Backend.name := id; Backend.description := "";
     Backend.folder := id; Backend.requiresGPU := false;
     Backend.gpuType := "none"; Backend.isAvailable := true;
     Backend.binaryPath := None |}.

(** The document [{ "a": 1 }]. *)
Definition document : json := JObject [("a", JNumber 1)].

(** A [getConfigurationInfo] answer: backends [cpu] and [cuda], the given
    override, the document above, the service running on port 8080. *)
Definition info_with (override : option string) : Result.t :=
  {| Result.success := true; Result.error := None;
     Result.availableBackends := [backend "cpu"; backend "cuda"];
     Result.currentBackendOverride :=
       match override with
       | Some b => Some {| backendId := Some b; isOverridden := true;
                           timestamp := None |}
       | None => None
       end;
     Result.configuration := Some document;
     Result.configPath := "/config.yaml";
     Result.platform := "linux"; Result.architecture := "x64";
     Result.serviceStatus :=
       Some {| ServiceStatus.isRunning := true;
               ServiceStatus.port := Num 8080;
               ServiceStatus.pid := None;
               ServiceStatus.currentBackendName := None |};
     Result.models := NoModels;
     Result.requiresRestart := None |}.

(** The answer with [override = null]. *)
Definition info : Result.t := info_with None.

Definition model (n : string) : ModelConfig :=
  {| name := n; path := "/models/" ++ n; port := Num 9000;
     isEmbedding := false; nativeContextSize := None;
     configuredContextSize := None; gpuLayers := None; batchSize := None;
     ubatchSize := None; threads := None; flashAttention := None;
     memoryLock := None; ttl := None; status := ModelStatus.available |}.

(** A [getModelConfigurations] answer listing [m1] and [m2]. *)
Definition two_models : Result.t :=
  {| Result.success := true; Result.error := None;
     Result.availableBackends := []; Result.currentBackendOverride := None;
     Result.configuration := None; Result.configPath := "";
     Result.platform := ""; Result.architecture := "";
     Result.serviceStatus := None;
     Result.models := ModelList [model "m1"; model "m2"];
     Result.requiresRestart := None |}.

(** A host with the service, and a parser that rejects the text of one
    opening brace with V8's message; the other texts parsed in the runs
    below are well-formed JSON. *)
Definition host : Host :=
  {| llamaSwap_present := true;
     getModelConfigurations_present := true;
     JSON_parse := fun text =>
       if text =? "{" then Some "Unexpected end of JSON input" else None |}.

(** The world a run from [w] ends in ([w] itself if the run is not
    possible; each statement below says that its run is). *)
Definition after (es : list Event) (w : World) : World :=
  match run es w with
  | Some w' => w'
  | None => w
  end.

(** The panel after a first load that found the two models. *)
Definition first_load : list Event :=
  [Mount; Settle 0 (Fulfilled info); Settle 1 (Fulfilled two_models)].

Definition loaded : World := after first_load (start host).
End Sample.

(** A page that was never given a document: the snapshot has no
    [configuration], so the JSON buffer is still the empty text it starts
    with.  The host's parser rejects the empty text, as [JSON.parse]
    does. *)
Module Bare.
Definition host : Host :=
  {| llamaSwap_present := true;
     getModelConfigurations_present := true;
     JSON_parse := fun text =>
       if (text =? "") || (text =? "{") then Some "Unexpected end of JSON input"
       else None |}.

Definition info : Result.t :=
  {| Result.success := true; Result.error := None;
     Result.availableBackends := [Sample.backend "cpu"; Sample.backend "cuda"];
     Result.currentBackendOverride := None;
     Result.configuration := None;
     Result.configPath := "/config.yaml";
     Result.platform := "linux"; Result.architecture := "x64";
     Result.serviceStatus :=
       Some {| ServiceStatus.isRunning := true;
               ServiceStatus.port := Num 8080;
               ServiceStatus.pid := None;
               ServiceStatus.currentBackendName := None |};
     Result.models := NoModels;
     Result.requiresRestart := None |}.

Definition first_load : list Event :=
  [Mount; Settle 0 (Fulfilled info); Settle 1 (Fulfilled Sample.two_models)].

Definition loaded : World := Sample.after first_load (start host).
End Bare.

(* ------------------------------------------------------------------ *)
(** * Vocabulary of the statements *)

(** A remote call fails when it rejects or answers [success: false]. *)
Definition failed (o : Settled) : bool :=
  match o with
  | Fulfilled result => negb (Result.success result)
  | Rejected _ => true
  end.

(** The message a failed call carries: the answer's [error], the thrown
    [Error]'s message; the handler's fixed texts stand in when there is
    none. *)
Definition failure_message (o : Settled) (no_error not_an_error : string) : string :=
  match o with
  | Fulfilled result => or_else (Result.error result) no_error
  | Rejected reason => message_of reason not_an_error
  end.

(** The operation types the panel goes through, one per event. *)
Fixpoint phases (es : list Event) (w : World) : list OperationType :=
  match es with
  | [] => []
  | e :: es' =>
      match step e w with
      | Some w' => type (State.operationStatus (state w')) :: phases es' w'
      | None => []
      end
  end.

(** The calls made since the log was [n] long. *)
Definition calls_since (n : nat) (w : World) : list Call := skipn n (log w).

(** An action that removes no pending timer. *)
Definition keeps_timers (a : Action) : Prop :=
  forall w t, In t (timers w) -> In t (timers (a w)).

(** The continuations of the seven operations (the two of the load
    apart). *)
Definition is_operation (k : Kont) : bool :=
  match k with
  | K_getConfigurationInfo _ | K_getModelConfigurations _ => false
  | _ => true
  end.

(** The operations that read the snapshot again when their last call
    succeeds. *)
Definition reloads (k : Kont) : bool :=
  match k with
  | K_restartAfterOverride _ | K_regenerateConfig | K_restartWithOverrides
  | K_saveConfigFromJson | K_saveConfigAndRestart => true
  | _ => false
  end.

(** The auto-clear timer scheduled at [now w] with the given delay. *)
Definition auto_clear (w : World) (delay : N) : Timer :=
  {| due := (now w + delay)%N; callback := {| type := idle; message := "" |} |}.

(** An action that makes no remote call, and one that makes one at
    most. *)
Definition silent (a : Action) : Prop :=
  forall w, log (a w) = log w /\ awaiting (a w) = awaiting w.

Definition calls_once_at_most (a : Action) : Prop :=
  forall w,
    (log (a w) = log w /\ awaiting (a w) = awaiting w) \/
    (exists c k, log (a w) = (log w ++ [c])%list /\
                 awaiting (a w) = (awaiting w ++ [(length (log w), k)])%list).

(** A sample of translations, with the keys that [App] asks for, a
    plural pair, and one member whose own name has a dot in it. *)
Module Words.
Definition members : list (string * json) :=
  [("labels", JObject [("currentThemeMode", JString "Mode: {mode}");
                       ("currentBrand", JString "Brand: {brand}")]);
   ("buttons", JObject [("toggleTheme", JString "Toggle theme");
                        ("switchBrand", JString "Switch brand")]);
   ("items_one", JString "{count} item");
   ("items_other", JString "{count} items");
   ("echo", JString "{word}, {word}!");
   ("a.b", JString "flat")].

Definition strings : json := JObject members.

Definition loaded : i18n.Store :=
  i18n.loadTranslations (i18n.Body strings) i18n.initial.
End Words.

(** Whether the character occurs in the string. *)
Fixpoint has_char (c : ascii) (s : string) : bool :=
  match s with
  | EmptyString => false
  | String x s' => Ascii.eqb x c || has_char c s'
  end.

(** Whether the text [pattern] occurs in [s] at some position. *)
Fixpoint occurs (pattern s : string) : bool :=
  String.prefix pattern s
  || match s with
     | EmptyString => false
     | String _ s' => occurs pattern s'
     end.

(** The placeholder of a variable. *)
Definition placeholder (varName : string) : string := "{" ++ varName ++ "}".

(** The outcomes of the request that end in one of the two error
    branches of [loadTranslations]. *)
Definition load_fails (fetched : i18n.Fetched) : bool :=
  match fetched with
  | i18n.Body JNull => true
  | i18n.Body _ => false
  | _ => true
  end.

(** What the error branch puts before the key. *)
Definition error_text (fetched : i18n.Fetched) : string :=
  match fetched with
  | i18n.NotOk => "Error loading translations. Key: "
  | _ => "Critical error loading translations. Key: "
  end.

(** The suffix of the plural key (line 107). *)
Definition plural_form (count : number) : string :=
  match count with
  | Num 1 => "one"
  | _ => "other"
  end.

(** The numbers that [String(n)] prints as [decimal] does: the safe
    integers, and [NaN]. *)
Definition safe_integer (n : number) : bool :=
  match n with
  | Num z => (Z.abs z <=? 9007199254740991)%Z
  | NaN => true
  end.

(** A value whose text [to_string] gives as [String(value)] does. *)
Definition printed_exactly (value : i18n.Value) : bool :=
  match value with
  | i18n.Text _ => true
  | i18n.Number n => safe_integer n
  end.

(** A value whose text has no dollar sign in it. *)
Definition dollar_free (value : i18n.Value) : bool :=
  negb (has_char "$" (i18n.to_string value)).

(** The class that stands for a mode: every mode but [dark] is drawn
    as light. *)
Definition mode_class (mode : string) : string :=
  if mode =? "dark" then "dark-mode" else "light-mode".

(** The page after the effect of a render, and the page a run ends on. *)
Definition page_after (s : useTheme.State) (page : useTheme.Page) : useTheme.Page :=
  fst (useTheme.effect s page).

Definition final_page (outcome : useTheme.Hook * option useTheme.DOMException)
    : useTheme.Page :=
  snd (fst outcome).

Definition final_state (outcome : useTheme.Hook * option useTheme.DOMException)
    : useTheme.State :=
  fst (fst outcome).


(* ------------------------------------------------------------------ *)
(** * The model registry: updateModelConfig *)

Section Registry.

Variables (modelName : string) (field : Field) (value : FieldType field).

Lemma updateModelConfig_models (w : World) :
  State.modelConfigs (state (updateModelConfig modelName field value w))
  = map (patch modelName field value) (State.modelConfigs (state w)).
Proof. reflexivity. Qed.

Lemma spread_with_same (model : ModelConfig) :
  get_field field model = value -> spread_with model field value = model.
Proof.
  intros <-. destruct model, field; reflexivity.
Qed.

Lemma spread_with_other (model : ModelConfig) (g : Field) :
  g <> field -> get_field g (spread_with model field value) = get_field g model.
Proof.
  intros Hg. destruct field, g; try reflexivity; congruence.
Qed.

Lemma spread_with_field (model : ModelConfig) :
  get_field field (spread_with model field value) = value.
Proof. destruct field; reflexivity. Qed.

Lemma patch_unknown (l : list ModelConfig) :
  (forall m, In m l -> name m <> modelName) -> map (patch modelName field value) l = l.
Proof.
  induction l as [|m l IH]; intros Hl; [reflexivity|].
  cbn [map]. rewrite IH by (intros m' Hm'; apply Hl; now right).
  unfold patch. destruct (String.eqb_spec (name m) modelName) as [E|_].
  - exfalso. apply (Hl m); [now left | exact E].
  - reflexivity.
Qed.

Lemma patch_same_value (l : list ModelConfig) :
  (forall m, In m l -> name m = modelName -> get_field field m = value) ->
  map (patch modelName field value) l = l.
Proof.
  induction l as [|m l IH]; intros Hl; [reflexivity|].
  cbn [map]. rewrite IH by (intros m' Hm'; apply Hl; now right).
  unfold patch. destruct (String.eqb_spec (name m) modelName) as [E|_].
  - rewrite spread_with_same; [reflexivity|]. apply Hl; [now left | exact E].
  - reflexivity.
Qed.

End Registry.

(** The first load of the sample panel happens, and finds two models. *)
Example first_load_runs :
  run Sample.first_load (start Sample.host) = Some Sample.loaded /\
  log Sample.loaded
  = [llamaSwap.getConfigurationInfo; llamaSwap.getModelConfigurations] /\
  map name (State.modelConfigs (state Sample.loaded)) = ["m1"; "m2"] /\
  panel_shown (state Sample.loaded) = true.
Proof. split; [| split; [| split]]; vm_compute; reflexivity. Qed.

(** Everything [updateModelConfig] leaves alone. *)
Lemma updateModelConfig_frame (modelName : string) (field : Field)
    (value : FieldType field) (w : World) :
  let w' := updateModelConfig modelName field value w in
  State.configInfo (state w') = State.configInfo (state w) /\
  State.loading (state w') = State.loading (state w) /\
  State.error (state w') = State.error (state w) /\
  State.selectedBackend (state w') = State.selectedBackend (state w) /\
  State.actualBackend (state w') = State.actualBackend (state w) /\
  State.jsonConfig (state w') = State.jsonConfig (state w) /\
  State.jsonError (state w') = State.jsonError (state w) /\
  State.operationStatus (state w') = State.operationStatus (state w) /\
  host w' = host w /\ now w' = now w /\ log w' = log w /\
  awaiting w' = awaiting w /\ timers w' = timers w.
Proof. cbv zeta. repeat split. Qed.

(** C7 (as the code has it): for a name that no model of the registry
    bears, [updateModelConfig] leaves the registry as it was and reports
    nothing -- no error state, no status change -- but it is not a no-op:
    it sets [hasUnsavedChanges].  Setting that flag is its whole effect. *)
Theorem unknown_name_patch_only_marks_dirty (w : World) (modelName : string)
    (field : Field) (value : FieldType field) :
  (forall m, In m (State.modelConfigs (state w)) -> name m <> modelName) ->
  let w' := updateModelConfig modelName field value w in
  w' = update (State.setHasUnsavedChanges true) w /\
  State.modelConfigs (state w') = State.modelConfigs (state w) /\
  State.hasUnsavedChanges (state w') = true /\
  State.operationStatus (state w') = State.operationStatus (state w) /\
  State.error (state w') = State.error (state w).
Proof.
  intros Hunknown w'.
  assert (Hmodels : State.modelConfigs (state w') = State.modelConfigs (state w)).
  { subst w'. rewrite updateModelConfig_models. now apply patch_unknown. }
  repeat split; try assumption.
  subst w'. unfold updateModelConfig, seq, setModelConfigs, setHasUnsavedChanges, update.
  cbn [state host now log awaiting timers].
  unfold State.setHasUnsavedChanges, State.setModelConfigs.
  cbn [State.configInfo State.loading State.error State.selectedBackend
       State.actualBackend State.jsonConfig State.jsonError State.modelConfigs
       State.operationStatus State.hasUnsavedChanges].
  rewrite patch_unknown by assumption. reflexivity.
Qed.

Lemma unknown_name_patch_witness :
  let w := Sample.loaded in
  let w' := updateModelConfig "m3" F_gpuLayers (Some (Num 20)) w in
  w' = update (State.setHasUnsavedChanges true) w /\
  State.modelConfigs (state w') = State.modelConfigs (state w) /\
  State.hasUnsavedChanges (state w') = true /\
  State.operationStatus (state w') = State.operationStatus (state w) /\
  State.error (state w') = State.error (state w).
Proof.
  apply (@unknown_name_patch_only_marks_dirty Sample.loaded "m3" F_gpuLayers (Some (Num 20))).
  intros m [<- | [<- | []]]; discriminate.
Defined.

(** C7 (as the spec states it) fails: patching the unknown name [m3] on
    the loaded panel (models [m1] and [m2], nothing unsaved) records no
    failure anywhere, and changes the state: the dirty flag goes up. *)
Lemma unknown_name_patch_is_no_error :
  let w := Sample.loaded in
  let w' := updateModelConfig "m3" F_gpuLayers (Some (Num 20)) w in
  map name (State.modelConfigs (state w)) = ["m1"; "m2"] /\
  State.hasUnsavedChanges (state w) = false /\
  State.hasUnsavedChanges (state w') = true /\
  w' <> w /\
  State.operationStatus (state w') = {| type := idle; message := "" |} /\
  State.error (state w') = None.
Proof.
  cbv zeta. split; [| split; [| split; [| split; [| split]]]];
    try (vm_compute; reflexivity).
  intros E. apply (f_equal (fun x => State.hasUnsavedChanges (state x))) in E.
  vm_compute in E. discriminate.
Qed.

(** C9: [updateModelConfig] sets [hasUnsavedChanges] at once, whatever the
    name, field and value -- also when every model of that name already
    holds [value] in [field], where the registry itself does not change --
    and a patch that follows a successful [saveAllModelConfigurations]
    (which clears the flag) sets it again. *)
Theorem patch_always_marks_dirty (w : World) (modelName : string)
    (field : Field) (value : FieldType field) :
  State.hasUnsavedChanges (state (updateModelConfig modelName field value w)) = true /\
  ((forall m, In m (State.modelConfigs (state w)) ->
              name m = modelName -> get_field field m = value) ->
   State.modelConfigs (state (updateModelConfig modelName field value w))
   = State.modelConfigs (state w)) /\
  (forall result, Result.success result = true ->
     let saved := resume K_saveAllModelConfigurations (Fulfilled result) w in
     State.hasUnsavedChanges (state saved) = false /\
     State.hasUnsavedChanges
       (state (updateModelConfig modelName field value saved)) = true).
Proof.
  split; [reflexivity | split].
  - intros Hsame. rewrite updateModelConfig_models. now apply patch_same_value.
  - intros result Hok. cbn [resume]. unfold after_saveAllModelConfigurations.
    rewrite Hok. split; reflexivity.
Qed.

(** The scenario of the spec: models [m1], [m2]; [gpuLayers] of [m1] set to
    20; save-all succeeds and the flag is down; the same patch with the
    same value puts it up again, the registry being what was saved. *)
Example patch_save_patch_scenario :
  let patch_m1 := ChangeModel "m1" F_gpuLayers (Some (Num 20)) in
  let saved :=
    Sample.after [patch_m1; Click SaveAllModels; Settle 2 (Fulfilled Sample.ok)]
                 Sample.loaded in
  let again := Sample.after [patch_m1] saved in
  map (get_field F_gpuLayers) (State.modelConfigs (state saved)) = [Some (Num 20); None] /\
  State.hasUnsavedChanges (state saved) = false /\
  State.modelConfigs (state again) = State.modelConfigs (state saved) /\
  State.hasUnsavedChanges (state again) = true.
Proof. cbv zeta. split; [| split; [| split]]; vm_compute; reflexivity. Qed.

(** C10: [updateModelConfig] keeps the length and order of the registry;
    a model of another name is untouched; on a model of that name every
    key but [field] keeps its value (and [field] holds [value]); of the
    rest of the component -- snapshot, flags, selection, JSON buffer and
    its error, operation status -- and of the pending calls and timers
    nothing changes. *)
Theorem patch_frame (w : World) (modelName : string) (field : Field)
    (value : FieldType field) :
  let w' := updateModelConfig modelName field value w in
  length (State.modelConfigs (state w')) = length (State.modelConfigs (state w)) /\
  (forall i m, nth_error (State.modelConfigs (state w)) i = Some m ->
     exists m', nth_error (State.modelConfigs (state w')) i = Some m' /\
       (name m <> modelName -> m' = m) /\
       (name m = modelName -> get_field field m' = value) /\
       (forall g, g <> field -> get_field g m' = get_field g m)) /\
  State.configInfo (state w') = State.configInfo (state w) /\
  State.loading (state w') = State.loading (state w) /\
  State.error (state w') = State.error (state w) /\
  State.selectedBackend (state w') = State.selectedBackend (state w) /\
  State.actualBackend (state w') = State.actualBackend (state w) /\
  State.jsonConfig (state w') = State.jsonConfig (state w) /\
  State.jsonError (state w') = State.jsonError (state w) /\
  State.operationStatus (state w') = State.operationStatus (state w) /\
  host w' = host w /\ now w' = now w /\ log w' = log w /\
  awaiting w' = awaiting w /\ timers w' = timers w.
Proof.
  intros w'. split; [| split; [| apply updateModelConfig_frame]].
  - subst w'. rewrite updateModelConfig_models. apply length_map.
  - intros i m Hi. exists (patch modelName field value m). split.
    + subst w'. rewrite updateModelConfig_models. now apply map_nth_error.
    + unfold patch. destruct (String.eqb_spec (name m) modelName) as [E | NE].
      * repeat split.
        -- intros NE. contradiction.
        -- intros _. apply spread_with_field.
        -- intros g Hg. now apply spread_with_other.
      * repeat split; try reflexivity. intros E. contradiction.
Qed.

(* ------------------------------------------------------------------ *)
(** * The JSON editor: change detection and the validation gate *)

Lemma handleJsonChange_dirty (w : World) (value : string) :
  State.hasUnsavedChanges (state (handleJsonChange value w))
  = negb (value =? originalConfig (state w)).
Proof.
  unfold handleJsonChange. destruct (JSON_parse (host w) value); reflexivity.
Qed.


(** C8 (as the code has it): after [handleJsonChange(value)] the flag
    [hasUnsavedChanges] says exactly whether [value], the text as typed,
    differs from [JSON.stringify(configuration, null, 2)] of the snapshot
    (from the empty text when the snapshot has no document).  The typed
    text is not re-serialized.  A text equal to that serialization is
    clean. *)
Theorem dirty_compares_the_typed_text (w : World) (value : string) :
  State.hasUnsavedChanges (state (handleJsonChange value w))
  = negb (value =? originalConfig (state w)) /\
  (State.hasUnsavedChanges (state (handleJsonChange value w)) = true
   <-> value <> originalConfig (state w)) /\
  State.hasUnsavedChanges
    (state (handleJsonChange (originalConfig (state w)) w)) = false /\
  (forall info c,
     State.configInfo (state w) = Some info ->
     Result.configuration info = Some c ->
     truthy_json c = true ->
     State.hasUnsavedChanges
       (state (handleJsonChange (JSON_stringify c 2) w)) = false).
Proof.
  split; [apply handleJsonChange_dirty | split; [| split]].
  - rewrite handleJsonChange_dirty.
    destruct (String.eqb_spec value (originalConfig (state w))); cbn; split;
      congruence.
  - rewrite handleJsonChange_dirty, String.eqb_refl. reflexivity.
  - intros info c Hinfo Hc Htruthy. rewrite handleJsonChange_dirty.
    unfold originalConfig. rewrite Hinfo, Hc, Htruthy, String.eqb_refl.
    reflexivity.
Qed.

(** C8 (as the spec states it) fails: the snapshot of the loaded panel
    holds the document [{ a: 1 }]; typing the same document without
    white space, or indented by four, marks the buffer dirty. *)
Lemma reformatted_document_is_dirty :
  let w := Sample.loaded in
  let compact := JSON_stringify Sample.document 0 in
  let wide := JSON_stringify Sample.document 4 in
  option_map Result.configuration (State.configInfo (state w))
  = Some (Some Sample.document) /\
  compact = "{" ++ quote "a" ++ ":1}" /\
  State.hasUnsavedChanges (state (handleJsonChange compact w)) = true /\
  State.hasUnsavedChanges (state (handleJsonChange wide w)) = true /\
  State.hasUnsavedChanges
    (state (handleJsonChange (JSON_stringify Sample.document 2) w)) = false.
Proof.
  cbv zeta. split; [| split; [| split; [| split]]]; vm_compute; reflexivity.
Qed.




(* ------------------------------------------------------------------ *)
(** * Saving models *)

(** C5 (as the code has it): a successful [saveModelConfiguration] clears
    [hasUnsavedChanges] just as a successful [saveAllModelConfigurations]
    does -- there is one flag for the whole panel -- and neither touches
    the registry; a failed save of either kind leaves the flag as it
    was. *)
Theorem every_successful_save_clears_dirty (w : World) (modelName : string)
    (result : Result.t) :
  Result.success result = true ->
  let one := resume (K_saveModelConfiguration modelName) (Fulfilled result) w in
  let all := resume K_saveAllModelConfigurations (Fulfilled result) w in
  State.hasUnsavedChanges (state one) = false /\
  State.hasUnsavedChanges (state all) = false /\
  State.modelConfigs (state one) = State.modelConfigs (state w) /\
  State.modelConfigs (state all) = State.modelConfigs (state w) /\
  (forall o, failed o = true ->
     State.hasUnsavedChanges
       (state (resume (K_saveModelConfiguration modelName) o w))
     = State.hasUnsavedChanges (state w) /\
     State.hasUnsavedChanges (state (resume K_saveAllModelConfigurations o w))
     = State.hasUnsavedChanges (state w)).
Proof.
  intros Hok one all. subst one all. cbn [resume].
  unfold after_saveModelConfiguration, after_saveAllModelConfigurations.
  rewrite Hok. repeat split.
  - destruct o as [r | e]; cbn in H; [| reflexivity].
    destruct (Result.success r); [discriminate | reflexivity].
  - destruct o as [r | e]; cbn in H; [| reflexivity].
    destruct (Result.success r); [discriminate | reflexivity].
Qed.

Lemma every_successful_save_witness :
  let w := updateModelConfig "m2" F_gpuLayers (Some (Num 10)) Sample.loaded in
  let one := resume (K_saveModelConfiguration "m1") (Fulfilled Sample.ok) w in
  State.hasUnsavedChanges (state w) = true /\
  State.hasUnsavedChanges (state one) = false.
Proof.
  split; [reflexivity |].
  apply (@every_successful_save_clears_dirty
           (updateModelConfig "m2" F_gpuLayers (Some (Num 10)) Sample.loaded)
           "m1" Sample.ok).
  reflexivity.
Defined.

(** C5 (as the spec states it) fails: [gpuLayers] is edited on [m1] and on
    [m2]; [m1] alone is saved, successfully -- the only call made carries
    [m1] -- and the flag is down although the edit of [m2] was never
    sent. *)
Lemma saving_one_model_clears_the_flag :
  let es := [ChangeModel "m1" F_gpuLayers (Some (Num 20));
             ChangeModel "m2" F_gpuLayers (Some (Num 10));
             Click (SaveModel "m1");
             Settle 2 (Fulfilled Sample.ok)] in
  let w := Sample.after es Sample.loaded in
  run es Sample.loaded = Some w /\
  calls_since 2 w
  = [llamaSwap.saveModelConfiguration "m1"
       (spread_with (Sample.model "m1") F_gpuLayers (Some (Num 20)))] /\
  map (get_field F_gpuLayers) (State.modelConfigs (state w))
  = [Some (Num 20); Some (Num 10)] /\
  type (State.operationStatus (state w)) = success /\
  State.hasUnsavedChanges (state w) = false.
Proof.
  cbv zeta. split; [| split; [| split; [| split]]]; vm_compute; reflexivity.
Qed.

(* ------------------------------------------------------------------ *)
(** * Loading *)

Lemma load_finally_state (after : AfterLoad) (w : World) :
  state (load_finally after w) = State.setLoading false (state w).
Proof. unfold load_finally. destruct after; reflexivity. Qed.

Lemma load_finally_log (after : AfterLoad) (w : World) :
  log (load_finally after w) = log w /\ awaiting (load_finally after w) = awaiting w.
Proof. unfold load_finally. destruct after; split; reflexivity. Qed.

(** A successful info read: the answer becomes the snapshot; the model
    list and the load error are not touched at this step. *)
Lemma info_read_success (after : AfterLoad) (info : Result.t) (w : World) :
  Result.success info = true ->
  let w' := after_getConfigurationInfo after (Fulfilled info) w in
  State.configInfo (state w') = Some info /\
  State.modelConfigs (state w') = State.modelConfigs (state w) /\
  State.error (state w') = State.error (state w).
Proof.
  intros Hok. cbv zeta. unfold after_getConfigurationInfo. rewrite Hok.
  unfold loadModelConfigurations.
  destruct (Result.serviceStatus info) as [st |];
    [destruct (ServiceStatus.currentBackendName st) as [n |];
     [destruct (n =? "") |] |];
    (destruct (Result.configuration info) as [c |];
     [destruct (truthy_json c) |]);
    unfold seq; cbn [host setConfigInfo setSelectedBackend setActualBackend setJsonConfig
         update skip];
    (destruct (llamaSwap_present (host w) && getModelConfigurations_present (host w));
     [| rewrite load_finally_state]);
    repeat split.
Qed.

(** C6 (as the code has it): [loadConfigurationInfo] records a load error
    exactly when the configuration-info read fails (no service object, a
    rejection, or [success: false]); then nothing of the snapshot or the
    model list changes and the model read is not attempted.  When the info
    read succeeds its answer becomes the snapshot and no error is
    recorded, whatever the model read does: a model read that succeeds
    with a list replaces the model list, one that fails leaves the list
    that was there before the load. *)
Theorem load_fails_with_the_info_read (after : AfterLoad) (w : World) :
  let w1 := loadConfigurationInfo after w in
  (llamaSwap_present (host w) = false ->
     State.error (state w1) = Some "LlamaSwap service not available" /\
     log w1 = log w) /\
  (llamaSwap_present (host w) = true ->
     State.error (state w1) = None /\
     State.loading (state w1) = true /\
     log w1 = (log w ++ [llamaSwap.getConfigurationInfo])%list /\
     awaiting w1 = (awaiting w ++ [(length (log w), K_getConfigurationInfo after)])%list) /\
  (forall w2 o,
     State.error (state w2) = None ->
     let w3 := resume (K_getConfigurationInfo after) o w2 in
     State.modelConfigs (state w3) = State.modelConfigs (state w2) /\
     (failed o = true ->
        State.error (state w3) = Some (failure_message o "Failed to load configuration"
                                                       "Failed to load configuration") /\
        State.configInfo (state w3) = State.configInfo (state w2) /\
        log w3 = log w2) /\
     (failed o = false ->
        State.error (state w3) = None /\
        exists info, o = Fulfilled info /\ State.configInfo (state w3) = Some info)) /\
  (forall w4 o,
     let w5 := resume (K_getModelConfigurations after) o w4 in
     State.error (state w5) = State.error (state w4) /\
     State.configInfo (state w5) = State.configInfo (state w4) /\
     State.loading (state w5) = false /\
     (failed o = true ->
        State.modelConfigs (state w5) = State.modelConfigs (state w4)) /\
     (forall result models,
        o = Fulfilled result -> Result.success result = true ->
        Result.models result = ModelList models ->
        State.modelConfigs (state w5) = models)).
Proof.
  cbv zeta. split; [| split; [| split]].
  - intros Habsent. unfold loadConfigurationInfo, load_catch, seq.
    cbn [host setError setLoading update]. rewrite Habsent.
    rewrite load_finally_state.
    match goal with |- context [log (load_finally ?a ?x)] =>
      destruct (load_finally_log a x) as [-> _] end.
    split; reflexivity.
  - intros Hpresent. unfold loadConfigurationInfo, seq.
    cbn [host setError setLoading update]. rewrite Hpresent. repeat split.
  - intros w2 o Hnone. cbn [resume]. unfold after_getConfigurationInfo.
    destruct o as [result | reason]; cbn [failed failure_message].
    + destruct (Result.success result) eqn:Hok; cbn [negb].
      * destruct (@info_read_success after result w2 Hok) as (Hc & Hm & He).
        unfold after_getConfigurationInfo in Hc, Hm, He. rewrite Hok in Hc, Hm, He.
        repeat split; try discriminate.
        -- exact Hm.
        -- rewrite He. exact Hnone.
        -- exists result. split; [reflexivity | exact Hc].
      * unfold load_catch, seq. rewrite load_finally_state.
        match goal with |- context [log (load_finally ?a ?x)] =>
          destruct (load_finally_log a x) as [-> _] end.
        repeat split; discriminate.
    + unfold load_catch, seq. rewrite load_finally_state.
      match goal with |- context [log (load_finally ?a ?x)] =>
        destruct (load_finally_log a x) as [-> _] end.
      repeat split; discriminate.
  - intros w4 o. cbn [resume]. unfold after_getModelConfigurations.
    destruct o as [result | reason]; unfold seq; rewrite load_finally_state;
      cbn [failed].
    + destruct (Result.success result) eqn:Hok;
        destruct (Result.models result) eqn:Hmodels; cbn [negb];
        repeat split; try discriminate; try congruence.
      intros r l E Hr Hl. injection E as <-. rewrite Hmodels in Hl.
      injection Hl as <-. reflexivity.
    + repeat split; discriminate.
Qed.

(** C6 (as the spec states it) fails on the model list: the panel holds
    [m1] and [m2]; after a restart the snapshot is loaded again, the info
    read succeeds and the model read rejects.  The load ends without an
    error, with the new snapshot -- and with [m1] and [m2] still listed. *)
Lemma failed_model_read_keeps_the_old_list :
  let es := [Click RestartWithOverrides;
             Settle 2 (Fulfilled Sample.ok);
             Settle 3 (Fulfilled Sample.info);
             Settle 4 (Rejected (ErrorObject "timeout"))] in
  let w := Sample.after es Sample.loaded in
  run es Sample.loaded = Some w /\
  calls_since 3 w = [llamaSwap.getConfigurationInfo; llamaSwap.getModelConfigurations] /\
  State.loading (state w) = false /\
  State.error (state w) = None /\
  State.configInfo (state w) = Some Sample.info /\
  map name (State.modelConfigs (state w)) = ["m1"; "m2"] /\
  State.modelConfigs (state w) <> [].
Proof.
  cbv zeta. split; [| split; [| split; [| split; [| split; [| split]]]]];
    try (vm_compute; reflexivity).
  intros E. apply (f_equal (@length _)) in E. vm_compute in E. discriminate.
Qed.

(* ------------------------------------------------------------------ *)
(** * Changing the backend *)

(** What [failure_message] returns when the failure has a message. *)
Lemma failure_message_carried (no_error not_an_error : string) :
  (forall result e, Result.error result = Some e -> e <> "" ->
     failure_message (Fulfilled result) no_error not_an_error = e) /\
  (forall m, failure_message (Rejected (ErrorObject m)) no_error not_an_error = m).
Proof.
  split; [| reflexivity].
  intros result e He Hne. cbn. rewrite He. cbn.
  destruct (String.eqb_spec e ""); [contradiction | reflexivity].
Qed.




(** The scenario of the spec: backends [cpu] and [cuda], no override.  The
    user picks [cuda]; the override is set after 100 ms; the restart takes
    twelve seconds, so the four progress messages all run before it
    answers; the snapshot is read again (it now reports the override) and
    three seconds later the status clears. *)
Example change_backend_scenario :
  let es := [Click (ChangeBackend "cuda");
             Elapse 100; Settle 2 (Fulfilled Sample.ok);
             Elapse 1000; Fire; Elapse 2000; Fire; Elapse 2000; Fire; Elapse 5000; Fire;
             Elapse 2000; Settle 3 (Fulfilled Sample.ok);
             Elapse 100; Settle 4 (Fulfilled (Sample.info_with (Some "cuda")));
             Settle 5 (Fulfilled Sample.two_models);
             Elapse 3000; Fire] in
  let w := Sample.after es Sample.loaded in
  run es Sample.loaded = Some w /\
  type (State.operationStatus (state Sample.loaded))
    :: phases es Sample.loaded
  = [idle; saving; saving; restarting;
     restarting; restarting; restarting; restarting; restarting; restarting;
     restarting; restarting;
     restarting; success;
     success; success; success;
     success; idle] /\
  calls_since 2 w
  = [llamaSwap.setBackendOverride (Some "cuda"); llamaSwap.restartWithOverrides;
     llamaSwap.getConfigurationInfo; llamaSwap.getModelConfigurations] /\
  State.selectedBackend (state w) = "cuda" /\
  awaiting w = [] /\ timers w = [].
Proof.
  cbv zeta. split; [| split; [| split; [| split; [| split]]]];
    vm_compute; reflexivity.
Qed.

(** The same, the restart failing: the status reports the failure's
    message, no call follows the failed one, and the selection stays on
    [cuda]: the override that was set is not withdrawn. *)
Example change_backend_restart_fails :
  let es := [Click (ChangeBackend "cuda");
             Elapse 100; Settle 2 (Fulfilled Sample.ok);
             Elapse 400; Settle 3 (Fulfilled (Sample.failure "port in use"))] in
  let w := Sample.after es Sample.loaded in
  run es Sample.loaded = Some w /\
  State.operationStatus (state w) = {| type := error; message := "port in use" |} /\
  calls_since 2 w
  = [llamaSwap.setBackendOverride (Some "cuda"); llamaSwap.restartWithOverrides] /\
  State.selectedBackend (state w) = "cuda" /\
  awaiting w = [].
Proof.
  cbv zeta. split; [| split; [| split; [| split]]]; vm_compute; reflexivity.
Qed.

(* ------------------------------------------------------------------ *)
(** * The in-flight gate *)

(** A handler does not read the operation status: whatever the status is
    when it is called, it does what it does from [idle]. *)
Lemma handler_ignores_status (i : Intent) (s : OperationStatus) (w : World) :
  handler i (update (State.setOperationStatus s) w) = handler i w.
Proof.
  destruct i; cbn [handler].
  - unfold handleBackendChange, seq, try_await.
    cbn [host update setOperationStatus].
    destruct (llamaSwap_present (host w)); reflexivity.
  - unfold handleReconfigure, seq, try_await.
    cbn [host update setOperationStatus].
    destruct (llamaSwap_present (host w)); reflexivity.
  - unfold handleRestartWithOverrides, seq, try_await.
    cbn [host update setOperationStatus setTimeout].
    destruct (llamaSwap_present (host w)); reflexivity.
  - unfold saveConfiguration, seq, try_await.
    cbn [host state update setOperationStatus State.jsonError
         State.setOperationStatus].
    destruct (truthy_string (State.jsonError (state w))); [reflexivity |].
    destruct (llamaSwap_present (host w)); reflexivity.
  - unfold saveConfigurationAndRestart, seq, try_await.
    cbn [host state update setOperationStatus setTimeout State.jsonError
         State.setOperationStatus].
    destruct (truthy_string (State.jsonError (state w))); [reflexivity |].
    destruct (llamaSwap_present (host w)); reflexivity.
  - unfold saveModelConfiguration, seq, try_await.
    cbn [host state update setOperationStatus State.modelConfigs
         State.setOperationStatus].
    destruct (find _ _); [| reflexivity].
    destruct (llamaSwap_present (host w)); reflexivity.
  - unfold saveAllModelConfigurations, seq, try_await.
    cbn [host state update setOperationStatus State.setOperationStatus].
    destruct (llamaSwap_present (host w)); reflexivity.
Qed.

(** C1 (as the code has it): while the status is [saving], [restarting] or
    [reconfiguring], the button of every intent is disabled, and a click
    on it runs nothing: no status change, no remote call, no timer, no
    signal of any kind -- the world after the click is the world before.
    The gate is the button's [disabled] attribute alone: the handler
    itself, called in that state, does what it does from [idle]. *)
Theorem click_in_flight_runs_nothing (i : Intent) (w : World) :
  isOperationInProgress (state w) = true ->
  disabled i (state w) = true /\
  click i w = w /\
  step (Click i) w = Some w /\
  handler i w
  = handler i (update (State.setOperationStatus {| type := idle; message := "" |}) w).
Proof.
  intros Hbusy.
  assert (Hdisabled : disabled i (state w) = true).
  { destruct i; cbn [disabled]; rewrite Hbusy; reflexivity. }
  assert (Hclick : click i w = w).
  { unfold click. rewrite Hdisabled, andb_false_r. reflexivity. }
  repeat split; try assumption.
  - cbn [step]. now rewrite Hclick.
  - symmetry. apply handler_ignores_status.
Qed.

Lemma click_in_flight_witness :
  let busy := Sample.after [Click RestartWithOverrides] Sample.loaded in
  isOperationInProgress (state busy) = true /\
  click (ChangeBackend "cuda") busy = busy.
Proof.
  split; [reflexivity |].
  exact (proj1 (proj2 (@click_in_flight_runs_nothing (ChangeBackend "cuda")
                         (Sample.after [Click RestartWithOverrides] Sample.loaded)
                         eq_refl))).
Defined.

(** C1 (as the spec states it) fails, twice over.  First, the handler of an
    intent does not reject: called while a restart is in flight,
    [handleBackendChange] changes the status and sends its call, and two
    operations await their answers.  Second, the buttons do not keep the
    operations apart either: a scan fails at 100 ms, so its auto-clear is
    due at 3100 ms; a second scan is started at 3000 ms; the stale
    auto-clear sets the status to [idle] while that scan is in flight, the
    restart button is enabled again, and a click on it starts the restart
    next to the scan. *)
Lemma intents_are_not_rejected_in_flight :
  let busy := Sample.after [Click RestartWithOverrides] Sample.loaded in
  let forced := handleBackendChange "cuda" busy in
  let es := [Click Reconfigure;
             Elapse 100; Settle 2 (Fulfilled (Sample.failure "scan failed"));
             Elapse 2900; Click Reconfigure;
             Elapse 100; Fire;
             Click RestartWithOverrides] in
  let overlapped := Sample.after es Sample.loaded in
  (type (State.operationStatus (state busy)) = restarting /\
   type (State.operationStatus (state forced)) = saving /\
   calls_since (length (log busy)) forced = [llamaSwap.setBackendOverride (Some "cuda")] /\
   map snd (awaiting forced) = [K_restartWithOverrides; K_setBackendOverride "cuda"]) /\
  (run es Sample.loaded = Some overlapped /\
   phases es Sample.loaded
   = [reconfiguring; reconfiguring; error; error; reconfiguring; reconfiguring;
      idle; restarting] /\
   calls_since 2 overlapped
   = [llamaSwap.regenerateConfig; llamaSwap.regenerateConfig;
      llamaSwap.restartWithOverrides] /\
   map snd (awaiting overlapped) = [K_regenerateConfig; K_restartWithOverrides]).
Proof.
  cbv zeta. split; [split; [| split; [| split]] | split; [| split; [| split]]];
    vm_compute; reflexivity.
Qed.

(* ------------------------------------------------------------------ *)
(** * Timers *)

Lemma keeps_seq (a b : Action) :
  keeps_timers a -> keeps_timers b -> keeps_timers (a ;; b).
Proof. intros Ha Hb w t Hin. apply Hb, Ha, Hin. Qed.

Lemma keeps_update (f : State.t -> State.t) : keeps_timers (update f).
Proof. intros w t Hin. exact Hin. Qed.

Lemma keeps_setTimeout (status : OperationStatus) (delay : N) :
  keeps_timers (setTimeout status delay).
Proof. intros w t Hin. cbn. apply in_or_app. now left. Qed.

Lemma keeps_await (c : Call) (k : Kont) : keeps_timers (await c k).
Proof. intros w t Hin. exact Hin. Qed.

Lemma keeps_skip : keeps_timers skip.
Proof. intros w t Hin. exact Hin. Qed.

Ltac head_of a :=
  lazymatch a with
  | ?f _ => head_of f
  | _ => a
  end.

(** Walk down an action: sequences and case splits by structure, the
    primitives by the lemmas above, a named handler by its definition. *)
Ltac keeps :=
  lazymatch goal with
  | |- keeps_timers (seq _ _) => apply keeps_seq; keeps
  | |- keeps_timers (update _) => apply keeps_update
  | |- keeps_timers (setTimeout _ _) => apply keeps_setTimeout
  | |- keeps_timers (await _ _) => apply keeps_await
  | |- keeps_timers skip => apply keeps_skip
  | |- keeps_timers (match ?x with _ => _ end) => destruct x; keeps
  | |- keeps_timers (fun _ => _) =>
      let w := fresh "w" in
      let t := fresh "t" in
      let H := fresh "H" in
      intros w t H; cbv beta; keeps_at t H
  | |- keeps_timers ?a => let h := head_of a in unfold h; keeps
  end
with keeps_at t H :=
  lazymatch goal with
  | |- In _ (timers (match ?x with _ => _ end)) => destruct x; keeps_at t H
  | |- In _ (timers (?a ?w)) =>
      cut (keeps_timers a); [intros K; exact (K w t H) | keeps]
  | |- _ => exact H
  end.

Lemma handler_keeps_timers (i : Intent) : keeps_timers (handler i).
Proof. keeps. Qed.

Lemma click_keeps_timers (i : Intent) : keeps_timers (click i).
Proof. keeps. Qed.

Lemma resume_keeps_timers (k : Kont) (o : Settled) : keeps_timers (resume k o).
Proof. keeps. Qed.

Lemma load_keeps_timers (after : AfterLoad) : keeps_timers (loadConfigurationInfo after).
Proof. keeps. Qed.

Lemma handleJsonChange_keeps_timers (value : string) :
  keeps_timers (handleJsonChange value).
Proof. keeps. Qed.

Lemma importConfiguration_keeps_timers (content : string) :
  keeps_timers (importConfiguration content).
Proof. keeps. Qed.

Lemma updateModelConfig_keeps_timers (modelName : string) (field : Field)
    (value : FieldType field) :
  keeps_timers (updateModelConfig modelName field value).
Proof. keeps. Qed.

(** The timer that [next_timer] picks is the only one it takes out. *)
Lemma remove_due_keeps_the_rest (d : N) (l : list Timer) (x t : Timer) :
  find (fun y => (due y =? d)%N) l = Some x ->
  In t l -> In t (remove_due d l) \/ t = x.
Proof.
  induction l as [| y l IH]; cbn [find remove_due]; [intros _ [] |].
  destruct (due y =? d)%N.
  - intros [= <-] [<- | Hin]; [now right | now left].
  - intros Hfind [<- | Hin]; [left; now left |].
    destruct (IH Hfind Hin) as [H | H]; [left; now right | now right].
Qed.

(** The progress messages the three restarting operations schedule, each
    at its offset from the moment of scheduling. *)
Lemma progress_timers_scheduled (w : World) :
  llamaSwap_present (host w) = true ->
  let at_ (offset : N) (m : string) :=
    {| due := (now w + offset)%N;
       callback := {| type := restarting; message := m |} |} in
  (forall backendId result,
     Result.success result = true ->
     timers (resume (K_setBackendOverride backendId) (Fulfilled result) w)
     = (timers w
        ++ [at_ 1000%N "Applying backend changes...";
            at_ 3000%N ("Starting service with "
                        ++ (if backendId =? "auto" then "auto-detect" else backendId)
                        ++ " backend...")%string;
            at_ 5000%N "Initializing service... (this may take a moment)";
            at_ 10000%N "Service startup in progress... (almost ready)"])%list) /\
  timers (handleRestartWithOverrides w)
  = (timers w
     ++ [at_ 1000%N "Applying configuration...";
         at_ 3000%N "Starting service with new settings..."])%list /\
  (truthy_string (State.jsonError (state w)) = false ->
   timers (saveConfigurationAndRestart w)
   = (timers w
      ++ [at_ 1000%N "Configuration saved, restarting service...";
          at_ 3000%N "Applying new configuration..."])%list).
Proof.
  intros Hpresent. cbv zeta. split; [| split].
  - intros backendId result Hok. cbn [resume]. unfold after_setBackendOverride.
    rewrite Hok. unfold seq. cbn. rewrite <- !app_assoc. reflexivity.
  - unfold handleRestartWithOverrides, seq, try_await.
    cbn [host update setOperationStatus setTimeout]. rewrite Hpresent.
    cbn. rewrite <- !app_assoc. reflexivity.
  - intros Hvalid. unfold saveConfigurationAndRestart. rewrite Hvalid.
    unfold seq, try_await. cbn [host update setOperationStatus setTimeout].
    rewrite Hpresent. cbn. rewrite <- !app_assoc. reflexivity.
Qed.

(** Behind the stale progress messages: no event cancels a timer.  A
    timer that is pending before an event -- a click, an edit, a remote
    call settling, time passing -- is pending after it, unless the event
    is that timer firing; and a timer that fires installs its status
    whatever the status was.  So the progress messages scheduled by
    [handleBackendChange], [handleRestartWithOverrides] and
    [saveConfigurationAndRestart] stay scheduled when the remote call
    resolves. *)
Lemma timers_are_never_cancelled (e : Event) (w w' : World) (t : Timer) :
  step e w = Some w' ->
  In t (timers w) ->
  In t (timers w') \/
  (e = Fire /\ State.operationStatus (state w') = callback t).
Proof.
  intros Hstep Hin. destruct e; cbn [step] in Hstep.
  - injection Hstep as <-. left. now apply load_keeps_timers.
  - destruct (negb (State.loading (state w)) && truthy_string (State.error (state w)));
      [| discriminate].
    injection Hstep as <-. left. now apply load_keeps_timers.
  - injection Hstep as <-. left. now apply click_keeps_timers.
  - destruct (panel_shown (state w)); [| discriminate].
    injection Hstep as <-. left. now apply handleJsonChange_keeps_timers.
  - destruct (panel_shown (state w)); [| discriminate].
    injection Hstep as <-. left. now apply importConfiguration_keeps_timers.
  - destruct (panel_shown (state w) && editable modelName field (state w));
      [| discriminate].
    injection Hstep as <-. left. now apply updateModelConfig_keeps_timers.
  - destruct (take call (awaiting w)) as [[k rest] |]; [| discriminate].
    injection Hstep as <-. left. now apply resume_keeps_timers.
  - destruct (forallb (fun t0 => (now w + ms <=? due t0)%N) (timers w));
      [| discriminate].
    injection Hstep as <-. left. exact Hin.
  - unfold next_timer in Hstep.
    destruct (timers w) as [| t0 l] eqn:Htimers; [discriminate |].
    destruct (find (fun x => (due x =? earliest t0 l)%N) (t0 :: l)) as [x |] eqn:Hfind;
      [| discriminate].
    destruct (due x <=? now w)%N; [| discriminate].
    injection Hstep as <-. cbn [timers state update with_timers].
    destruct (@remove_due_keeps_the_rest _ _ _ _ Hfind Hin) as [Hrest | ->].
    + left. exact Hrest.
    + right. split; reflexivity.
Qed.

Lemma timers_survive_witness :
  let before :=
    Sample.after [Click (ChangeBackend "cuda");
                  Elapse 100; Settle 2 (Fulfilled Sample.ok);
                  Elapse 400] Sample.loaded in
  let resolves := Settle 3 (Fulfilled Sample.ok) in
  let t := {| due := 1100;
              callback := {| type := restarting;
                             message := "Applying backend changes..." |} |} in
  In t (timers (Sample.after [resolves] before)) \/
  (resolves = Fire /\
   State.operationStatus (state (Sample.after [resolves] before)) = callback t).
Proof.
  cbv zeta.
  apply (@timers_are_never_cancelled
           (Settle 3 (Fulfilled Sample.ok))
           (Sample.after [Click (ChangeBackend "cuda");
                          Elapse 100; Settle 2 (Fulfilled Sample.ok);
                          Elapse 400] Sample.loaded)).
  - vm_compute. reflexivity.
  - vm_compute. left. reflexivity.
Defined.

(** C2, the code at the failing input: the progress messages are meant
    for the time of the restart (line 309: "Update status messages during
    restart process"), and the handler's own success path ends in [idle]
    three seconds after the reload, but a restart that answers early is
    overtaken by them.  The backend is changed to [cuda]; the override is
    set at 100 ms and the restart answers at 500 ms, before the first
    progress message is due (1100 ms).  When the call resolves the status
    is [success] and the four progress timers are all still pending.  At
    1100 ms, the snapshot read again and nothing in flight, the first of
    them replaces [success] by [restarting]; after the last one
    (10100 ms) the status is [restarting] for good: no call, no timer is
    left to change it, and every button stays disabled. *)
Lemma stale_progress_message_overwrites_success :
  let es1 := [Click (ChangeBackend "cuda");
              Elapse 100; Settle 2 (Fulfilled Sample.ok);
              Elapse 400; Settle 3 (Fulfilled Sample.ok)] in
  let resolved := Sample.after es1 Sample.loaded in
  let es2 := [Elapse 100; Settle 4 (Fulfilled (Sample.info_with (Some "cuda")));
              Settle 5 (Fulfilled Sample.two_models);
              Elapse 500; Fire] in
  let overwritten := Sample.after es2 resolved in
  let es3 := [Elapse 2000; Fire; Elapse 500; Fire; Elapse 1500; Fire;
              Elapse 5000; Fire] in
  let stuck := Sample.after es3 overwritten in
  (run es1 Sample.loaded = Some resolved /\
   type (State.operationStatus (state resolved)) = success /\
   map due (timers resolved) = [1100; 3100; 5100; 10100]%N /\
   map (fun t => type (callback t)) (timers resolved)
   = [restarting; restarting; restarting; restarting]) /\
  (run es2 resolved = Some overwritten /\
   now overwritten = 1100%N /\
   awaiting overwritten = [] /\
   State.operationStatus (state overwritten)
   = {| type := restarting; message := "Applying backend changes..." |}) /\
  (run es3 overwritten = Some stuck /\
   phases es3 overwritten
   = [restarting; restarting; restarting; idle; idle; restarting;
      restarting; restarting] /\
   awaiting stuck = [] /\ timers stuck = [] /\
   isOperationInProgress (state stuck) = true).
Proof.
  cbv zeta.
  split; [split; [| split; [| split]] | split; [split; [| split; [| split]] |
          split; [| split; [| split; [| split]]]]];
    vm_compute; reflexivity.
Qed.

(* ------------------------------------------------------------------ *)
(** * Further properties of the panel *)

(** ** Sections *)

Lemma property_spread_set (A : Type) (key : string) (value : A)
    (object : list (string * A)) (k : string) :
  property k (spread_set key value object)
  = if key =? k then Some value else property k object.
Proof.
  induction object as [| [k0 v0] rest IH]; cbn [spread_set property].
  - destruct (key =? k); reflexivity.
  - destruct (String.eqb_spec k0 key) as [-> | Hne]; cbn [property].
    + destruct (key =? k); reflexivity.
    + rewrite IH. destruct (String.eqb_spec k0 k) as [-> | Hne'].
      * destruct (String.eqb_spec key k) as [-> | _]; [contradiction | reflexivity].
      * reflexivity.
Qed.

(** X1: [toggleSection] flips the visibility of the section it names
    and of no other, visibility being what the page reads,
    [expandedSections[section]] through the prototype chain: a section the
    object does not list counts as folded and is unfolded, unless it is
    named like a member of [Object.prototype] ([toString],
    [constructor], ...), which counts as unfolded and is folded.
    Toggling the same section twice gives back every section's
    visibility. *)
Theorem toggleSection_flips_one_section (section : string)
    (prev : list (string * bool)) (other : string) :
  expanded (toggleSection section prev) section = negb (expanded prev section) /\
  (other <> section ->
   expanded (toggleSection section prev) other = expanded prev other) /\
  expanded (toggleSection section (toggleSection section prev)) other
  = expanded prev other /\
  (property section prev = None ->
   property section (toggleSection section prev)
   = Some (negb (inherited section))).
Proof.
  assert (Hone : forall m k,
            expanded (toggleSection section m) k
            = if section =? k then negb (expanded m section) else expanded m k).
  { intros m k. unfold toggleSection, expanded at 1.
    rewrite property_spread_set. destruct (section =? k); reflexivity. }
  split; [| split; [| split]].
  - rewrite Hone, String.eqb_refl. reflexivity.
  - intros Hne. rewrite Hone.
    destruct (String.eqb_spec section other) as [E | _]; [congruence | reflexivity].
  - rewrite Hone. destruct (String.eqb_spec section other) as [<- | Hne].
    + rewrite Hone, String.eqb_refl. apply negb_involutive.
    + rewrite Hone.
      destruct (String.eqb_spec section other) as [E | _]; [congruence | reflexivity].
  - intros Hunlisted. unfold toggleSection, expanded.
    rewrite property_spread_set, String.eqb_refl, Hunlisted. reflexivity.
Qed.

(** ** The status bar *)

(** X2: the status bar is drawn exactly when the panel is on screen
    (no loading card, no error card, the header rendered) and
    [getStatusDisplay] has a style for the status, so the bar's style is
    never missing.  The style carries the spinner exactly when an
    operation is in progress, which is exactly when the button of every
    intent is disabled by the in-flight gate; and with the panel on
    screen an operation in progress always shows the bar.  While the
    loading card or the error card is on screen there is no status bar,
    whatever the status. *)
Theorem status_bar_agrees_with_the_gate (s : State.t) :
  (status_bar_shown s = true
   <-> panel_shown s = true /\ header_renders s = true
       /\ getStatusDisplay s <> None) /\
  (option_map icon (getStatusDisplay s) = Some RefreshCw_spinning
   <-> isOperationInProgress s = true) /\
  (isOperationInProgress s = true <-> forall i, disabled i s = true) /\
  (panel_shown s = true -> header_renders s = true ->
   isOperationInProgress s = true -> status_bar_shown s = true) /\
  (State.loading s = true \/ truthy_string (State.error s) = true ->
   status_bar_shown s = false).
Proof.
  unfold status_bar_shown, getStatusDisplay, isOperationInProgress.
  split; [| split; [| split; [| split]]].
  - destruct (panel_shown s), (header_renders s),
      (type (State.operationStatus s)); cbn; split;
      try (intros H; discriminate H);
      try (intros (H1 & H2 & H3); try discriminate H1; try discriminate H2;
           exfalso; apply H3; reflexivity);
      intros _; repeat split; discriminate.
  - destruct (type (State.operationStatus s)); cbn; split; intros H;
      try reflexivity; try discriminate H.
  - split.
    + intros Hbusy i. destruct i; cbn [disabled]; unfold isOperationInProgress;
        rewrite Hbusy; reflexivity.
    + intros Hall. exact (Hall Reconfigure).
  - intros -> ->. destruct (type (State.operationStatus s)); cbn; congruence.
  - unfold panel_shown. intros [-> | ->]; [reflexivity |].
    rewrite andb_false_r. reflexivity.
Qed.

(** ** How an operation ends *)

(** The [catch] block of every operation: one status, one timer, nothing
    else. *)
Lemma catch_operation_world (fallback : string) (delay : N) (e : Thrown) (w : World) :
  catch_operation fallback delay e w
  = {| state := State.setOperationStatus
                  {| type := error; message := message_of e fallback |} (state w);
       host := host w; now := now w; log := log w; awaiting := awaiting w;
       timers := (timers w ++ [auto_clear w delay])%list |}.
Proof. reflexivity. Qed.

(** X3: whichever of the seven operations it belongs to, a remote call
    that fails -- it rejects, or answers [success: false] -- ends the
    operation in the same way: the status is [error] with the failure's
    message (the rejection's, or the answer's non-empty [error]), no
    further call is made, one auto-clear is scheduled three or
    five seconds ahead, and the snapshot, the registry, the JSON buffer,
    its error, the dirty flag and the selection are what they were. *)
Theorem failed_call_changes_no_data (k : Kont) (o : Settled) (w : World) :
  is_operation k = true ->
  failed o = true ->
  let w' := resume k o w in
  type (State.operationStatus (state w')) = error /\
  (forall m, o = Rejected (ErrorObject m) ->
     message (State.operationStatus (state w')) = m) /\
  (forall result e, o = Fulfilled result -> Result.error result = Some e -> e <> "" ->
     message (State.operationStatus (state w')) = e) /\
  log w' = log w /\ awaiting w' = awaiting w /\
  (exists delay, (delay = 3000 \/ delay = 5000)%N /\
     timers w' = (timers w ++ [auto_clear w delay])%list) /\
  State.configInfo (state w') = State.configInfo (state w) /\
  State.modelConfigs (state w') = State.modelConfigs (state w) /\
  State.jsonConfig (state w') = State.jsonConfig (state w) /\
  State.jsonError (state w') = State.jsonError (state w) /\
  State.hasUnsavedChanges (state w') = State.hasUnsavedChanges (state w) /\
  State.selectedBackend (state w') = State.selectedBackend (state w) /\
  State.loading (state w') = State.loading (state w) /\
  State.error (state w') = State.error (state w).
Proof.
  intros Hop Hfailed.
  assert (Hcatch : exists fallback no_error delay e,
            (delay = 3000 \/ delay = 5000)%N /\
            resume k o w = catch_operation fallback delay e w /\
            message_of e fallback = failure_message o no_error fallback).
  { destruct k; try discriminate Hop; cbn [resume];
      unfold after_setBackendOverride, after_restartAfterOverride,
        after_regenerateConfig, after_restartWithOverrides,
        after_saveConfigFromJson, after_saveConfigAndRestart,
        after_saveModelConfiguration, after_saveAllModelConfigurations,
        catch_backendChange, catch_reconfigure, catch_restart,
        catch_saveConfiguration, catch_saveAndRestart, catch_saveModel,
        catch_saveAllModels;
      (destruct o as [result | err]; cbn in Hfailed;
       [destruct (Result.success result); [discriminate Hfailed |] |]);
      do 4 eexists; (split; [| split; [reflexivity | reflexivity]]); auto. }
  destruct Hcatch as (fallback & no_error & delay & e & Hdelay & Hresume & Hmessage).
  cbv zeta. rewrite Hresume, catch_operation_world. cbn.
  destruct (failure_message_carried no_error fallback) as [Hresult Hthrown].
  split; [reflexivity |].
  split; [intros m ->; rewrite Hmessage; apply Hthrown |].
  split; [intros result e' -> He Hne; rewrite Hmessage; now apply Hresult |].
  split; [reflexivity |]. split; [reflexivity |].
  split; [exists delay; split; [exact Hdelay | reflexivity] |].
  repeat split.
  Unshelve. all: exact "".
Qed.

Lemma failed_call_witness :
  let w := Sample.after [Click SaveAllModels] 
             (updateModelConfig "m1" F_gpuLayers (Some (Num 20)) Sample.loaded) in
  let w' := resume K_saveAllModelConfigurations (Rejected (ErrorObject "offline")) w in
  type (State.operationStatus (state w')) = error /\
  State.hasUnsavedChanges (state w') = State.hasUnsavedChanges (state w).
Proof.
  pose proof (@failed_call_changes_no_data K_saveAllModelConfigurations
                (Rejected (ErrorObject "offline"))
                (Sample.after [Click SaveAllModels]
                   (updateModelConfig "m1" F_gpuLayers (Some (Num 20)) Sample.loaded))
                eq_refl eq_refl) as H.
  cbv zeta in H |- *. split; [apply H | apply H].
Defined.

(** While the snapshot loads the panel is not drawn, so a click has no
    button to land on. *)
Lemma click_while_loading (i : Intent) (w : World) :
  State.loading (state w) = true -> click i w = w.
Proof.
  intros Hloading. unfold click, panel_shown. rewrite Hloading. reflexivity.
Qed.

(** X4: the state that the last call of a backend change, a
    reconfigure, a restart, a save or a save-and-restart leaves when it
    succeeds.  The status is [success] and the snapshot is being read
    again: [getConfigurationInfo] has gone out, the old snapshot is still
    in place, no auto-clear is scheduled yet, and [loading] is up.  In
    that state the loading card is on screen instead of the panel, so a
    click starts nothing, although the status is not an in-flight one.
    (How long [loading] stays up is not part of the statement.)  A
    successful model save (one model or all) makes no call and leaves
    [loading] and the load error as they were; its auto-clear is due two
    seconds later. *)
Theorem success_reloads_the_snapshot (k : Kont) (result : Result.t) (w : World) :
  Result.success result = true ->
  llamaSwap_present (host w) = true ->
  let w' := resume k (Fulfilled result) w in
  (reloads k = true ->
     type (State.operationStatus (state w')) = success /\
     log w' = (log w ++ [llamaSwap.getConfigurationInfo])%list /\
     State.configInfo (state w') = State.configInfo (state w) /\
     timers w' = timers w /\
     State.loading (state w') = true /\
     isOperationInProgress (state w') = false /\
     (forall i, click i w' = w')) /\
  ((exists modelName, k = K_saveModelConfiguration modelName)
   \/ k = K_saveAllModelConfigurations ->
     type (State.operationStatus (state w')) = success /\
     log w' = log w /\ awaiting w' = awaiting w /\
     State.configInfo (state w') = State.configInfo (state w) /\
     State.loading (state w') = State.loading (state w) /\
     State.error (state w') = State.error (state w) /\
     timers w' = (timers w ++ [auto_clear w 2000])%list).
Proof.
  intros Hok Hpresent. cbv zeta. split.
  - intros Hreloads.
    assert (Hshape : exists m after,
              resume k (Fulfilled result) w
              = loadConfigurationInfo after
                  (update (fun s => State.setOperationStatus
                                      {| type := success; message := m |} s) w)
              \/ resume k (Fulfilled result) w
                 = loadConfigurationInfo after
                     (setHasUnsavedChanges false
                        (update (fun s => State.setOperationStatus
                                            {| type := success; message := m |} s) w))).
    { destruct k; try discriminate Hreloads; cbn [resume];
        unfold after_restartAfterOverride, after_regenerateConfig,
          after_restartWithOverrides, after_saveConfigFromJson,
          after_saveConfigAndRestart; rewrite Hok;
        do 2 eexists; (left; reflexivity) || (right; reflexivity). }
    destruct Hshape as (m & after & [-> | ->]);
      unfold loadConfigurationInfo, seq;
      cbn [host setLoading setError setHasUnsavedChanges update];
      rewrite Hpresent;
      (split; [reflexivity |]); (split; [reflexivity |]);
      (split; [reflexivity |]); (split; [reflexivity |]);
      (split; [reflexivity |]); (split; [reflexivity |]);
      intros i; apply click_while_loading; reflexivity.
  - intros [[modelName ->] | ->]; cbn [resume];
      unfold after_saveModelConfiguration, after_saveAllModelConfigurations;
      rewrite Hok; repeat split.
Qed.

Lemma success_reloads_witness :
  let w := Sample.after [Click RestartWithOverrides] Sample.loaded in
  let w' := resume K_restartWithOverrides (Fulfilled Sample.ok) w in
  type (State.operationStatus (state w')) = success /\
  State.loading (state w') = true.
Proof.
  pose proof (@success_reloads_the_snapshot K_restartWithOverrides Sample.ok
                (Sample.after [Click RestartWithOverrides] Sample.loaded)
                eq_refl eq_refl) as H.
  cbv zeta in H |- *. destruct H as [H _]. specialize (H eq_refl).
  split; apply H.
Defined.

(** ** Saving what was edited *)

(** A patch of a key other than [name] renames nothing, so a search by
    name finds the patched copy of what it found before. *)
Lemma find_after_patch (modelName : string) (field : Field) (value : FieldType field)
    (wanted : string) (l : list ModelConfig) :
  field <> F_name ->
  find (fun x => name x =? wanted) (map (patch modelName field value) l)
  = option_map (patch modelName field value) (find (fun x => name x =? wanted) l).
Proof.
  intros Hfield. induction l as [| x l IH]; [reflexivity |].
  cbn [map find].
  assert (Hname : name (patch modelName field value x) = name x).
  { unfold patch. destruct (name x =? modelName); [| reflexivity].
    apply (@spread_with_other field value x F_name). congruence. }
  rewrite Hname. destruct (name x =? wanted); [reflexivity | exact IH].
Qed.

(** X5: a patch followed by a save sends the patch.  If the registry
    lists a model under the name and the patched key is not [name], then
    [saveModelConfiguration] called after [updateModelConfig] sends that
    model's record with the new value in the patched key, and
    [saveAllModelConfigurations] sends the whole registry, as many
    records as before, the patched one among them. *)
Theorem patch_then_save_sends_the_patch (w : World) (modelName : string)
    (field : Field) (value : FieldType field) (model : ModelConfig) :
  llamaSwap_present (host w) = true ->
  find (fun x => name x =? modelName) (State.modelConfigs (state w)) = Some model ->
  field <> F_name ->
  let patched := updateModelConfig modelName field value w in
  let sent := spread_with model field value in
  log (saveModelConfiguration modelName patched)
  = (log w ++ [llamaSwap.saveModelConfiguration modelName sent])%list /\
  get_field field sent = value /\
  (forall g, g <> field -> get_field g sent = get_field g model) /\
  (exists records,
     log (saveAllModelConfigurations patched)
     = (log w ++ [llamaSwap.saveAllModelConfigurations records])%list /\
     length records = length (State.modelConfigs (state w)) /\
     In sent records).
Proof.
  intros Hpresent Hfind Hfield. cbv zeta.
  assert (Hname : (name model =? modelName) = true).
  { apply find_some in Hfind. apply Hfind. }
  split; [| split; [| split]].
  - unfold saveModelConfiguration, seq, try_await.
    cbn [state host setOperationStatus update State.modelConfigs
         State.setOperationStatus].
    rewrite updateModelConfig_models, find_after_patch by exact Hfield.
    rewrite Hfind. cbn [option_map]. unfold patch at 1. rewrite Hname.
    change (host (updateModelConfig modelName field value w)) with (host w).
    rewrite Hpresent. reflexivity.
  - apply spread_with_field.
  - intros g Hg. now apply spread_with_other.
  - exists (map (patch modelName field value) (State.modelConfigs (state w))).
    split; [| split].
    + unfold saveAllModelConfigurations, seq, try_await.
      cbn [state host setOperationStatus update State.modelConfigs
           State.setOperationStatus].
      change (host (updateModelConfig modelName field value w)) with (host w).
      rewrite Hpresent. reflexivity.
    + apply length_map.
    + apply find_some in Hfind. destruct Hfind as [Hin _].
      apply in_map_iff. exists model. split; [| exact Hin].
      unfold patch. rewrite Hname. reflexivity.
Qed.

Lemma patch_then_save_witness :
  let patched := updateModelConfig "m2" F_threads (Some (Num 8)) Sample.loaded in
  calls_since 2 (saveModelConfiguration "m2" patched)
  = [llamaSwap.saveModelConfiguration "m2"
       (spread_with (Sample.model "m2") F_threads (Some (Num 8)))].
Proof.
  pose proof (@patch_then_save_sends_the_patch Sample.loaded "m2" F_threads
                (Some (Num 8)) (Sample.model "m2") eq_refl eq_refl) as H.
  assert (Hfield : F_threads <> F_name) by discriminate.
  cbv zeta in H |- *. unfold calls_since.
  rewrite (proj1 (H Hfield)). reflexivity.
Defined.

(** X6: [saveModelConfiguration] for a name the registry does not list
    fails on the spot: the status goes to [error] with "Model
    configuration not found", no call is made whether the service is
    there or not, and the auto-clear is due three seconds later.  Nothing
    but the status changes. *)
Theorem save_of_unlisted_model_fails_locally (w : World) (modelName : string) :
  (forall m, In m (State.modelConfigs (state w)) -> name m <> modelName) ->
  saveModelConfiguration modelName w
  = {| state := State.setOperationStatus
                  {| type := error; message := "Model configuration not found" |}
                  (state w);
       host := host w; now := now w; log := log w; awaiting := awaiting w;
       timers := (timers w ++ [auto_clear w 3000])%list |}.
Proof.
  intros Hunlisted. unfold saveModelConfiguration, seq.
  cbn [state setOperationStatus update State.modelConfigs State.setOperationStatus].
  destruct (find (fun m => name m =? modelName) (State.modelConfigs (state w)))
    as [m |] eqn:Hfind.
  - apply find_some in Hfind. destruct Hfind as [Hin Hname].
    apply String.eqb_eq in Hname. exfalso. exact (Hunlisted m Hin Hname).
  - reflexivity.
Qed.

Lemma save_of_unlisted_model_witness :
  type (State.operationStatus (state (saveModelConfiguration "m3" Sample.loaded)))
  = error /\
  log (saveModelConfiguration "m3" Sample.loaded) = log Sample.loaded.
Proof.
  rewrite (@save_of_unlisted_model_fails_locally Sample.loaded "m3").
  - split; reflexivity.
  - intros m [<- | [<- | []]]; discriminate.
Defined.

(** ** The JSON buffer: import, reload, export *)

(** Both save buttons are disabled by a recorded JSON error, and by a
    clean buffer. *)
Lemma save_buttons_disabled (w : World) :
  truthy_string (State.jsonError (state w)) = true
  \/ State.hasUnsavedChanges (state w) = false ->
  click SaveConfig w = w /\ click SaveConfigAndRestart w = w.
Proof.
  intros H. unfold click, disabled.
  assert (Hdisabled :
            isOperationInProgress (state w)
            || truthy_string (State.jsonError (state w))
            || negb (State.hasUnsavedChanges (state w)) = true).
  { destruct H as [-> | ->]; cbn [negb];
      rewrite ?orb_true_r; reflexivity. }
  rewrite Hdisabled, !andb_false_r. split; reflexivity.
Qed.

(** X7: importing a file never touches the dirty flag, the status, the
    registry, the snapshot, the calls or the timers.  A file that parses
    replaces the buffer and clears the buffer's error; with nothing
    unsaved before, both save buttons therefore stay disabled on the
    imported text.  A file that does not parse leaves the buffer as it
    was, records "Invalid JSON file", and disables both save buttons. *)
Theorem import_replaces_the_text_only (content : string) (w : World) :
  let w' := importConfiguration content w in
  State.hasUnsavedChanges (state w') = State.hasUnsavedChanges (state w) /\
  State.operationStatus (state w') = State.operationStatus (state w) /\
  State.modelConfigs (state w') = State.modelConfigs (state w) /\
  State.configInfo (state w') = State.configInfo (state w) /\
  log w' = log w /\ awaiting w' = awaiting w /\ timers w' = timers w /\
  (JSON_parse (host w) content = None ->
     State.jsonConfig (state w') = content /\
     State.jsonError (state w') = None /\
     (State.hasUnsavedChanges (state w) = false ->
        click SaveConfig w' = w' /\ click SaveConfigAndRestart w' = w')) /\
  (JSON_parse (host w) content <> None ->
     State.jsonConfig (state w') = State.jsonConfig (state w) /\
     State.jsonError (state w') = Some "Invalid JSON file" /\
     click SaveConfig w' = w' /\ click SaveConfigAndRestart w' = w').
Proof.
  cbv zeta. unfold importConfiguration.
  destruct (JSON_parse (host w) content) as [syntax_error |] eqn:Hparse.
  - do 7 (split; [reflexivity |]). split.
    + intros H; discriminate H.
    + intros _. do 2 (split; [reflexivity |]).
      apply save_buttons_disabled. left. reflexivity.
  - do 7 (split; [reflexivity |]). split.
    + intros _. do 2 (split; [reflexivity |]).
      intros Hclean. apply save_buttons_disabled. right. exact Hclean.
    + intros H. exfalso. apply H. reflexivity.
Qed.

(** X8: a successful read of the snapshot overwrites the JSON buffer with
    the serialization of the new document, whatever had been typed, and
    leaves the dirty flag and the buffer's error as they were -- so the
    flag can stay up over a buffer that equals the snapshot.  After it the
    buffer is the text that [exportConfiguration] writes and that the
    change detector takes for clean.  A snapshot without a document
    (absent, or a falsy value) leaves the buffer alone, and then nothing
    is exported. *)
Theorem reload_replaces_the_buffer (after : AfterLoad) (info : Result.t) (w : World) :
  Result.success info = true ->
  let w' := after_getConfigurationInfo after (Fulfilled info) w in
  State.hasUnsavedChanges (state w') = State.hasUnsavedChanges (state w) /\
  State.jsonError (state w') = State.jsonError (state w) /\
  (forall c, Result.configuration info = Some c -> truthy_json c = true ->
     State.jsonConfig (state w') = JSON_stringify c 2 /\
     originalConfig (state w') = State.jsonConfig (state w') /\
     exportConfiguration (state w') = Some (State.jsonConfig (state w')) /\
     State.hasUnsavedChanges
       (state (handleJsonChange (State.jsonConfig (state w')) w')) = false) /\
  ((Result.configuration info = None
    \/ exists c, Result.configuration info = Some c /\ truthy_json c = false) ->
     State.jsonConfig (state w') = State.jsonConfig (state w) /\
     exportConfiguration (state w') = None).
Proof.
  intros Hok. cbv zeta.
  assert (Hstate :
    state (after_getConfigurationInfo after (Fulfilled info) w)
    = State.setLoading
        (if llamaSwap_present (host w) && getModelConfigurations_present (host w)
         then State.loading (state w) else false)
        ((match Result.configuration info with
          | Some c => if truthy_json c then State.setJsonConfig (JSON_stringify c 2)
                      else fun s => s
          | None => fun s => s
          end)
           ((match Result.serviceStatus info with
             | Some st =>
                 match ServiceStatus.currentBackendName st with
                 | Some n => if n =? "" then fun s => s else State.setActualBackend n
                 | None => fun s => s
                 end
             | None => fun s => s
             end)
              (State.setSelectedBackend
                 (or_else (match Result.currentBackendOverride info with
                           | Some o => backendId o
                           | None => None
                           end) "auto")
                 (State.setConfigInfo (Some info) (state w)))))).
  { unfold after_getConfigurationInfo. rewrite Hok.
    unfold loadModelConfigurations, seq.
    destruct (Result.serviceStatus info) as [st |];
      [destruct (ServiceStatus.currentBackendName st) as [n |];
       [destruct (n =? "") |] |];
      (destruct (Result.configuration info) as [c |];
       [destruct (truthy_json c) |]);
      cbn [host setConfigInfo setSelectedBackend setActualBackend setJsonConfig
           update skip];
      (destruct (llamaSwap_present (host w) && getModelConfigurations_present (host w));
       [| rewrite load_finally_state]);
      reflexivity. }
  rewrite handleJsonChange_dirty. rewrite Hstate.
  unfold originalConfig, exportConfiguration.
  destruct (Result.serviceStatus info) as [st |];
    [destruct (ServiceStatus.currentBackendName st) as [n |];
     [destruct (n =? "") |] |].
  all: split; [| split; [| split]].
  all: try (destruct (Result.configuration info) as [c |];
            [destruct (truthy_json c) |]; reflexivity).
  all: try (intros c Hc Htruthy; rewrite Hc, Htruthy; cbn; rewrite Hc, Htruthy;
            rewrite String.eqb_refl; repeat split).
  all: intros [Hnone | (c & Hc & Hfalsy)];
    [rewrite Hnone; cbn; rewrite Hnone; split; reflexivity
    | rewrite Hc, Hfalsy; cbn; rewrite Hc, Hfalsy; split; reflexivity].
Qed.

Lemma reload_replaces_the_buffer_witness :
  let typed := Sample.after [ChangeJson "{ }"] Sample.loaded in
  let w' := after_getConfigurationInfo None (Fulfilled Sample.info) typed in
  State.jsonConfig (state typed) = "{ }" /\
  State.jsonConfig (state w') = JSON_stringify Sample.document 2 /\
  State.hasUnsavedChanges (state w') = true.
Proof.
  pose proof (@reload_replaces_the_buffer None Sample.info
                (Sample.after [ChangeJson "{ }"] Sample.loaded) eq_refl) as H.
  cbv zeta in H |- *. destruct H as (Hflag & _ & Hdoc & _).
  split; [reflexivity | split].
  - apply (Hdoc Sample.document); reflexivity.
  - rewrite Hflag. reflexivity.
Defined.

(** ** What a click can and cannot do *)

(** X9: the refusal "Cannot save configuration with JSON errors" can not
    be produced by a click.  A click on either save button does nothing,
    or it finds the buffer's error clear, the dirty flag up and no
    operation in progress, and then the handler goes on to the remote
    call: the status it leaves is [saving], or, with no service object,
    the [TypeError]'s message -- never the refusal. *)
Theorem click_never_shows_the_refusal (i : Intent) (w : World) :
  i = SaveConfig \/ i = SaveConfigAndRestart ->
  click i w = w \/
  (truthy_string (State.jsonError (state w)) = false /\
   State.hasUnsavedChanges (state w) = true /\
   isOperationInProgress (state w) = false /\
   panel_shown (state w) = true /\
   click i w = handler i w /\
   message (State.operationStatus (state (click i w)))
   <> "Cannot save configuration with JSON errors" /\
   (llamaSwap_present (host w) = true ->
    type (State.operationStatus (state (click i w))) = saving /\
    exists text, log (click i w) = (log w ++ [text])%list /\
      (text = llamaSwap.saveConfigFromJson (State.jsonConfig (state w))
       \/ text = llamaSwap.saveConfigAndRestart (State.jsonConfig (state w))))).
Proof.
  intros Hi. unfold click.
  destruct (panel_shown (state w)) eqn:Hpanel; [| left; reflexivity].
  assert (Hoffered : offered i (state w) = true) by (destruct Hi as [-> | ->]; reflexivity).
  rewrite Hoffered. cbn [andb].
  assert (Hdisabled : disabled i (state w)
                      = isOperationInProgress (state w)
                        || truthy_string (State.jsonError (state w))
                        || negb (State.hasUnsavedChanges (state w)))
    by (destruct Hi as [-> | ->]; reflexivity).
  rewrite Hdisabled.
  destruct (isOperationInProgress (state w)); [left; reflexivity |].
  destruct (truthy_string (State.jsonError (state w))) eqn:Herr; [left; reflexivity |].
  destruct (State.hasUnsavedChanges (state w)); [| left; reflexivity].
  right. cbn [orb negb]. do 5 (split; [reflexivity |]).
  destruct Hi as [-> | ->]; cbn [handler];
    unfold saveConfiguration, saveConfigurationAndRestart; rewrite Herr;
    unfold seq, try_await; cbn [host setOperationStatus setTimeout update];
    destruct (llamaSwap_present (host w)); split;
    try (intros E; vm_compute in E; discriminate E);
    try (intros E; discriminate E);
    intros _; (split; [reflexivity |]); eexists; (split; [reflexivity |]); auto.
Qed.

Lemma click_never_shows_the_refusal_witness :
  let w := Sample.after [ChangeJson "{ }"] Sample.loaded in
  click SaveConfig w = w \/
  (truthy_string (State.jsonError (state w)) = false /\
   State.hasUnsavedChanges (state w) = true /\
   isOperationInProgress (state w) = false /\
   panel_shown (state w) = true /\
   click SaveConfig w = handler SaveConfig w /\
   message (State.operationStatus (state (click SaveConfig w)))
   <> "Cannot save configuration with JSON errors" /\
   (llamaSwap_present (host w) = true ->
    type (State.operationStatus (state (click SaveConfig w))) = saving /\
    exists text, log (click SaveConfig w) = (log w ++ [text])%list /\
      (text = llamaSwap.saveConfigFromJson (State.jsonConfig (state w))
       \/ text = llamaSwap.saveConfigAndRestart (State.jsonConfig (state w))))).
Proof.
  cbv zeta.
  apply (@click_never_shows_the_refusal SaveConfig
           (Sample.after [ChangeJson "{ }"] Sample.loaded)).
  left. reflexivity.
Defined.

(** ** Remote calls, one at a time *)

Lemma silent_seq (a b : Action) : silent a -> silent b -> silent (a ;; b).
Proof.
  intros Ha Hb w. unfold seq. destruct (Ha w) as [Hl Hw].
  destruct (Hb (a w)) as [Hl' Hw']. split; congruence.
Qed.

Lemma silent_update (f : State.t -> State.t) : silent (update f).
Proof. intros w. split; reflexivity. Qed.

Lemma silent_setTimeout (status : OperationStatus) (delay : N) :
  silent (setTimeout status delay).
Proof. intros w. split; reflexivity. Qed.

Lemma silent_skip : silent skip.
Proof. intros w. split; reflexivity. Qed.

Lemma once_await (c : Call) (k : Kont) : calls_once_at_most (await c k).
Proof. intros w. right. exists c, k. split; reflexivity. Qed.

Lemma once_of_silent (a : Action) : silent a -> calls_once_at_most a.
Proof. intros Ha w. left. apply Ha. Qed.

Lemma once_seq (a b : Action) :
  silent a -> calls_once_at_most b -> calls_once_at_most (a ;; b).
Proof.
  intros Ha Hb w. unfold seq. destruct (Ha w) as [Hl Hw].
  destruct (Hb (a w)) as [[Hl' Hw'] | (c & k & Hl' & Hw')].
  - left. split; congruence.
  - right. exists c, k. rewrite Hl', Hw', Hl, Hw. split; reflexivity.
Qed.

(** Walk down an action that makes no call. *)
Ltac quiet :=
  lazymatch goal with
  | |- silent (seq _ _) => apply silent_seq; quiet
  | |- silent (update _) => apply silent_update
  | |- silent (setTimeout _ _) => apply silent_setTimeout
  | |- silent skip => apply silent_skip
  | |- silent (match ?x with _ => _ end) => destruct x; quiet
  | |- silent (fun _ => _) =>
      let w := fresh "w" in intros w; cbv beta; quiet_at
  | |- silent ?a => let h := head_of a in unfold h; quiet
  end
with quiet_at :=
  lazymatch goal with
  | |- log (match ?x with _ => _ end) = _ /\ _ => destruct x; quiet_at
  | |- log (?a ?w) = log ?w /\ _ =>
      cut (silent a); [intros K; exact (K w) | quiet]
  | |- _ => split; reflexivity
  end.

(** Walk down an action whose last statement may be a call. *)
Ltac one_call :=
  lazymatch goal with
  | |- calls_once_at_most (seq _ _) => apply once_seq; [quiet | one_call]
  | |- calls_once_at_most (await _ _) => apply once_await
  | |- calls_once_at_most (update _) => apply once_of_silent; quiet
  | |- calls_once_at_most (setTimeout _ _) => apply once_of_silent; quiet
  | |- calls_once_at_most skip => apply once_of_silent; quiet
  | |- calls_once_at_most (match ?x with _ => _ end) => destruct x; one_call
  | |- calls_once_at_most (fun _ => _) =>
      let w := fresh "w" in intros w; cbv beta; one_call_at
  | |- calls_once_at_most ?a => let h := head_of a in unfold h; one_call
  end
with one_call_at :=
  lazymatch goal with
  | |- (log (match ?x with _ => _ end) = _ /\ _) \/ _ => destruct x; one_call_at
  | |- (log (?a ?w) = log ?w /\ _) \/ _ =>
      cut (calls_once_at_most a); [intros K; exact (K w) | one_call]
  | |- _ => left; split; reflexivity
  end.

Lemma click_calls_once (i : Intent) : calls_once_at_most (click i).
Proof. one_call. Qed.

Lemma resume_calls_once (k : Kont) (o : Settled) : calls_once_at_most (resume k o).
Proof. one_call. Qed.

Lemma load_calls_once (after : AfterLoad) :
  calls_once_at_most (loadConfigurationInfo after).
Proof. one_call. Qed.

Lemma edits_are_silent :
  (forall value, silent (handleJsonChange value)) /\
  (forall content, silent (importConfiguration content)) /\
  (forall modelName field value, silent (@updateModelConfig modelName field value)).
Proof. split; [| split]; intros; quiet. Qed.

(** X10: no event makes more than one remote call.  A click, a mount, a
    retry or a call settling sends at most one request; typing in the JSON
    editor, importing a file, moving a model's input, the passing of
    time and a timer firing send none and leave the pending calls as they
    are.  Nothing is ever taken out of the log. *)
Theorem one_call_per_event (e : Event) (w w' : World) :
  step e w = Some w' ->
  (log w' = log w \/ exists c, log w' = (log w ++ [c])%list) /\
  match e with
  | ChangeJson _ | ImportFile _ | ChangeModel _ _ _ | Elapse _ | Fire =>
      log w' = log w /\ awaiting w' = awaiting w
  | Mount | Retry | Click _ | Settle _ _ => True
  end.
Proof.
  assert (Hlog : forall a v, calls_once_at_most a ->
                   log (a v) = log v \/ exists c, log (a v) = (log v ++ [c])%list).
  { intros a v Ha. destruct (Ha v) as [[Hl _] | (c & k & Hl & _)];
      [left; exact Hl | right; exists c; exact Hl]. }
  destruct edits_are_silent as (Hjson & Himport & Hmodel).
  intros Hstep. destruct e; cbn [step] in Hstep.
  - injection Hstep as <-. split; [| exact I]. apply Hlog, load_calls_once.
  - destruct (negb (State.loading (state w)) && truthy_string (State.error (state w)));
      [| discriminate].
    injection Hstep as <-. split; [| exact I]. apply Hlog, load_calls_once.
  - injection Hstep as <-. split; [| exact I]. apply Hlog, click_calls_once.
  - destruct (panel_shown (state w)); [| discriminate].
    injection Hstep as <-. destruct (Hjson value w) as [Hl Hw].
    split; [left; exact Hl | split; assumption].
  - destruct (panel_shown (state w)); [| discriminate].
    injection Hstep as <-. destruct (Himport content w) as [Hl Hw].
    split; [left; exact Hl | split; assumption].
  - destruct (panel_shown (state w) && editable modelName field (state w));
      [| discriminate].
    injection Hstep as <-. destruct (Hmodel modelName field value w) as [Hl Hw].
    split; [left; exact Hl | split; assumption].
  - destruct (take call (awaiting w)) as [[k rest] |]; [| discriminate].
    injection Hstep as <-. split; [| exact I].
    apply (Hlog (resume k o) (with_awaiting rest w)), resume_calls_once.
  - destruct (forallb (fun t0 => (now w + ms <=? due t0)%N) (timers w));
      [| discriminate].
    injection Hstep as <-. split; [left; reflexivity | split; reflexivity].
  - destruct (next_timer (timers w)) as [[t rest] |]; [| discriminate].
    destruct (due t <=? now w)%N; [| discriminate].
    injection Hstep as <-. split; [left; reflexivity | split; reflexivity].
Qed.

Lemma one_call_per_event_witness :
  let e := Click (ChangeBackend "cuda") in
  let w' := Sample.after [e] Sample.loaded in
  (log w' = log Sample.loaded \/ exists c, log w' = (log Sample.loaded ++ [c])%list) /\
  True.
Proof.
  exact (@one_call_per_event (Click (ChangeBackend "cuda")) Sample.loaded
           (Sample.after [Click (ChangeBackend "cuda")] Sample.loaded) eq_refl).
Defined.

(** ** The auto-clear after a reload *)

(** X11: an operation that reads the snapshot again schedules its
    auto-clear only when the load has come to its end, and counts the
    delay from that moment: whether the model read succeeds or fails, when
    it settles the loading card goes away and the auto-clear is due
    [delay] later; when the info read fails, or no model read can be made,
    the same happens at once; while a model read is still to come no
    timer is added.  A load that was not started by an operation (mount,
    retry) schedules nothing. *)
Theorem auto_clear_waits_for_the_load (after : AfterLoad) (o : Settled) (w : World) :
  let scheduled :=
    match after with
    | Some delay => [auto_clear w delay]
    | None => []
    end in
  let models_read := resume (K_getModelConfigurations after) o w in
  let info_read := resume (K_getConfigurationInfo after) o w in
  (timers models_read = (timers w ++ scheduled)%list /\
   State.loading (state models_read) = false /\
   awaiting models_read = awaiting w) /\
  ((timers info_read = (timers w ++ scheduled)%list /\
    State.loading (state info_read) = false /\
    awaiting info_read = awaiting w)
   \/
   (timers info_read = timers w /\
    State.loading (state info_read) = State.loading (state w) /\
    failed o = false /\
    awaiting info_read
    = (awaiting w ++ [(length (log w), K_getModelConfigurations after)])%list)).
Proof.
  assert (Hfinally : forall v,
            timers (load_finally after v)
            = (timers v ++ match after with
                           | Some delay => [auto_clear v delay]
                           | None => []
                           end)%list /\
            State.loading (state (load_finally after v)) = false /\
            awaiting (load_finally after v) = awaiting v /\
            log (load_finally after v) = log v).
  { intros v. unfold load_finally, seq. destruct after as [delay |]; cbn.
    - repeat split.
    - rewrite app_nil_r. repeat split. }
  cbv zeta. split.
  - cbn [resume]. unfold after_getModelConfigurations, seq.
    destruct o as [result | reason];
      [destruct (Result.success result); [destruct (Result.models result) |] |];
      match goal with |- context [load_finally after ?v] =>
        destruct (Hfinally v) as (-> & -> & -> & _) end;
      repeat split.
  - cbn [resume]. unfold after_getConfigurationInfo.
    destruct o as [result | reason];
      [destruct (Result.success result) eqn:Hok |].
    + unfold loadModelConfigurations, seq.
      destruct (Result.serviceStatus result) as [st |];
        [destruct (ServiceStatus.currentBackendName st) as [n |];
         [destruct (n =? "") |] |];
        (destruct (Result.configuration result) as [c |];
         [destruct (truthy_json c) |]);
        cbn [host setConfigInfo setSelectedBackend setActualBackend setJsonConfig
             update skip];
        (destruct (llamaSwap_present (host w) && getModelConfigurations_present (host w));
         [right; cbn; rewrite Hok; repeat split
         | left;
           match goal with |- context [load_finally after ?v] =>
             destruct (Hfinally v) as (-> & -> & -> & _) end;
           repeat split]).
    + left. unfold load_catch, seq.
      match goal with |- context [load_finally after ?v] =>
        destruct (Hfinally v) as (-> & -> & -> & _) end.
      repeat split.
    + left. unfold load_catch, seq.
      match goal with |- context [load_finally after ?v] =>
        destruct (Hfinally v) as (-> & -> & -> & _) end.
      repeat split.
Qed.

(** ** The current-backend label *)

(** The state a successful info read leaves (the model read, if one is
    made, is still to come). *)
Lemma info_read_state (after : AfterLoad) (info : Result.t) (w : World) :
  Result.success info = true ->
  state (after_getConfigurationInfo after (Fulfilled info) w)
  = State.setLoading
      (if llamaSwap_present (host w) && getModelConfigurations_present (host w)
       then State.loading (state w) else false)
      ((match Result.configuration info with
        | Some c => if truthy_json c then State.setJsonConfig (JSON_stringify c 2)
                    else fun s => s
        | None => fun s => s
        end)
         ((match Result.serviceStatus info with
           | Some st =>
               match ServiceStatus.currentBackendName st with
               | Some n => if n =? "" then fun s => s else State.setActualBackend n
               | None => fun s => s
               end
           | None => fun s => s
           end)
            (State.setSelectedBackend
               (or_else (match Result.currentBackendOverride info with
                         | Some o => backendId o
                         | None => None
                         end) "auto")
               (State.setConfigInfo (Some info) (state w))))).
Proof.
  intros Hok. unfold after_getConfigurationInfo. rewrite Hok.
  unfold loadModelConfigurations, seq.
  destruct (Result.serviceStatus info) as [st |];
    [destruct (ServiceStatus.currentBackendName st) as [n |];
     [destruct (n =? "") |] |];
    (destruct (Result.configuration info) as [c |];
     [destruct (truthy_json c) |]);
    cbn [host setConfigInfo setSelectedBackend setActualBackend setJsonConfig
         update skip];
    (destruct (llamaSwap_present (host w) && getModelConfigurations_present (host w));
     [| rewrite load_finally_state]);
    reflexivity.
Qed.

Lemma or_else_nonempty (o : option string) (d : string) :
  d <> "" -> or_else o d <> "".
Proof.
  intros Hd. unfold or_else. destruct o as [s |]; [| exact Hd].
  destruct (String.eqb_spec s ""); [exact Hd | assumption].
Qed.

Lemma or_else_truthy (s d : string) : s <> "" -> or_else (Some s) d = s.
Proof.
  intros Hs. unfold or_else. destruct (String.eqb_spec s ""); [contradiction | reflexivity].
Qed.

(** X12: after a successful read of the snapshot the selection is the
    override's backend id, or ["auto"] when there is no override or its id
    is empty; it is never empty, and neither is the label shown for it.
    Under ["auto"] the label begins with "Auto-detect".  An override that
    names a backend the snapshot does not list is shown by its raw id; one
    that names a listed backend is shown by the name of the first backend
    with that id, if that name is not empty. *)
Theorem backend_label_after_load (after : AfterLoad) (info : Result.t) (w : World) :
  Result.success info = true ->
  let s' := state (after_getConfigurationInfo after (Fulfilled info) w) in
  let override := match Result.currentBackendOverride info with
                  | Some o => backendId o
                  | None => None
                  end in
  State.selectedBackend s' = or_else override "auto" /\
  State.selectedBackend s' <> "" /\
  currentBackendLabel s' <> "" /\
  (State.selectedBackend s' = "auto" ->
     String.prefix "Auto-detect" (currentBackendLabel s') = true) /\
  (forall b, override = Some b -> b <> "" -> b <> "auto" ->
     (forall x, In x (Result.availableBackends info) -> Backend.id x <> b) ->
     currentBackendLabel s' = b) /\
  (forall b x, override = Some b -> b <> "" -> b <> "auto" ->
     find (fun y => Backend.id y =? b) (Result.availableBackends info) = Some x ->
     Backend.name x <> "" ->
     currentBackendLabel s' = Backend.name x).
Proof.
  intros Hok. cbv zeta. rewrite (@info_read_state after info w Hok).
  set (override := match Result.currentBackendOverride info with
                   | Some o => backendId o
                   | None => None
                   end).
  assert (Hauto : "auto" <> "") by discriminate.
  unfold currentBackendLabel, selected_backend_entry.
  destruct (Result.serviceStatus info) as [st |];
    [destruct (ServiceStatus.currentBackendName st) as [n |];
     [destruct (n =? "") |] |];
    (destruct (Result.configuration info) as [c |];
     [destruct (truthy_json c) |]);
    cbn [State.selectedBackend State.actualBackend State.configInfo
         State.setLoading State.setJsonConfig State.setActualBackend
         State.setSelectedBackend State.setConfigInfo].
  all: split; [reflexivity |].
  all: split; [now apply or_else_nonempty |].
  all: split;
    [ destruct (or_else override "auto" =? "auto");
      [ match goal with
        | |- (if ?a =? "" then _ else _) <> _ =>
            destruct (a =? ""); intros E; discriminate E
        end
      | apply or_else_nonempty; now apply or_else_nonempty ]
    | ].
  all: split;
    [ intros ->; cbn [String.eqb Ascii.eqb Bool.eqb];
      match goal with
      | |- String.prefix _ (if ?a =? "" then _ else _) = true =>
          destruct (a =? ""); reflexivity
      end
    | ].
  all: split.
  all: try (intros b Hb Hne Hnauto Hunlisted; rewrite Hb, (or_else_truthy "auto" Hne);
            destruct (String.eqb_spec b "auto") as [E | _]; [contradiction |];
            destruct (find (fun y => Backend.id y =? b) (Result.availableBackends info))
              as [x |] eqn:Hfind;
            [ apply find_some in Hfind; destruct Hfind as [Hin Hid];
              apply String.eqb_eq in Hid; exfalso; exact (Hunlisted x Hin Hid)
            | reflexivity ]).
  all: intros b x Hb Hne Hnauto Hfind Hname; rewrite Hb, (or_else_truthy "auto" Hne);
    destruct (String.eqb_spec b "auto") as [E | _]; [contradiction |];
    rewrite Hfind; cbn [option_map]; now apply or_else_truthy.
Qed.

Lemma backend_label_witness :
  let stale := Sample.info_with (Some "vulkan") in
  currentBackendLabel
    (state (after_getConfigurationInfo None (Fulfilled stale) Sample.loaded))
  = "vulkan".
Proof.
  pose proof (@backend_label_after_load None (Sample.info_with (Some "vulkan"))
                Sample.loaded eq_refl) as H.
  cbv zeta in H |- *. destruct H as (_ & _ & _ & _ & Hstale & _).
  apply Hstale; try reflexivity; try discriminate.
  intros x [<- | [<- | []]]; discriminate.
Defined.

(* ------------------------------------------------------------------ *)
(** * The translation module *)

Section Strings.

Import i18n.

Lemma append_empty (s : string) : s ++ "" = s.
Proof. induction s as [| c s IH]; cbn; [reflexivity | now rewrite IH]. Qed.

Lemma append_assoc (a b c : string) : (a ++ b) ++ c = a ++ (b ++ c).
Proof. induction a as [| x a IH]; cbn; [reflexivity | now rewrite IH]. Qed.

Lemma prefix_append (a b : string) : String.prefix a (a ++ b) = true.
Proof.
  induction a as [| x a IH]; cbn.
  - destruct b; reflexivity.
  - destruct (ascii_dec x x) as [_ | Hne]; [exact IH | congruence].
Qed.

Lemma drop_append (a b : string) : drop (String.length a) (a ++ b) = b.
Proof. induction a as [| x a IH]; cbn; [reflexivity | exact IH]. Qed.

Lemma i18n_split_not_empty (separator : ascii) (s : string) : split separator s <> [].
Proof.
  destruct s as [| c s]; cbn; [discriminate |].
  destruct (Ascii.eqb c separator); [discriminate |].
  destruct (split separator s); discriminate.
Qed.


Lemma i18n_split_pieces (separator : ascii) (s : string) :
  Forall (fun piece => has_char separator piece = false) (split separator s).
Proof.
  induction s as [| c s IH]; cbn.
  - constructor; [reflexivity | constructor].
  - destruct (Ascii.eqb_spec c separator) as [-> | Hne].
    + constructor; [reflexivity | exact IH].
    + destruct (split separator s) as [| piece pieces]; cbn.
      * constructor; [| constructor]. cbn.
        destruct (Ascii.eqb_spec c separator); [contradiction | reflexivity].
      * inversion IH as [| ? ? Hpiece Hpieces]; subst. constructor; [| exact Hpieces].
        cbn. destruct (Ascii.eqb_spec c separator); [contradiction | exact Hpiece].
Qed.

(** A piece without the separator, the separator, and the rest. *)
Lemma i18n_split_append (separator : ascii) (piece rest : string) :
  has_char separator piece = false ->
  split separator (piece ++ String separator rest)
  = piece :: split separator rest.
Proof.
  induction piece as [| c piece IH]; cbn; intros H.
  - rewrite Ascii.eqb_refl. reflexivity.
  - apply orb_false_iff in H. destruct H as [Hc Hpiece].
    rewrite Hc, (IH Hpiece). reflexivity.
Qed.

Lemma i18n_split_plain (separator : ascii) (piece : string) :
  has_char separator piece = false -> split separator piece = [piece].
Proof.
  induction piece as [| c piece IH]; cbn; intros H; [reflexivity |].
  apply orb_false_iff in H. destruct H as [Hc Hpiece].
  rewrite Hc, (IH Hpiece). reflexivity.
Qed.

(** A replacement without a dollar sign stands for itself. *)
Lemma expand_plain (matched before following replacement : string) :
  has_char "$" replacement = false ->
  expand matched before following replacement = replacement.
Proof.
  induction replacement as [| c r IH]; cbn; intros H; [reflexivity |].
  apply orb_false_iff in H. destruct H as [Hc Hr].
  rewrite Hc. now rewrite IH.
Qed.

(** Where the pattern does not occur nothing is replaced. *)
Lemma replace_all_absent (pattern replacement : string) (s before : string) :
  occurs pattern s = false ->
  replace_all_from pattern replacement 0 before s = s.
Proof.
  revert before. induction s as [| c s IH]; intros before H; [reflexivity |].
  cbn [occurs] in H. apply orb_false_iff in H. destruct H as [Hprefix Hrest].
  cbn [replace_all_from]. rewrite Hprefix. now rewrite IH.
Qed.

(** The characters of a match just replaced are passed over. *)
Lemma replace_all_skip (pattern replacement : string) (x rest before : string) :
  replace_all_from pattern replacement (String.length x) before (x ++ rest)
  = replace_all_from pattern replacement 0 (before ++ x) rest.
Proof.
  revert before. induction x as [| c x IH]; intros before; cbn [String.length append].
  - rewrite append_empty. destruct rest; reflexivity.
  - cbn [replace_all_from]. rewrite IH, append_assoc. reflexivity.
Qed.

End Strings.

(** ** getNestedValue *)

Lemma has_char_differs (c : ascii) (a b : string) :
  has_char c a = true -> has_char c b = false -> (a =? b) = false.
Proof.
  intros Ha Hb. destruct (String.eqb_spec a b) as [-> | _]; [| reflexivity].
  rewrite Ha in Hb. discriminate Hb.
Qed.

(** X13: [getNestedValue] reads a dotted key as a path.  On an object
    that has no member called [hasOwnProperty], the key
    [segment.rest] is the key [rest] looked up in the member [segment]
    (undefined when there is no such member), and a key without a dot is
    that member itself if it is a string, undefined if it is anything
    else -- a subtree, a number, [null]. *)
Theorem getNestedValue_follows_the_path (members : list (string * json))
    (segment rest : string) :
  property "hasOwnProperty" members = None ->
  has_char "." segment = false ->
  i18n.getNestedValue (JObject members) (segment ++ "." ++ rest)
  = match property segment members with
    | Some v => i18n.getNestedValue v rest
    | None => i18n.Normal None
    end /\
  i18n.getNestedValue (JObject members) segment
  = i18n.Normal match property segment members with
                | Some (JString text) => Some text
                | _ => None
                end.
Proof.
  intros Hown Hsegment. unfold i18n.getNestedValue. split.
  - change (segment ++ "." ++ rest) with (segment ++ String "." rest).
    rewrite i18n_split_append by exact Hsegment.
    cbn [i18n.descend]. unfold i18n.hasOwnProperty. cbn [i18n.own_property].
    rewrite Hown. destruct (property segment members); reflexivity.
  - rewrite i18n_split_plain by exact Hsegment.
    cbn [i18n.descend]. unfold i18n.hasOwnProperty. cbn [i18n.own_property].
    rewrite Hown. destruct (property segment members) as [[] |]; reflexivity.
Qed.

Lemma getNestedValue_path_witness :
  i18n.getNestedValue Words.strings "labels.currentThemeMode"
  = i18n.Normal (Some "Mode: {mode}").
Proof.
  exact (proj1 (@getNestedValue_follows_the_path Words.members
                  "labels" "currentThemeMode" eq_refl eq_refl)).
Defined.

(** X14: a member whose own name contains a dot is never found: with or
    without it in the object, every key gives the same result.  (A key is
    cut at its dots before the first lookup, so no piece of it can be
    that name.) *)
Theorem dotted_member_is_never_found (name : string) (value : json)
    (members : list (string * json)) (key : string) :
  has_char "." name = true ->
  i18n.getNestedValue (JObject ((name, value) :: members)) key
  = i18n.getNestedValue (JObject members) key.
Proof.
  intros Hname. unfold i18n.getNestedValue.
  pose proof (i18n_split_pieces "." key) as Hpieces.
  destruct (i18n.split "." key) as [| first rest] eqn:Hsplit.
  - exfalso. exact (i18n_split_not_empty "." key Hsplit).
  - inversion Hpieces as [| ? ? Hfirst _]; subst.
    cbn [i18n.descend]. unfold i18n.hasOwnProperty.
    cbn [i18n.own_property property].
    rewrite (has_char_differs "." name "hasOwnProperty" Hname eq_refl).
    rewrite (has_char_differs "." name first Hname Hfirst).
    reflexivity.
Qed.

Lemma dotted_member_witness :
  i18n.getNestedValue (JObject [("a.b", JString "flat")]) "a.b"
  = i18n.getNestedValue (JObject []) "a.b".
Proof.
  apply (@dotted_member_is_never_found "a.b" (JString "flat") [] "a.b").
  reflexivity.
Defined.

(** ** t and p on a missing key *)

Lemma has_char_append (c : ascii) (a b : string) :
  has_char c (a ++ b) = has_char c a || has_char c b.
Proof.
  induction a as [| x a IH]; cbn; [reflexivity |].
  rewrite IH. apply orb_assoc.
Qed.

(** Where a prefix of [u ++ v] ends: inside [u], or inside [v]. *)
Lemma prefix_cases (p u v : string) :
  String.prefix p (u ++ v) = true ->
  String.prefix p u = true \/
  exists w, p = u ++ w /\ w <> "" /\ String.prefix w v = true.
Proof.
  revert u. induction p as [| x p IH]; intros u H.
  - left. destruct u; reflexivity.
  - destruct u as [| y u].
    + right. exists (String x p). repeat split; [discriminate | exact H].
    + cbn in H |- *. destruct (ascii_dec x y) as [-> | _]; [| discriminate H].
      destruct (IH u H) as [Hu | (w & -> & Hw & Hv)]; [left; exact Hu |].
      right. exists w. repeat split; assumption.
Qed.

(** A placeholder does not begin inside the text before another one and
    end inside it: its brace is its first character only. *)
Lemma placeholder_straddles_nothing (name a rest : string) :
  has_char "{" name = false ->
  String.prefix (placeholder name) a = false ->
  a <> "" ->
  String.prefix (placeholder name) (a ++ placeholder name ++ rest) = false.
Proof.
  intros Hname Ha Hne.
  destruct (String.prefix (placeholder name) (a ++ placeholder name ++ rest)) eqn:E;
    [| reflexivity].
  destruct (prefix_cases _ _ _ E) as [Hu | (w & Hp & Hw & Hv)].
  - rewrite Hu in Ha. discriminate Ha.
  - exfalso. destruct a as [| c a]; [now apply Hne |].
    destruct w as [| x w]; [now apply Hw |].
    unfold placeholder in Hv. cbn [append String.prefix] in Hv.
    destruct (ascii_dec x "{") as [-> | _]; [| discriminate Hv].
    unfold placeholder in Hp. cbn [append] in Hp.
    injection Hp as _ Hp.
    assert (Hin : has_char "{" (name ++ "}") = true).
    { rewrite Hp, has_char_append. cbn. apply orb_true_r. }
    rewrite has_char_append, Hname in Hin. discriminate Hin.
Qed.

(** The first occurrence of a placeholder, replaced: [replace_all]
    goes on after it. *)
Lemma replace_all_first (name replacement a rest before : string) :
  has_char "{" name = false ->
  occurs (placeholder name) a = false ->
  i18n.replace_all_from (placeholder name) replacement 0 before
    (a ++ placeholder name ++ rest)
  = a ++ i18n.expand (placeholder name) (before ++ a) rest replacement
      ++ i18n.replace_all_from (placeholder name) replacement 0
           (before ++ a ++ placeholder name) rest.
Proof.
  intros Hname Ha. revert before.
  induction a as [| c a IH]; intros before.
  - rewrite append_empty. cbn [append].
    change (placeholder name ++ rest) with (String "{" ((name ++ "}") ++ rest)).
    cbn [i18n.replace_all_from].
    change (String "{" ((name ++ "}") ++ rest)) with (placeholder name ++ rest).
    rewrite prefix_append, drop_append.
    change (String.length (placeholder name) - 1)
      with (String.length (name ++ "}") - 0).
    rewrite Nat.sub_0_r.
    rewrite replace_all_skip, append_assoc. reflexivity.
  - cbn [occurs] in Ha. apply orb_false_iff in Ha. destruct Ha as [Hprefix Ha].
    cbn [append i18n.replace_all_from].
    change (String c (a ++ placeholder name ++ rest))
      with (String c a ++ placeholder name ++ rest).
    rewrite (@placeholder_straddles_nothing name (String c a) rest Hname Hprefix)
      by discriminate.
    cbn [append]. rewrite (IH Ha), !append_assoc. reflexivity.
Qed.

(** The same for [String.replace] with a string pattern, which stops
    after the first occurrence. *)
Lemma replace_first (name replacement a rest before : string) :
  has_char "{" name = false ->
  occurs (placeholder name) a = false ->
  i18n.replace_from (placeholder name) replacement before
    (a ++ placeholder name ++ rest)
  = a ++ i18n.expand (placeholder name) (before ++ a) rest replacement ++ rest.
Proof.
  intros Hname Ha. revert before.
  induction a as [| c a IH]; intros before.
  - rewrite append_empty. cbn [append].
    change (placeholder name ++ rest) with (String "{" ((name ++ "}") ++ rest)).
    cbn [i18n.replace_from].
    change (String "{" ((name ++ "}") ++ rest)) with (placeholder name ++ rest).
    rewrite prefix_append, drop_append. reflexivity.
  - cbn [occurs] in Ha. apply orb_false_iff in Ha. destruct Ha as [Hprefix Ha].
    cbn [append i18n.replace_from].
    change (String c (a ++ placeholder name ++ rest))
      with (String c a ++ placeholder name ++ rest).
    rewrite (@placeholder_straddles_nothing name (String c a) rest Hname Hprefix)
      by discriminate.
    cbn [append]. rewrite (IH Ha), append_assoc. reflexivity.
Qed.

Lemma getNestedValue_of_nothing (key : string) :
  i18n.getNestedValue (JObject []) key = i18n.Normal None.
Proof.
  unfold i18n.getNestedValue.
  destruct (i18n.split "." key) as [| k rest] eqn:E.
  - exfalso. exact (i18n_split_not_empty "." key E).
  - reflexivity.
Qed.

(** The fallback for a key: the text before [{key}], the key as a
    replacement text, the text after. *)
Lemma fallback_for (before_key after_key key : string) :
  occurs "{key}" before_key = false ->
  i18n.replace "{key}" key (before_key ++ "{key}" ++ after_key)
  = before_key ++ i18n.expand "{key}" before_key after_key key ++ after_key.
Proof.
  intros H. unfold i18n.replace.
  exact (@replace_first "key" key before_key after_key "" eq_refl H).
Qed.

Lemma t_of_missing (store : i18n.Store) (key : string)
    (variables : option i18n.Variables) (before_key after_key : string) :
  i18n.getNestedValue (i18n.translations store) key = i18n.Normal None ->
  i18n.fallbackTranslation store = before_key ++ "{key}" ++ after_key ->
  occurs "{key}" before_key = false ->
  i18n.t store key variables
  = i18n.Normal (before_key ++ i18n.expand "{key}" before_key after_key key
                 ++ after_key).
Proof.
  intros Hmissing Hfallback Hbefore. unfold i18n.t.
  rewrite Hmissing. cbn [i18n.bind].
  rewrite Hfallback, (@fallback_for before_key after_key key Hbefore). reflexivity.
Qed.

(** X15: before the translations have arrived every key is answered with
    [Missing translation for] and the key, by [t] whatever the variables,
    by [p] with the plural key ([_one] for the count 1, [_other] for
    every other).  The key stands in the answer as a replacement text: it
    is copied as it is when it has no dollar sign. *)
Theorem before_the_load_every_key_is_missing (key : string) (count : number)
    (variables : option i18n.Variables) :
  let missing k :=
    i18n.Normal ("Missing translation for "
                 ++ i18n.expand "{key}" "Missing translation for " "" k) in
  i18n.t i18n.initial key variables = missing key /\
  i18n.p i18n.initial key count variables
  = missing (key ++ "_" ++ plural_form count) /\
  (has_char "$" key = false ->
   i18n.t i18n.initial key variables
   = i18n.Normal ("Missing translation for " ++ key)).
Proof.
  intros missing.
  assert (Ht : forall k vars, i18n.t i18n.initial k vars = missing k).
  { intros k vars.
    rewrite (@t_of_missing i18n.initial k vars "Missing translation for " ""
               (getNestedValue_of_nothing k) eq_refl eq_refl).
    unfold missing. now rewrite append_empty. }
  split; [apply Ht | split].
  - assert (Hfallback : forall k,
              i18n.replace "{key}" k "Missing translation for {key}"
              = "Missing translation for "
                ++ i18n.expand "{key}" "Missing translation for " "" k).
    { intros k.
      rewrite <- (append_empty (i18n.expand "{key}" "Missing translation for " "" k)).
      exact (@fallback_for "Missing translation for " "" k eq_refl). }
    unfold i18n.p, plural_form.
    cbn [i18n.translations i18n.initial i18n.fallbackTranslation].
    destruct count as [[| [q | q |] | q] |]; cbv zeta; cbn [i18n.bind];
      rewrite !getNestedValue_of_nothing; cbn [i18n.bind i18n.found];
      rewrite ?getNestedValue_of_nothing; cbn [i18n.bind i18n.found];
      rewrite Hfallback; reflexivity.
  - intros Hdollar. rewrite Ht. unfold missing.
    now rewrite expand_plain.
Qed.

(** ** loadTranslations *)


Lemma failed_load (fetched : i18n.Fetched) (store : i18n.Store) :
  load_fails fetched = true ->
  i18n.loadTranslations fetched store
  = i18n.after_failure (error_text fetched ++ "{key}").
Proof.
  destruct fetched as [| | | []]; intros H; try reflexivity; discriminate H.
Qed.



(** X17: the error text outlives the failure.  A reload that succeeds
    with a document that has no string at [fallback.translationMissing]
    leaves [fallbackTranslation] as the failed load set it, and a key the
    new document lacks is still answered with the error text. *)
Theorem error_text_outlives_the_failure (fetched : i18n.Fetched)
    (store : i18n.Store) (lang : string) (data : json) (key : string)
    (variables : option i18n.Variables) :
  load_fails fetched = true ->
  load_fails (i18n.Body data) = false ->
  i18n.supplied_fallback data = None ->
  i18n.getNestedValue data key = i18n.Normal None ->
  i18n.t (i18n.changeLanguage lang (i18n.Body data)
            (i18n.loadTranslations fetched store)) key variables
  = i18n.Normal (error_text fetched
                 ++ i18n.expand "{key}" (error_text fetched) "" key).
Proof.
  intros Hfails Hloads Hnone Hmissing.
  rewrite (@failed_load fetched store Hfails).
  assert (Hstore : i18n.changeLanguage lang (i18n.Body data)
                     (i18n.after_failure (error_text fetched ++ "{key}"))
                   = {| i18n.translations := data;
                        i18n.fallbackTranslation := error_text fetched ++ "{key}" |}).
  { unfold i18n.changeLanguage, i18n.loadTranslations. rewrite Hnone.
    destruct data; try reflexivity. discriminate Hloads. }
  rewrite Hstore.
  rewrite (@t_of_missing _ key variables (error_text fetched) "").
  - now rewrite append_empty.
  - exact Hmissing.
  - reflexivity.
  - destruct fetched as [| | | []]; reflexivity.
Qed.

Lemma error_text_outlives_witness :
  i18n.t (i18n.changeLanguage "fr" (i18n.Body Words.strings)
            (i18n.loadTranslations i18n.FetchRejected i18n.initial))
    "buttons.save" None
  = i18n.Normal "Critical error loading translations. Key: buttons.save".
Proof.
  exact (@error_text_outlives_the_failure i18n.FetchRejected i18n.initial "fr"
           Words.strings "buttons.save" None eq_refl eq_refl eq_refl eq_refl).
Defined.

(** ** Interpolation *)

Lemma plain_name_has_no_brace (name : string) :
  i18n.plain_name name = true -> has_char "{" name = false.
Proof.
  intros H.
  assert (Hall : i18n.all_chars (fun x => i18n.letter x || i18n.digit x) name = true).
  { destruct name as [| c name]; [discriminate H |].
    unfold i18n.plain_name in H. apply andb_true_iff in H. exact (proj2 H). }
  clear H. induction name as [| c name IH]; [reflexivity |].
  cbn [i18n.all_chars] in Hall. apply andb_true_iff in Hall.
  destruct Hall as [Hc Hall]. cbn [has_char]. rewrite (IH Hall), orb_false_r.
  destruct (Ascii.eqb_spec c "{") as [-> | _]; [discriminate Hc | reflexivity].
Qed.

Lemma digits_are_dollar_free (d : Decimal.uint) :
  has_char "$" (NilEmpty.string_of_uint d) = false.
Proof. induction d; cbn; [reflexivity | exact IHd ..]. Qed.

(** [String(n)] has no dollar sign in it. *)
Lemma number_is_dollar_free (n : number) :
  dollar_free (i18n.Number n) = true.
Proof.
  unfold dollar_free. destruct n as [z |]; [| reflexivity].
  cbn [i18n.to_string]. unfold decimal, NilZero.string_of_int.
  destruct (Z.to_int z) as [d | d]; unfold NilZero.string_of_uint;
    destruct d; cbn [has_char]; cbn; try reflexivity;
    now rewrite digits_are_dollar_free.
Qed.

Lemma replace_each_absent (variables : i18n.Variables) (template : string) :
  (forall name value, In (name, value) variables ->
     i18n.plain_name name = true /\ occurs (placeholder name) template = false) ->
  i18n.replace_each variables template = i18n.Normal template.
Proof.
  induction variables as [| [name value] rest IH]; intros H; [reflexivity |].
  cbn [i18n.replace_each].
  destruct (H name value (or_introl eq_refl)) as [Hplain Habsent].
  rewrite Hplain. unfold i18n.replace_all.
  change ("{" ++ name ++ "}") with (placeholder name).
  rewrite (@replace_all_absent (placeholder name) (i18n.to_string value)
             template "" Habsent).
  apply IH. intros n v Hin. apply (H n v). right. exact Hin.
Qed.

(** X18: variables with plain names -- letters, digits and underscores,
    no digit first, and none of them called [hasOwnProperty] -- whose
    placeholders the template does not have change nothing: the template
    comes back as it is, as it does without variables.  (A name with an
    operator of regular expressions in it can match where its
    placeholder does not occur; such names are outside the statement.) *)
Theorem unused_variables_change_nothing (store : i18n.Store) (key template : string)
    (variables : i18n.Variables) :
  i18n.getNestedValue (i18n.translations store) key = i18n.Normal (Some template) ->
  property "hasOwnProperty" variables = None ->
  (forall name value, In (name, value) variables ->
     i18n.plain_name name = true /\ occurs (placeholder name) template = false) ->
  i18n.t store key (Some variables) = i18n.Normal template /\
  i18n.t store key None = i18n.Normal template.
Proof.
  intros Hfound Hown Hunused. unfold i18n.t. rewrite Hfound. cbn [i18n.bind].
  split; [| reflexivity].
  unfold i18n.interpolate. rewrite Hown, (@replace_each_absent variables template Hunused).
  destruct variables; reflexivity.
Qed.

Lemma unused_variables_witness :
  i18n.t Words.loaded "buttons.toggleTheme" (Some [("mode", i18n.Text "dark")])
  = i18n.Normal "Toggle theme".
Proof.
  refine (proj1 (@unused_variables_change_nothing Words.loaded "buttons.toggleTheme"
                   "Toggle theme" [("mode", i18n.Text "dark")] eq_refl eq_refl _)).
  intros name value [H | []]. injection H as <- <-. split; reflexivity.
Defined.

Lemma interpolate_one (name : string) (value : i18n.Value) (template : string) :
  i18n.plain_name name = true ->
  name <> "hasOwnProperty" ->
  i18n.interpolate [(name, value)] template
  = i18n.Normal (i18n.replace_all (placeholder name) (i18n.to_string value) template).
Proof.
  intros Hplain Hname. unfold i18n.interpolate. cbn [property].
  destruct (String.eqb_spec name "hasOwnProperty") as [-> | _]; [contradiction |].
  cbn [i18n.replace_each]. rewrite Hplain. reflexivity.
Qed.

(** X19: one variable with a plain name -- letters, digits and
    underscores, no digit first, not [hasOwnProperty] -- whose value is a
    text, [NaN] or a safe integer, and a template with one placeholder of
    it: the answer is the text before the placeholder, the value, the
    text after it.  The value stands there as a replacement text: a [$&]
    in it is the placeholder again, a [$$] one dollar sign.  A value
    without a dollar sign, as every number is, is copied as it is. *)
Theorem one_placeholder_is_filled (store : i18n.Store) (key name : string)
    (value : i18n.Value) (before_it after_it : string) :
  i18n.getNestedValue (i18n.translations store) key
  = i18n.Normal (Some (before_it ++ placeholder name ++ after_it)) ->
  i18n.plain_name name = true ->
  name <> "hasOwnProperty" ->
  printed_exactly value = true ->
  occurs (placeholder name) before_it = false ->
  occurs (placeholder name) after_it = false ->
  i18n.t store key (Some [(name, value)])
  = i18n.Normal (before_it
                 ++ i18n.expand (placeholder name) before_it after_it
                      (i18n.to_string value)
                 ++ after_it) /\
  (dollar_free value = true ->
   i18n.t store key (Some [(name, value)])
   = i18n.Normal (before_it ++ i18n.to_string value ++ after_it)) /\
  (forall n, value = i18n.Number n ->
   i18n.t store key (Some [(name, value)])
   = i18n.Normal (before_it ++ i18n.to_string value ++ after_it)).
Proof.
  intros Hfound Hplain Hname _ Hbefore Hafter.
  assert (Ht : i18n.t store key (Some [(name, value)])
               = i18n.Normal (before_it
                   ++ i18n.expand (placeholder name) before_it after_it
                        (i18n.to_string value)
                   ++ after_it)).
  { unfold i18n.t. rewrite Hfound. cbn [i18n.bind].
    rewrite (@interpolate_one name value _ Hplain Hname). unfold i18n.replace_all.
    rewrite (@replace_all_first name (i18n.to_string value) before_it after_it ""
               (@plain_name_has_no_brace name Hplain) Hbefore).
    rewrite (@replace_all_absent (placeholder name) (i18n.to_string value)
               after_it _ Hafter).
    reflexivity. }
  assert (Hplainly : dollar_free value = true ->
                     i18n.t store key (Some [(name, value)])
                     = i18n.Normal (before_it ++ i18n.to_string value ++ after_it)).
  { intros Hfree. rewrite Ht, expand_plain; [reflexivity |].
    unfold dollar_free in Hfree. now apply negb_true_iff in Hfree. }
  split; [exact Ht |]. split; [exact Hplainly |].
  intros n ->. apply Hplainly, number_is_dollar_free.
Qed.

Lemma one_placeholder_witness :
  i18n.t Words.loaded "labels.currentThemeMode" (Some [("mode", i18n.Text "US$&")])
  = i18n.Normal "Mode: US{mode}".
Proof.
  exact (proj1 (@one_placeholder_is_filled Words.loaded "labels.currentThemeMode"
                  "mode" (i18n.Text "US$&") "Mode: " "" eq_refl eq_refl
                  ltac:(discriminate) eq_refl eq_refl eq_refl)).
Defined.

Lemma replace_all_between (name replacement : string) (pieces : list string)
    (before : string) :
  has_char "{" name = false ->
  has_char "$" replacement = false ->
  Forall (fun piece => occurs (placeholder name) piece = false) pieces ->
  i18n.replace_all_from (placeholder name) replacement 0 before
    (String.concat (placeholder name) pieces)
  = String.concat replacement pieces.
Proof.
  intros Hname Hfree Hpieces. revert before.
  induction Hpieces as [| piece pieces Hpiece Hrest IH]; intros before;
    [reflexivity |].
  destruct pieces as [| next pieces].
  - cbn [String.concat]. now apply replace_all_absent.
  - change (String.concat (placeholder name) (piece :: next :: pieces))
      with (piece ++ placeholder name
            ++ String.concat (placeholder name) (next :: pieces)).
    change (String.concat replacement (piece :: next :: pieces))
      with (piece ++ replacement ++ String.concat replacement (next :: pieces)).
    rewrite (@replace_all_first name replacement piece _ before Hname Hpiece).
    rewrite (@expand_plain _ _ _ replacement Hfree), IH. reflexivity.
Qed.

(** X20: every occurrence is filled.  One variable with a plain name
    -- letters, digits and underscores, no digit first, not
    [hasOwnProperty] -- and a template that is pieces of text with the
    variable's placeholder between each two: the value -- [NaN], a safe
    integer, or a text without a dollar sign -- takes the place of each
    placeholder. *)
Theorem every_occurrence_is_filled (store : i18n.Store) (key name : string)
    (value : i18n.Value) (pieces : list string) :
  i18n.getNestedValue (i18n.translations store) key
  = i18n.Normal (Some (String.concat (placeholder name) pieces)) ->
  i18n.plain_name name = true ->
  name <> "hasOwnProperty" ->
  printed_exactly value = true ->
  (exists n, value = i18n.Number n) \/ dollar_free value = true ->
  Forall (fun piece => occurs (placeholder name) piece = false) pieces ->
  i18n.t store key (Some [(name, value)])
  = i18n.Normal (String.concat (i18n.to_string value) pieces).
Proof.
  intros Hfound Hplain Hname _ Hvalue Hpieces.
  assert (Hfree : dollar_free value = true).
  { destruct Hvalue as [[n ->] | Hfree];
      [apply number_is_dollar_free | exact Hfree]. }
  unfold i18n.t. rewrite Hfound. cbn [i18n.bind].
  rewrite (@interpolate_one name value _ Hplain Hname). unfold i18n.replace_all.
  rewrite (@replace_all_between name (i18n.to_string value) pieces ""
             (@plain_name_has_no_brace name Hplain)); [reflexivity | | exact Hpieces].
  unfold dollar_free in Hfree. now apply negb_true_iff in Hfree.
Qed.

Lemma every_occurrence_witness :
  i18n.t Words.loaded "echo" (Some [("word", i18n.Number (Num 7))])
  = i18n.Normal "7, 7!".
Proof.
  refine (@every_occurrence_is_filled Words.loaded "echo" "word"
            (i18n.Number (Num 7)) [""; ", "; "!"] eq_refl eq_refl _ eq_refl
            _ _).
  - discriminate.
  - left. exists (Num 7). reflexivity.
  - repeat constructor.
Defined.

(** One variable after another. *)
Lemma replace_each_app (first second : i18n.Variables) (template : string) :
  i18n.replace_each (first ++ second)%list template
  = i18n.bind (i18n.replace_each first template) (i18n.replace_each second).
Proof.
  revert template. induction first as [| [name value] first IH]; intros template;
    [reflexivity |].
  cbn [app i18n.replace_each]. destruct (i18n.plain_name name); [apply IH | reflexivity].
Qed.

Lemma property_app (A : Type) (key : string) (first second : list (string * A)) :
  property key (first ++ second)%list
  = match property key first with
    | Some v => Some v
    | None => property key second
    end.
Proof.
  induction first as [| [k v] first IH]; [reflexivity |].
  cbn [app property]. destruct (k =? key); [reflexivity | exact IH].
Qed.

(** X21: the variables are filled in one after another, each into the
    result of the one before: interpolating with [first] and then with
    [second] is interpolating with both.  So a value that holds the
    placeholder of a later variable has that filled too. *)
Theorem variables_are_filled_in_turn (first second : i18n.Variables)
    (template : string) :
  property "hasOwnProperty" (first ++ second)%list = None ->
  i18n.interpolate (first ++ second)%list template
  = i18n.bind (i18n.interpolate first template) (i18n.interpolate second).
Proof.
  intros Hown. rewrite property_app in Hown.
  destruct (property "hasOwnProperty" first) eqn:Hfirst; [discriminate Hown |].
  unfold i18n.interpolate at 1 2.
  destruct first as [| binding first].
  - reflexivity.
  - cbn [app]. change (binding :: (first ++ second)%list)
      with ((binding :: first) ++ second)%list.
    rewrite property_app, Hfirst, Hown, replace_each_app.
    destruct (i18n.replace_each (binding :: first) template) as [result | |];
      cbn [i18n.bind]; try reflexivity.
    unfold i18n.interpolate. rewrite Hown. destruct second; reflexivity.
Qed.

Lemma variables_in_turn_witness :
  i18n.interpolate [("brand", i18n.Text "{mode} brand"); ("mode", i18n.Text "dark")]
    "Brand: {brand}"
  = i18n.Normal "Brand: dark brand".
Proof.
  exact (@variables_are_filled_in_turn [("brand", i18n.Text "{mode} brand")]
           [("mode", i18n.Text "dark")] "Brand: {brand}" eq_refl).
Defined.

Lemma spread_set_twice (A : Type) (key : string) (old new : A)
    (object : list (string * A)) :
  spread_set key new (spread_set key old object) = spread_set key new object.
Proof.
  induction object as [| [k v] rest IH]; cbn [spread_set].
  - now rewrite String.eqb_refl.
  - destruct (String.eqb_spec k key) as [-> | Hne]; cbn [spread_set].
    + now rewrite String.eqb_refl.
    + destruct (String.eqb_spec k key) as [-> | _]; [contradiction |].
      now rewrite IH.
Qed.

(** X22: [p] fills [{count}] with its own argument: a [count] among the
    caller's variables is overwritten, whatever its value, and calling
    [p] without variables is calling it with none. *)
Theorem p_passes_its_own_count (store : i18n.Store) (key : string)
    (count : number) (value : i18n.Value) (variables : i18n.Variables) :
  i18n.p store key count (Some (spread_set "count" value variables))
  = i18n.p store key count (Some variables) /\
  i18n.p store key count None = i18n.p store key count (Some []).
Proof.
  split; [| reflexivity].
  unfold i18n.p. now rewrite spread_set_twice.
Qed.

(** X23: a plural form that is translated as the empty text counts as
    missing for [p]: with no translation at the base key the fallback for
    the plural key is the answer, where [t] answers with the empty
    text. *)
Theorem empty_plural_counts_as_missing (store : i18n.Store) (key : string)
    (count : number) (variables : option i18n.Variables) :
  count <> Num 0 ->
  i18n.getNestedValue (i18n.translations store) (key ++ "_" ++ plural_form count)
  = i18n.Normal (Some "") ->
  i18n.getNestedValue (i18n.translations store) key = i18n.Normal None ->
  i18n.p store key count variables
  = i18n.Normal (i18n.replace "{key}" (key ++ "_" ++ plural_form count)
                   (i18n.fallbackTranslation store)) /\
  i18n.t store (key ++ "_" ++ plural_form count) None = i18n.Normal "".
Proof.
  intros Hcount Hplural Hbase. split.
  - unfold i18n.p.
    change (key ++ "_" ++ match count with Num 1 => "one" | _ => "other" end)
      with (key ++ "_" ++ plural_form count).
    destruct count as [[| q | q] |]; [contradiction | ..];
      cbn [i18n.bind]; rewrite Hplural; cbn [i18n.bind i18n.found String.eqb negb];
      rewrite Hbase; reflexivity.
  - unfold i18n.t. rewrite Hplural. reflexivity.
Qed.

Lemma empty_plural_witness :
  i18n.p {| i18n.translations := JObject [("files_other", JString "")];
            i18n.fallbackTranslation := "Missing translation for {key}" |}
    "files" (Num 2) None
  = i18n.Normal "Missing translation for files_other".
Proof.
  refine (proj1 (@empty_plural_counts_as_missing
                   {| i18n.translations := JObject [("files_other", JString "")];
                      i18n.fallbackTranslation := "Missing translation for {key}" |}
                   "files" (Num 2) None _ eq_refl eq_refl)).
  discriminate.
Defined.

(* ------------------------------------------------------------------ *)
(** * The theme hook *)

Lemma listed_In (token : string) (tokens : list string) :
  useTheme.listed token tokens = true <-> In token tokens.
Proof.
  unfold useTheme.listed. rewrite existsb_exists. split.
  - intros (x & Hin & Heq). apply String.eqb_eq in Heq. now subst.
  - intros Hin. exists token. split; [exact Hin | apply String.eqb_refl].
Qed.

Lemma in_without (c : string) (tokens classes : list string) :
  In c (useTheme.without tokens classes) <-> In c classes /\ ~ In c tokens.
Proof.
  unfold useTheme.without. rewrite filter_In, negb_true_iff.
  rewrite <- (listed_In c tokens). destruct (useTheme.listed c tokens); intuition congruence.
Qed.

Lemma in_with_token (c token : string) (classes : list string) :
  In c (useTheme.with_token token classes) <-> In c classes \/ c = token.
Proof.
  unfold useTheme.with_token.
  destruct (useTheme.listed token classes) eqn:E.
  - apply listed_In in E. split; [now left | intros [H | ->]; assumption].
  - rewrite in_app_iff. cbn [In]. intuition congruence.
Qed.

(** The effect, statement by statement: [brand] is [default]; or it is
    no token, and the first [remove] of it throws; or it is one. *)
Lemma effect_outcome (s : useTheme.State) (page : useTheme.Page) :
  useTheme.effect s page
  = let stripped := useTheme.without ["light-mode"; "dark-mode"]
                      (useTheme.classList page) in
    let stored := spread_set "themeBrand" (useTheme.brand s)
                    (spread_set "themeMode" (useTheme.mode s)
                       (useTheme.localStorage page)) in
    if useTheme.brand s =? "default" then
      ({| useTheme.classList :=
            useTheme.with_token (mode_class (useTheme.mode s)) stripped;
          useTheme.localStorage := stored;
          useTheme.matchMedia := useTheme.matchMedia page |}, None)
    else
      match useTheme.validate (useTheme.brand s) with
      | Some e => (useTheme.with_classList stripped page, Some e)
      | None =>
          ({| useTheme.classList :=
                useTheme.with_token (useTheme.brand s)
                  (useTheme.with_token (mode_class (useTheme.mode s))
                     (useTheme.without [useTheme.brand s]
                        (useTheme.without [useTheme.brand s] stripped)));
              useTheme.localStorage := stored;
              useTheme.matchMedia := useTheme.matchMedia page |}, None)
      end.
Proof.
  unfold useTheme.effect, useTheme.applyTheme, mode_class. cbv zeta.
  destruct (useTheme.brand s =? "default"); cbn [negb].
  - unfold useTheme.and_then, useTheme.remove, useTheme.nothing.
    change (useTheme.validate_all ["light-mode"; "dark-mode"]) with (@None useTheme.DOMException).
    cbv iota beta.
    destruct (useTheme.mode s =? "dark"); reflexivity.
  - unfold useTheme.and_then, useTheme.remove, useTheme.nothing.
    change (useTheme.validate_all ["light-mode"; "dark-mode"]) with (@None useTheme.DOMException).
    cbv iota beta. cbn [useTheme.validate_all].
    destruct (useTheme.validate (useTheme.brand s)) eqn:Hvalid; [reflexivity |].
    destruct (useTheme.mode s =? "dark"); unfold useTheme.add; rewrite Hvalid;
      reflexivity.
Qed.

Lemma effect_keeps_classes (s : useTheme.State) (page : useTheme.Page) (c : string) :
  c <> "light-mode" -> c <> "dark-mode" ->
  In c (useTheme.classList page) ->
  In c (useTheme.classList (page_after s page)).
Proof.
  intros Hlight Hdark Hin.
  assert (Hstripped : In c (useTheme.without ["light-mode"; "dark-mode"]
                              (useTheme.classList page))).
  { apply in_without. split; [exact Hin |]. cbn [In]. intuition congruence. }
  unfold page_after. rewrite effect_outcome. cbv zeta.
  destruct (useTheme.brand s =? "default").
  - cbn [fst useTheme.classList]. apply in_with_token. now left.
  - destruct (useTheme.validate (useTheme.brand s)); cbn [fst useTheme.classList];
      [exact Hstripped |].
    apply in_with_token.
    destruct (String.eqb_spec c (useTheme.brand s)) as [-> | Hne]; [now right |].
    left. apply in_with_token. left.
    apply in_without. split; [| cbn [In]; intuition congruence].
    apply in_without. split; [exact Hstripped | cbn [In]; intuition congruence].
Qed.

Lemma step_keeps_classes (e : useTheme.Event) (hook : useTheme.Hook) (c : string) :
  c <> "light-mode" -> c <> "dark-mode" ->
  In c (useTheme.classList (snd hook)) ->
  In c (useTheme.classList (final_page (useTheme.step e hook))).
Proof.
  intros Hlight Hdark Hin. destruct hook as [s page]. unfold useTheme.step.
  destruct ((useTheme.mode (useTheme.dispatch e s) =? useTheme.mode s)
            && (useTheme.brand (useTheme.dispatch e s) =? useTheme.brand s));
    [exact Hin |].
  pose proof (@effect_keeps_classes (useTheme.dispatch e s) page c Hlight Hdark Hin)
    as Hkept.
  unfold page_after in Hkept.
  destruct (useTheme.effect (useTheme.dispatch e s) page). exact Hkept.
Qed.

(** X24: the hook takes no class off the root element but [light-mode]
    and [dark-mode]: whatever the events, a class that is on it stays on
    it.  The class of a brand is among them: after a change of brand the
    class of the brand before is still there. *)
Theorem brand_class_is_never_removed (events : list useTheme.Event)
    (hook : useTheme.Hook) (c : string) :
  c <> "light-mode" -> c <> "dark-mode" ->
  In c (useTheme.classList (snd hook)) ->
  In c (useTheme.classList (final_page (useTheme.run events hook))).
Proof.
  intros Hlight Hdark. revert hook.
  induction events as [| e events IH]; intros hook Hin; [exact Hin |].
  cbn [useTheme.run].
  pose proof (@step_keeps_classes e hook c Hlight Hdark Hin) as Hstep.
  destruct (useTheme.step e hook) as [hook' [thrown |]]; [exact Hstep |].
  apply IH. exact Hstep.
Qed.

Lemma brand_class_witness :
  In "brand-alpha"
    (useTheme.classList
       (final_page
          (useTheme.run
             [switchBrand {| useTheme.mode := "light"; useTheme.brand := "brand-alpha" |}]
             ({| useTheme.mode := "light"; useTheme.brand := "brand-alpha" |},
              {| useTheme.classList := ["light-mode"; "brand-alpha"];
                 useTheme.localStorage := [("themeBrand", "brand-alpha")];
                 useTheme.matchMedia := None |})))).
Proof.
  apply (@brand_class_is_never_removed
           [switchBrand {| useTheme.mode := "light"; useTheme.brand := "brand-alpha" |}]
           ({| useTheme.mode := "light"; useTheme.brand := "brand-alpha" |},
            {| useTheme.classList := ["light-mode"; "brand-alpha"];
               useTheme.localStorage := [("themeBrand", "brand-alpha")];
               useTheme.matchMedia := None |})
           "brand-alpha").
  - discriminate.
  - discriminate.
  - right. left. reflexivity.
Defined.

(** X25: after an effect that does not throw, the root element has the
    class of the mode and not the other one -- [dark-mode] for the mode
    [dark], [light-mode] for every other -- unless the brand is called
    like one of the two. *)
Theorem mode_class_follows_the_mode (s : useTheme.State) (page : useTheme.Page) :
  snd (useTheme.effect s page) = None ->
  useTheme.brand s <> "light-mode" -> useTheme.brand s <> "dark-mode" ->
  forall c, In c ["light-mode"; "dark-mode"] ->
    In c (useTheme.classList (page_after s page))
    <-> c = mode_class (useTheme.mode s).
Proof.
  intros Hdone Hlight Hdark c Hc. unfold page_after.
  rewrite effect_outcome in Hdone |- *. cbv zeta in Hdone |- *.
  assert (Hstripped : ~ In c (useTheme.without ["light-mode"; "dark-mode"]
                                (useTheme.classList page))).
  { rewrite in_without. tauto. }
  assert (Hbrand : c <> useTheme.brand s).
  { cbn [In] in Hc. intuition congruence. }
  destruct (useTheme.brand s =? "default").
  - cbn [fst useTheme.classList]. rewrite in_with_token. tauto.
  - destruct (useTheme.validate (useTheme.brand s)); [discriminate Hdone |].
    cbn [fst useTheme.classList]. rewrite !in_with_token, !in_without. tauto.
Qed.

Lemma mode_class_witness :
  In "dark-mode"
    (useTheme.classList
       (page_after {| useTheme.mode := "dark"; useTheme.brand := "brand-alpha" |}
          {| useTheme.classList := ["light-mode"; "app"];
             useTheme.localStorage := [];
             useTheme.matchMedia := None |})).
Proof.
  apply (@mode_class_follows_the_mode
           {| useTheme.mode := "dark"; useTheme.brand := "brand-alpha" |}
           {| useTheme.classList := ["light-mode"; "app"];
              useTheme.localStorage := [];
              useTheme.matchMedia := None |}
           eq_refl ltac:(discriminate) ltac:(discriminate) "dark-mode").
  - right. left. reflexivity.
  - reflexivity.
Defined.

Lemma validate_not_empty (token : string) :
  useTheme.validate token = None -> (token =? "") = false.
Proof.
  unfold useTheme.validate. destruct (token =? ""); [discriminate | reflexivity].
Qed.

(** X26: the theme comes back after a reload.  After an effect that
    does not throw, what [getInitialMode] and [getInitialBrand] read
    from the page is the mode and the brand of that render -- the mode
    whatever text it is, provided it is not empty. *)
Theorem theme_is_restored (s : useTheme.State) (page : useTheme.Page) :
  snd (useTheme.effect s page) = None ->
  useTheme.mode s <> "" ->
  useTheme.getInitialMode (Some (page_after s page)) = useTheme.mode s /\
  useTheme.getInitialBrand (Some (page_after s page)) = useTheme.brand s.
Proof.
  intros Hdone Hmode. unfold page_after.
  rewrite effect_outcome in Hdone |- *. cbv zeta in Hdone |- *.
  assert (Hread : forall classes,
    let page' := {| useTheme.classList := classes;
                    useTheme.localStorage :=
                      spread_set "themeBrand" (useTheme.brand s)
                        (spread_set "themeMode" (useTheme.mode s)
                           (useTheme.localStorage page));
                    useTheme.matchMedia := useTheme.matchMedia page |} in
    (useTheme.brand s =? "") = false ->
    useTheme.getInitialMode (Some page') = useTheme.mode s /\
    useTheme.getInitialBrand (Some page') = useTheme.brand s).
  { intros classes page' Hbrand.
    unfold useTheme.getInitialMode, useTheme.getInitialBrand, useTheme.getItem.
    cbn [useTheme.localStorage page' useTheme.matchMedia].
    rewrite !property_spread_set.
    change ("themeBrand" =? "themeMode") with false.
    change ("themeMode" =? "themeMode") with true.
    change ("themeBrand" =? "themeBrand") with true.
    cbn [or_else]. rewrite Hbrand.
    destruct (String.eqb_spec (useTheme.mode s) ""); [contradiction | tauto]. }
  destruct (String.eqb_spec (useTheme.brand s) "default") as [Hdefault | _].
  - cbn [fst]. apply Hread. rewrite Hdefault. reflexivity.
  - destruct (useTheme.validate (useTheme.brand s)) eqn:Hvalid; [discriminate Hdone |].
    cbn [fst]. apply Hread. exact (validate_not_empty _ Hvalid).
Qed.

Lemma theme_is_restored_witness :
  useTheme.getInitialMode
    (Some (page_after {| useTheme.mode := "dark"; useTheme.brand := "brand-alpha" |}
             {| useTheme.classList := [];
                useTheme.localStorage := [("themeMode", "light")];
                useTheme.matchMedia := Some false |}))
  = "dark".
Proof.
  refine (proj1 (@theme_is_restored
                   {| useTheme.mode := "dark"; useTheme.brand := "brand-alpha" |}
                   {| useTheme.classList := [];
                      useTheme.localStorage := [("themeMode", "light")];
                      useTheme.matchMedia := Some false |} eq_refl _)).
  discriminate.
Defined.

(** X27: a brand that is no class token -- the empty text, or one with
    a blank in it -- makes the effect throw at its first [remove]: by
    then the two mode classes are off the root element, and neither is
    put back; nothing is stored. *)
Theorem bad_brand_strips_the_mode (s : useTheme.State) (page : useTheme.Page)
    (e : useTheme.DOMException) :
  useTheme.validate (useTheme.brand s) = Some e ->
  snd (useTheme.effect s page) = Some e /\
  useTheme.localStorage (page_after s page) = useTheme.localStorage page /\
  forall c, In c (useTheme.classList (page_after s page))
            <-> In c (useTheme.classList page)
                /\ c <> "light-mode" /\ c <> "dark-mode".
Proof.
  intros Hvalid. unfold page_after. rewrite effect_outcome. cbv zeta.
  destruct (String.eqb_spec (useTheme.brand s) "default") as [Hdefault | _].
  - rewrite Hdefault in Hvalid. discriminate Hvalid.
  - rewrite Hvalid. cbn [fst snd]. repeat split.
    + apply in_without in H. tauto.
    + apply in_without in H. cbn [In] in H. intuition congruence.
    + apply in_without in H. cbn [In] in H. intuition congruence.
    + intros (Hin & Hlight & Hdark). apply in_without. cbn [In]. intuition congruence.
Qed.

Lemma bad_brand_witness :
  snd (useTheme.effect {| useTheme.mode := "dark"; useTheme.brand := "brand alpha" |}
         {| useTheme.classList := ["dark-mode"];
            useTheme.localStorage := [];
            useTheme.matchMedia := None |})
  = Some useTheme.InvalidCharacterError.
Proof.
  exact (proj1 (@bad_brand_strips_the_mode
                  {| useTheme.mode := "dark"; useTheme.brand := "brand alpha" |}
                  {| useTheme.classList := ["dark-mode"];
                     useTheme.localStorage := [];
                     useTheme.matchMedia := None |}
                  useTheme.InvalidCharacterError eq_refl)).
Defined.
